(** * Air-Quality-check: AQI derivation, feature engineering, forecasting
      guards and health-risk scoring

    A shallow embedding of the computational core of the dashboard:

    - [AQI]      : [DataCollector._calculate_aqi] (src/data_collector.py)
    - [Risk]     : [HealthRiskAnalyzer.calculate_health_risk_score]
                   (src/health_risk_analysis.py)
    - [Features] : [AirQualityPredictor.prepare_features] (src/ml_models.py)
    - [Forecast] : [AirQualityPredictor.train_arima] and
                   [AirQualityPredictor.predict_next_day_rf] (src/ml_models.py)
    - [Display]  : [get_aqi_color], [get_aqi_category], [get_health_message]
                   (src/visualization_utils.py)
    - [Population], [Impact], [VulnerabilityMap] :
                   [get_vulnerable_populations_at_risk],
                   [calculate_health_impact_metrics] and
                   [create_vulnerability_map_data] of [HealthRiskAnalyzer]
    - [Training], [Predictor] : [train_random_forest],
                   [predict_next_day_arima] and [get_model_performance] of
                   [AirQualityPredictor]
    - [Synthetic] : [DataCollector._generate_historical_data]

    Libraries.  numpy, scikit-learn and statsmodels are parameters of the
    model (the classes [Numpy], [Sklearn], [Forest], [Fitted], [Noise] and
    the [Fit] node of a run): every statement holds whatever they compute.

    Tables.  A table is a list of records with the columns of the
    collector's generated history (timestamp, city, location and seven
    numeric columns, see [Measurement]); a statement that depends on the set
    of columns is made for generated histories.

    Numbers.  Python floats are modelled by exact rationals ([Q], compared
    with [==]); a missing value (NaN, as tested by [pd.isna]) is [None] in an
    [option Q] cell.  Python dictionaries that are only looked up are finite
    maps ([gmap string _]); the one dictionary that is iterated
    ([vulnerability_factors]) and the column list of a data frame keep their
    insertion order and are association lists. *)

From Stdlib Require Import QArith Qminmax Qround Lqa ZArith Lia.
From stdpp Require Import base option list gmap strings pretty sorting.

(** ** Python built-ins used by the sources *)

Module Py.
Local Open Scope Q_scope.

(** [a < b] on floats, as a boolean. *)
Definition ltb (a b : Q) : bool := negb (Qle_bool b a).

(** [a <= b] on floats, as a boolean. *)
Definition leb (a b : Q) : bool := Qle_bool a b.

(** [max(a, b)]: the second argument wins only when it is strictly larger. *)
Definition max (a b : Q) : Q := if ltb a b then b else a.

(** [min(a, b)]: the second argument wins only when it is strictly smaller. *)
Definition min (a b : Q) : Q := if ltb b a then b else a.

(** [max(xs)] for a non-empty list, [None] standing for the [ValueError] that
    Python raises on an empty one. *)
Definition max_list (xs : list Q) : option Q :=
  match xs with
  | [] => None
  | x :: rest => Some (foldl max x rest)
  end.

(** [sum(xs)]. *)
Definition sum (xs : list Q) : Q := foldl Qplus 0 xs.

End Py.

(** ** DataCollector._calculate_aqi *)

Module AQI.
Local Open Scope Q_scope.

(** A breakpoint bracket [(bp_lo, bp_hi, aqi_lo, aqi_hi)]. *)
Definition bracket : Type := Q * Q * Q * Q.

(** The [breakpoints] dictionary of [get_aqi_value]. *)
Definition breakpoints : gmap string (list bracket) :=
  list_to_map
    [ ("pm25"%string,
        [ (0, 12, 0, 50); (12.1, 35.4, 51, 100); (35.5, 55.4, 101, 150);
          (55.5, 150.4, 151, 200); (150.5, 250.4, 201, 300);
          (250.5, 500.4, 301, 500) ]);
      ("pm10"%string,
        [ (0, 54, 0, 50); (55, 154, 51, 100); (155, 254, 101, 150);
          (255, 354, 151, 200); (355, 424, 201, 300); (425, 604, 301, 500) ]);
      ("no2"%string,
        [ (0, 53, 0, 50); (54, 100, 51, 100); (101, 360, 101, 150);
          (361, 649, 151, 200); (650, 1249, 201, 300);
          (1250, 2049, 301, 500) ]) ].

(** The [for bp_lo, bp_hi, aqi_lo, aqi_hi in breakpoints[pollutant]] loop with
    its early [return], followed by the final [return 500]. *)
Fixpoint scan_brackets (bps : list bracket) (concentration : Q) : Q :=
  match bps with
  | [] => 500
  | (bp_lo, bp_hi, aqi_lo, aqi_hi) :: rest =>
      if Py.leb bp_lo concentration && Py.leb concentration bp_hi
      then ((aqi_hi - aqi_lo) / (bp_hi - bp_lo)) * (concentration - bp_lo) + aqi_lo
      else scan_brackets rest concentration
  end.

(** [get_aqi_value(concentration, pollutant)]; a NaN concentration is [None]. *)
Definition get_aqi_value (concentration : option Q) (pollutant : string) : Q :=
  match breakpoints !! pollutant, concentration with
  | Some bps, Some c => scan_brackets bps c
  | _, _ => 0
  end.

(** A row handed to [_calculate_aqi] by [DataFrame.apply(axis=1)]: the
    columns that exist, each holding a float or NaN. *)
Abbreviation row := (gmap string (option Q)).

(** The list the [for pollutant in ...] loop of [_calculate_aqi] runs over. *)
Definition pollutants : list string := ["pm25"; "pm10"; "no2"]%string.

(** The body of that loop, acting on the accumulator [aqi_values]. *)
Definition collect (r : row) (aqi_values : list Q) (pollutant : string) : list Q :=
  match r !! pollutant with
  | Some (Some c) =>
      let aqi_val := get_aqi_value (Some c) pollutant in
      if Py.ltb 0 aqi_val then aqi_values ++ [aqi_val] else aqi_values
  | _ => aqi_values
  end.

(** [_calculate_aqi(row)]. *)
Definition _calculate_aqi (r : row) : Q :=
  let aqi_values := foldl (collect r) [] pollutants in
  match Py.max_list aqi_values with
  | Some m => m
  | None => 100
  end.

(** *** Vocabulary of the specification *)

(** [c] lies within the bracket [b]. *)
Definition in_bracket (c : Q) (b : bracket) : Prop :=
  let '(bp_lo, bp_hi, _, _) := b in bp_lo <= c /\ c <= bp_hi.

(** [c] lies within one of the brackets of [pollutant]'s table. *)
Definition covered (pollutant : string) (c : Q) : Prop :=
  exists bps b, breakpoints !! pollutant = Some bps /\ b ∈ bps /\ in_bracket c b.

(** The straight line through [(bp_lo, aqi_lo)] and [(bp_hi, aqi_hi)]. *)
Definition interpolate (b : bracket) (c : Q) : Q :=
  let '(bp_lo, bp_hi, aqi_lo, aqi_hi) := b in
  ((aqi_hi - aqi_lo) / (bp_hi - bp_lo)) * (c - bp_lo) + aqi_lo.

(** The sub-index of [pollutant] in [r], when the pollutant is present and
    not NaN. *)
Definition sub_index (r : row) (pollutant : string) : option Q :=
  match r !! pollutant with
  | Some (Some c) => Some (get_aqi_value (Some c) pollutant)
  | _ => None
  end.

(** The sub-indices of the pollutants of [r] that are present and not NaN,
    in the order the loop visits them. *)
Definition sub_indices (r : row) : list Q := omap (sub_index r) pollutants.

(** The overall AQI as the specification words it: the maximum of the
    sub-indices of the pollutants present and non-missing. *)
Definition spec_overall_aqi (r : row) : option Q := Py.max_list (sub_indices r).

(** A table whose brackets follow one another: each starts above the upper
    end [h] of the one before, is not empty, and its AQI range starts at or
    above the ceiling [a] of the one before and stays within 500. *)
Fixpoint ascending (h a : Q) (bps : list bracket) : Prop :=
  match bps with
  | [] => a <= 500
  | (lo, hi, alo, ahi) :: rest =>
      h < lo /\ lo < hi /\ a <= alo /\ alo <= ahi /\ ascending hi ahi rest
  end.

(** The test [aqi_val > 0] of the loop. *)
Definition positive (x : Q) : bool := Py.ltb 0 x.

End AQI.

(** ** HealthRiskAnalyzer.calculate_health_risk_score *)

Module Risk.
Local Open Scope Q_scope.

(** [self.vulnerability_factors]; the dictionary is iterated with [.items()],
    so its insertion order is kept. *)
Definition vulnerability_factors : list (string * Q) :=
  [ ("children_under_5"%string, 1.8);
    ("elderly_over_65"%string, 1.6);
    ("respiratory_conditions"%string, 2.2);
    ("cardiovascular_conditions"%string, 1.9);
    ("pregnant_women"%string, 1.4);
    ("outdoor_workers"%string, 1.5) ].

(** One entry of [self.city_demographics]. *)
Definition demographics_of (children elderly respiratory cardiovascular
    pregnant outdoor population low_income : Q) : gmap string Q :=
  list_to_map
    [ ("children_under_5"%string, children);
      ("elderly_over_65"%string, elderly);
      ("respiratory_conditions"%string, respiratory);
      ("cardiovascular_conditions"%string, cardiovascular);
      ("pregnant_women"%string, pregnant);
      ("outdoor_workers"%string, outdoor);
      ("population"%string, population);
      ("low_income_percentage"%string, low_income) ].

Definition Delhi : gmap string Q :=
  demographics_of 8.2 4.6 12.5 8.9 2.1 28.5 32900000 35.2.
Definition Mumbai : gmap string Q :=
  demographics_of 7.8 5.2 10.8 7.6 1.9 31.2 20700000 41.3.
Definition Kolkata : gmap string Q :=
  demographics_of 8.9 6.1 14.2 9.8 2.0 25.7 15000000 32.8.
Definition Chennai : gmap string Q :=
  demographics_of 7.5 5.8 9.8 7.2 1.8 23.4 11700000 29.6.
Definition Bangalore : gmap string Q :=
  demographics_of 7.2 4.9 8.9 6.8 1.9 22.1 13200000 26.4.
Definition Hyderabad : gmap string Q :=
  demographics_of 7.8 5.1 10.2 7.5 2.0 24.8 10500000 31.2.

(** [self.city_demographics]. *)
Definition city_demographics : gmap string (gmap string Q) :=
  list_to_map
    [ ("Delhi"%string, Delhi); ("Mumbai"%string, Mumbai);
      ("Kolkata"%string, Kolkata); ("Chennai"%string, Chennai);
      ("Bangalore"%string, Bangalore); ("Hyderabad"%string, Hyderabad) ].

(** The [if aqi_value <= 50: ... else: base_risk = 1.0] chain of
    [calculate_health_risk_score]. *)
Definition base_risk (aqi_value : Q) : Q :=
  if Py.leb aqi_value 50 then 0.1
  else if Py.leb aqi_value 100 then 0.3
  else if Py.leb aqi_value 150 then 0.6
  else if Py.leb aqi_value 200 then 0.8
  else if Py.leb aqi_value 300 then 0.95
  else 1.0.

(** The body of the [for group, vulnerability in ...items()] loop, acting on
    the pair [(total_risk, total_population_factor)]. *)
Definition accumulate (demographics : gmap string Q) (base : Q)
    (totals : Q * Q) (item : string * Q) : Q * Q :=
  let '(total_risk, total_population_factor) := totals in
  let '(group, vulnerability) := item in
  match demographics !! group with
  | Some share =>
      let pop_percentage := share / 100 in
      let group_risk := base * vulnerability * pop_percentage in
      (total_risk + group_risk, total_population_factor + pop_percentage)
  | None => totals
  end.

(** [calculate_health_risk_score(aqi_value, city_name)]; [None] stands for the
    [KeyError] of a failed dictionary subscript. *)
Definition calculate_health_risk_score (aqi_value : Q) (city_name : string)
    : option Q :=
  let city_name :=
    match city_demographics !! city_name with
    | None => "Delhi"%string
    | Some _ => city_name
    end in
  demographics ← city_demographics !! city_name;
  let base := base_risk aqi_value in
  let '(total_risk, total_population_factor) :=
    foldl (accumulate demographics base) (0, 0) vulnerability_factors in
  let weighted_risk :=
    if Py.ltb 0 total_population_factor
    then total_risk / total_population_factor
    else base in
  low_income ← demographics !! "low_income_percentage"%string;
  let low_income_factor := 1 + (low_income / 100 * 0.3) in
  let final_risk := Py.min (weighted_risk * low_income_factor) 1.0 in
  Some final_risk.

(** *** Vocabulary of the specification *)

(** The population share of [group] in a city, as a fraction. *)
Definition group_share (demographics : gmap string Q) (group : string) : Q :=
  default 0 (demographics !! group) / 100.

(** [Σ base_risk × multiplier × group_share] over the six groups. *)
Definition risk_sum (demographics : gmap string Q) (base : Q) : Q :=
  Py.sum (map (fun item => base * item.2 * group_share demographics item.1)
              vulnerability_factors).

(** [Σ group_share] over the six groups. *)
Definition share_sum (demographics : gmap string Q) : Q :=
  Py.sum (map (fun item => group_share demographics item.1) vulnerability_factors).

(** The simple (unweighted) mean of the six group risks. *)
Definition simple_mean_risk (base : Q) : Q :=
  Py.sum (map (fun item => base * item.2) vulnerability_factors) / 6.

(** The part of [calculate_health_risk_score] that follows the choice of the
    city's demographics. *)
Definition score_with (demographics : gmap string Q) (aqi_value : Q) : option Q :=
  let base := base_risk aqi_value in
  let '(total_risk, total_population_factor) :=
    foldl (accumulate demographics base) (0, 0) vulnerability_factors in
  let weighted_risk :=
    if Py.ltb 0 total_population_factor
    then total_risk / total_population_factor
    else base in
  low_income ← demographics !! "low_income_percentage"%string;
  Some (Py.min (weighted_risk * (1 + (low_income / 100 * 0.3))) 1.0).

End Risk.

(** ** Calendar fields of a timestamp *)

(** A pandas [Timestamp] is modelled by the number of seconds since
    1970-01-01 00:00:00 (time-zone naive). *)
Module Calendar.
Local Open Scope Z_scope.

Definition days (t : Z) : Z := t / 86400.

(** [.dt.hour] *)
Definition hour (t : Z) : Z := (t / 3600) mod 24.

(** [.dt.dayofweek]: Monday is 0; day 0 of the epoch was a Thursday. *)
Definition dayofweek (t : Z) : Z := (days t + 3) mod 7.

(** Year, month and day-of-month of a day number (proleptic Gregorian
    calendar, years counted from 1 March). *)
Definition civil (z : Z) : Z * Z * Z :=
  let z := z + 719468 in
  let era := z / 146097 in
  let doe := z - era * 146097 in
  let yoe := (doe - doe / 1460 + doe / 36524 - doe / 146096) / 365 in
  let doy := doe - (365 * yoe + yoe / 4 - yoe / 100) in
  let mp := (5 * doy + 2) / 153 in
  let d := doy - (153 * mp + 2) / 5 + 1 in
  let m := if mp <? 10 then mp + 3 else mp - 9 in
  let y := yoe + era * 400 + (if m <=? 2 then 1 else 0) in
  (y, m, d).

Definition is_leap (y : Z) : bool :=
  (y mod 4 =? 0) && (negb (y mod 100 =? 0) || (y mod 400 =? 0)).

(** [.dt.month] *)
Definition month (t : Z) : Z := let '(_, m, _) := civil (days t) in m.

(** [.dt.dayofyear] *)
Definition dayofyear (t : Z) : Z :=
  let '(y, m, d) := civil (days t) in
  let before :=
    nth (Z.to_nat (m - 1)) [0; 31; 59; 90; 120; 151; 181; 212; 243; 273; 304; 334] 0 in
  before + d + (if (2 <? m) && is_leap y then 1 else 0).

End Calendar.

(** ** AirQualityPredictor.prepare_features *)

Module Features.

(** The numerical routines of numpy that the features rely on.  They are
    parameters of the model: no statement depends on their values. *)
Class Numpy := {
  np_sqrt : Q -> Q;
  np_sin : Q -> Q;
  np_pi : Q;
  (** the draws of one call of [np.random.random(n)], by position *)
  np_random : nat -> Q
}.

(** One record of a table with the columns of the collector's generated
    history ([DataCollector._generate_historical_data]): [timestamp],
    [city], [location] and the seven numeric columns; [None] is NaN.  Tables
    with other columns (the pivot of an OpenAQ answer has one column per
    parameter reported) are outside the model. *)
Record Measurement := {
  timestamp : Z;
  city : string;
  location : string;
  pm25 : option Q;
  pm10 : option Q;
  no2 : option Q;
  so2 : option Q;
  o3 : option Q;
  co : option Q;
  aqi : option Q
}.

(** A numeric column (a pandas [Series] of floats). *)
Abbreviation Series := (list (option Q)).

(** A data frame, column by column.  The three non-numeric columns are kept
    apart and hold no missing entry; the numeric ones keep their order and
    are addressed by name. *)
Record DataFrame := {
  timestamps : list Z;
  cities : list string;
  locations : list string;
  columns : list (string * Series)
}.

(** [pd.DataFrame()] *)
Definition empty_frame : DataFrame :=
  {| timestamps := []; cities := []; locations := []; columns := [] |}.

(** [len(data)] *)
Definition nrows (data : DataFrame) : nat := length (timestamps data).

(** [pd.DataFrame(records)] for records with these columns. *)
Definition of_records (records : list Measurement) : DataFrame :=
  {| timestamps := map timestamp records;
     cities := map city records;
     locations := map location records;
     columns :=
       [ ("pm25"%string, map pm25 records); ("pm10"%string, map pm10 records);
         ("no2"%string, map no2 records); ("so2"%string, map so2 records);
         ("o3"%string, map o3 records); ("co"%string, map co records);
         ("aqi"%string, map aqi records) ] |}.

(** The order of [sort_values]: by timestamp. *)
Definition not_later (a b : Measurement) : Prop :=
  (timestamp a <= timestamp b)%Z.

#[global] Instance not_later_dec : RelDecision not_later :=
  fun a b => Z.le_dec (timestamp a) (timestamp b).

(** [data.sort_values("timestamp")].  pandas does not fix the order of rows
    with equal timestamps; no statement below depends on it. *)
Definition sort_values (records : list Measurement) : list Measurement :=
  merge_sort not_later records.

(** [name in data.columns], and [data[name]] when it is. *)
Fixpoint lookup_col (name : string) (cols : list (string * Series)) : option Series :=
  match cols with
  | [] => None
  | (n, s) :: rest => if String.eqb n name then Some s else lookup_col name rest
  end.

(** [data[name] = s] on the column list: an existing column is replaced in
    place, a new one is appended. *)
Fixpoint assign_col (name : string) (s : Series) (cols : list (string * Series))
    : list (string * Series) :=
  match cols with
  | [] => [(name, s)]
  | (n, s0) :: rest =>
      if String.eqb n name then (n, s) :: rest
      else (n, s0) :: assign_col name s rest
  end.

Definition set_col (name : string) (s : Series) (data : DataFrame) : DataFrame :=
  {| timestamps := timestamps data;
     cities := cities data;
     locations := locations data;
     columns := assign_col name s (columns data) |}.

(** [data[name]] for a column that was assigned before. *)
Definition column (name : string) (data : DataFrame) : Series :=
  default [] (lookup_col name (columns data)).

(** [series.shift(period)]: row [i] receives the value of row [i - period],
    the first [period] rows receive NaN. *)
Definition shift (period : nat) (s : Series) : Series :=
  take (length s) (replicate period None ++ s).

(** The [window] values that end at row [i], when there are [window] rows up
    to [i] and none of them is NaN ([min_periods] defaults to [window]). *)
Definition window_at (window : nat) (s : Series) (i : nat) : option (list Q) :=
  if decide (window <= S i)%nat
  then mapM id (take window (drop (S i - window) s))
  else None.

Definition mean (xs : list Q) : Q :=
  (Py.sum xs / inject_Z (Z.of_nat (length xs)))%Q.

(** Sample standard deviation ([ddof=1]); NaN for fewer than two values. *)
Definition std `{Numpy} (xs : list Q) : option Q :=
  if decide (length xs <= 1)%nat then None
  else
    let m := mean xs in
    Some (np_sqrt (Py.sum (map (fun x => (x - m) * (x - m)) xs)
                   / inject_Z (Z.of_nat (length xs - 1)))%Q).

(** [series.rolling(window=window).mean()] *)
Definition rolling_mean (window : nat) (s : Series) : Series :=
  imap (fun i _ => mean <$> window_at window s i) s.

(** [series.rolling(window=window).std()] *)
Definition rolling_std `{Numpy} (window : nat) (s : Series) : Series :=
  imap (fun i _ => window_at window s i ≫= std) s.

Definition lag_periods : list nat := [1; 3; 6; 12; 24]%nat.
Definition window_sizes : list nat := [6; 12; 24]%nat.

(** The list of column names both inner loops run over. *)
Definition source_columns : list string := ["pm25"; "pm10"; "no2"; "aqi"]%string.

(** A time-based column: a calendar field of every timestamp. *)
Definition temporal (f : Z -> Z) (data : DataFrame) : Series :=
  map (fun t => Some (inject_Z (f t))) (timestamps data).

Definition add_temporal (data : DataFrame) : DataFrame :=
  let data := set_col "hour" (temporal Calendar.hour data) data in
  let data := set_col "day_of_week" (temporal Calendar.dayofweek data) data in
  let data := set_col "month" (temporal Calendar.month data) data in
  set_col "day_of_year" (temporal Calendar.dayofyear data) data.

(** The body of the inner loop over the lag periods. *)
Definition add_lag (period : nat) (data : DataFrame) (col : string) : DataFrame :=
  match lookup_col col (columns data) with
  | Some s => set_col (col +:+ "_lag_" +:+ pretty period) (shift period s) data
  | None => data
  end.

(** The body of the inner loop over the rolling windows. *)
Definition add_rolling `{Numpy} (window : nat) (data : DataFrame) (col : string)
    : DataFrame :=
  match lookup_col col (columns data) with
  | Some s =>
      let data :=
        set_col (col +:+ "_rolling_mean_" +:+ pretty window) (rolling_mean window s) data in
      match lookup_col col (columns data) with
      | Some s =>
          set_col (col +:+ "_rolling_std_" +:+ pretty window) (rolling_std window s) data
      | None => data
      end
  | None => data
  end.

(** The entries of the three synthetic weather columns. *)
Definition temp_estimate `{Numpy} (hour day_of_year : option Q) : option Q :=
  h ← hour; d ← day_of_year;
  Some (25 + 10 * np_sin (2 * np_pi * h / 24) + 5 * np_sin (2 * np_pi * d / 365))%Q.

Definition humidity_estimate `{Numpy} (hour : option Q) : option Q :=
  h ← hour; Some (60 + 20 * np_sin (2 * np_pi * (h + 6) / 24))%Q.

Definition wind_speed_estimate `{Numpy} (i : nat) : option Q :=
  Some (5 + 3 * np_random i)%Q.

Definition add_weather `{Numpy} (data : DataFrame) : DataFrame :=
  let data :=
    set_col "temp_estimate"
      (zip_with temp_estimate (column "hour" data) (column "day_of_year" data))
      data in
  let data :=
    set_col "humidity_estimate" (humidity_estimate <$> column "hour" data) data in
  set_col "wind_speed_estimate"
    (wind_speed_estimate <$> seq 0 (nrows data)) data.

(** The table just before [data.dropna()]: [records] sorted by time, with
    the temporal, lag, rolling and weather columns added. *)
Definition feature_table `{Numpy} (records : list Measurement) : DataFrame :=
  let data := of_records (sort_values records) in
  let data := add_temporal data in
  let data :=
    foldl (fun data period => foldl (add_lag period) data source_columns)
          data lag_periods in
  let data :=
    foldl (fun data window => foldl (add_rolling window) data source_columns)
          data window_sizes in
  add_weather data.

(** Whether a cell holds a value (not NaN). *)
Definition notna (s : Series) (i : nat) : bool :=
  match s !! i with
  | Some (Some _) => true
  | _ => false
  end.

(** Whether row [i] holds no NaN. *)
Definition row_complete (data : DataFrame) (i : nat) : bool :=
  forallb (fun c => notna c.2 i) (columns data).

(** Keep the entries of [xs] whose position is marked in [mask]. *)
Fixpoint select {A} (mask : list bool) (xs : list A) : list A :=
  match mask, xs with
  | b :: mask, x :: xs => if b then x :: select mask xs else select mask xs
  | _, _ => []
  end.

(** [data.dropna()] *)
Definition dropna (data : DataFrame) : DataFrame :=
  let keep := map (row_complete data) (seq 0 (nrows data)) in
  {| timestamps := select keep (timestamps data);
     cities := select keep (cities data);
     locations := select keep (locations data);
     columns := map (fun c => (c.1, select keep c.2)) (columns data) |}.

(** [prepare_features(df)] *)
Definition prepare_features `{Numpy} (df : list Measurement) : DataFrame :=
  match df with
  | [] => empty_frame
  | _ => dropna (feature_table df)
  end.

(** *** Vocabulary of the specification *)

(** The value of column [name] at row [i]. *)
Definition cell (name : string) (i : nat) (data : DataFrame) : option (option Q) :=
  lookup_col name (columns data) ≫= fun s => s !! i.

(** No value is missing in a record. *)
Definition complete (m : Measurement) : Prop :=
  is_Some (pm25 m) /\ is_Some (pm10 m) /\ is_Some (no2 m) /\ is_Some (so2 m)
  /\ is_Some (o3 m) /\ is_Some (co m) /\ is_Some (aqi m).

(** The names of the lag columns and of the rolling columns. *)
Definition lag_names : list string :=
  period ← lag_periods; col ← source_columns;
  [col +:+ "_lag_" +:+ pretty period].

Definition rolling_names : list string :=
  window ← window_sizes; col ← source_columns;
  [col +:+ "_rolling_mean_" +:+ pretty window;
   col +:+ "_rolling_std_" +:+ pretty window].

(** The frame without its first [k] rows. *)
Definition drop_rows (k : nat) (data : DataFrame) : DataFrame :=
  {| timestamps := drop k (timestamps data);
     cities := drop k (cities data);
     locations := drop k (locations data);
     columns := map (fun c => (c.1, drop k c.2)) (columns data) |}.

(** A column without NaN. *)
Definition full (col : Series) : Prop := Forall is_Some col.

(** The numeric columns of the table before [dropna], for records already
    sorted by time. *)
Definition layout `{Numpy} (s : list Measurement) : list (string * Series) :=
  let data := of_records s in
  columns data
  ++ [ ("hour"%string, temporal Calendar.hour data);
       ("day_of_week"%string, temporal Calendar.dayofweek data);
       ("month"%string, temporal Calendar.month data);
       ("day_of_year"%string, temporal Calendar.dayofyear data) ]
  ++ (period ← lag_periods; col ← source_columns;
      [(col +:+ "_lag_" +:+ pretty period, shift period (column col data))])
  ++ (window ← window_sizes; col ← source_columns;
      [(col +:+ "_rolling_mean_" +:+ pretty window, rolling_mean window (column col data));
       (col +:+ "_rolling_std_" +:+ pretty window, rolling_std window (column col data))])
  ++ [ ("temp_estimate"%string,
         zip_with temp_estimate (temporal Calendar.hour data)
                                (temporal Calendar.dayofyear data));
       ("humidity_estimate"%string, humidity_estimate <$> temporal Calendar.hour data);
       ("wind_speed_estimate"%string, wind_speed_estimate <$> seq 0 (nrows data)) ].

End Features.

(** ** AirQualityPredictor.train_arima and predict_next_day_rf *)

Module Forecast.
Import Features.

(** Python exceptions.  [Wrapped prefix e] is
    [Exception(f"{prefix}{str(e)}")], raised by the [except] clauses. *)
Inductive exn : Type :=
| ValueError (msg : string)
| KeyError (key : string)
| TypeError (msg : string)
| IndexError
| LibraryError (msg : string)
| Wrapped (prefix : string) (cause : exn).

(** What statsmodels returns from [ARIMA(...).fit()]. *)
Record ARIMAResults := {
  fittedvalues : list Q;
  aic : Q;
  bic : Q;
  llf : Q
}.

(** A fitted [RandomForestRegressor] and a fitted [StandardScaler], by what
    the predictor asks of them. *)
Record RandomForestRegressor := {
  predict : list (list Q) -> exn + list Q;
  feature_importances_ : list Q
}.

Record StandardScaler := {
  transform : list (list Q) -> exn + list (list Q)
}.

(** The metrics of scikit-learn used by [train_arima]; parameters of the
    model, like [Numpy]. *)
Class Sklearn := {
  mean_absolute_error : Series -> list Q -> exn + Q;
  mean_squared_error : Series -> list Q -> exn + Q
}.

(** The attributes of an [AirQualityPredictor] instance; [arima_model] holds
    the arguments of the [ARIMA(ts_data, order=...)] constructor. *)
Record AirQualityPredictor := {
  rf_model : option RandomForestRegressor;
  arima_model : option (Series * (nat * nat * nat));
  scaler : StandardScaler;
  feature_columns : option (list string);
  is_trained : bool;
  arima_fitted : option ARIMAResults
}.

Definition with_arima_model (self : AirQualityPredictor)
    (model : Series * (nat * nat * nat)) : AirQualityPredictor :=
  {| rf_model := rf_model self; arima_model := Some model;
     scaler := scaler self; feature_columns := feature_columns self;
     is_trained := is_trained self; arima_fitted := arima_fitted self |}.

Definition with_arima_fitted (self : AirQualityPredictor)
    (fitted : ARIMAResults) : AirQualityPredictor :=
  {| rf_model := rf_model self; arima_model := arima_model self;
     scaler := scaler self; feature_columns := feature_columns self;
     is_trained := is_trained self; arima_fitted := Some fitted |}.

(** A run of a method on the predictor: it returns or raises, leaving the
    predictor in some state, or it first asks statsmodels to fit an ARIMA
    model and goes on with the outcome. *)
Inductive Run (A : Type) : Type :=
| Return (self : AirQualityPredictor) (a : A)
| Raise (self : AirQualityPredictor) (e : exn)
| Fit (endog : Series) (order : nat * nat * nat) (k : exn + ARIMAResults -> Run A).

Arguments Return {A} self a.
Arguments Raise {A} self e.
Arguments Fit {A} endog order k.

(** [try: body except Exception as e: raise Exception(f"{prefix}{str(e)}")] *)
Fixpoint try_except {A} (prefix : string) (body : Run A) : Run A :=
  match body with
  | Return self a => Return self a
  | Raise self e => Raise self (Wrapped prefix e)
  | Fit endog order k => Fit endog order (fun outcome => try_except prefix (k outcome))
  end.

(** Whether a run asks for a model fit at all. *)
Definition fits {A} (r : Run A) : bool :=
  match r with
  | Fit _ _ _ => true
  | _ => false
  end.

(** [data[target_column]] on the table of [train_arima], whose index is the
    timestamp: a numeric column, or the exception of a subscript that
    [.resample("H").mean()] cannot serve. *)
Definition target_values (target_column : string) (data : list Measurement)
    : exn + Series :=
  match lookup_col target_column (columns (of_records data)) with
  | Some s => inr s
  | None =>
      if bool_decide (target_column ∈ ["city"; "location"]%string)
      then inl (TypeError "mean of a non-numeric column")
      else inl (KeyError target_column)
  end.

(** The hour a timestamp falls in. *)
Definition hour_bin (t : Z) : Z := (t / 3600)%Z.

(** The mean of the values of the rows that fall in hour [h], NaN when
    there is none. *)
Definition bin_mean (data : list Measurement) (values : Series) (h : Z) : option Q :=
  let members :=
    omap (fun mv : Measurement * option Q =>
            if bool_decide (hour_bin (timestamp mv.1) = h) then mv.2 else None)
         (zip data values) in
  match members with
  | [] => None
  | _ => Some (mean members)
  end.

(** [.resample("H").mean()] of a column of a table sorted by time: one entry
    per hour from the hour of the first row to the hour of the last. *)
Definition resample_hourly_mean (data : list Measurement) (values : Series) : Series :=
  match data with
  | [] => []
  | first :: _ =>
      let lo := hour_bin (timestamp first) in
      let hi := hour_bin (timestamp (List.last data first)) in
      map (fun k => bin_mean data values (lo + Z.of_nat k)%Z)
          (seq 0 (Z.to_nat (hi - lo + 1)))
  end.

(** [.fillna(method="ffill")]: a NaN takes the last value before it. *)
Fixpoint ffill_from (previous : option Q) (s : Series) : Series :=
  match s with
  | [] => []
  | c :: rest =>
      let c := match c with Some _ => c | None => previous end in
      c :: ffill_from c rest
  end.

Definition ffill (s : Series) : Series := ffill_from None s.

(** [ts_data] of [train_arima]. *)
Definition ts_data_of (data : list Measurement) (values : Series) : Series :=
  ffill (resample_hourly_mean data values).

Record Metrics := {
  mae : Q;
  mse : Q;
  rmse : Q;
  metrics_aic : Q;
  metrics_bic : Q
}.

Definition insufficient_data : string :=
  "Insufficient data for ARIMA training (need at least 48 hours)".

(** What follows the fit in [train_arima]. *)
Definition arima_metrics `{Numpy} `{Sklearn} (self : AirQualityPredictor)
    (ts_data : Series) (fitted_model : ARIMAResults) : Run Metrics :=
  let predictions := fittedvalues fitted_model in
  let actuals := drop 1 ts_data in
  let '(predictions, actuals) :=
    if negb (length predictions =? length actuals)%nat
    then
      let min_len := Nat.min (length predictions) (length actuals) in
      (take min_len predictions, take min_len actuals)
    else (predictions, actuals) in
  match mean_absolute_error actuals predictions with
  | inl e => Raise self e
  | inr mae_value =>
      match mean_squared_error actuals predictions with
      | inl e => Raise self e
      | inr mse_value =>
          Return (with_arima_fitted self fitted_model)
            {| mae := mae_value; mse := mse_value; rmse := np_sqrt mse_value;
               metrics_aic := aic fitted_model; metrics_bic := bic fitted_model |}
      end
  end.

(** [train_arima(df, target_column)] *)
Definition train_arima `{Numpy} `{Sklearn} (self : AirQualityPredictor)
    (df : list Measurement) (target_column : string) : Run Metrics :=
  try_except "Error training ARIMA model: "
    match df with
    | [] => Raise self (ValueError "No training data available")
    | _ =>
        let data := sort_values df in
        match target_values target_column data with
        | inl e => Raise self e
        | inr values =>
            let ts_data := ts_data_of data values in
            if (length ts_data <? 48)%nat
            then Raise self (ValueError insufficient_data)
            else
              let self := with_arima_model self (ts_data, (2, 1, 2)%nat) in
              Fit ts_data (2, 1, 2)%nat (fun outcome =>
                match outcome with
                | inl e => Raise self e
                | inr fitted_model => arima_metrics self ts_data fitted_model
                end)
        end
    end.

(** The dictionary that [predict_next_day_rf] returns. *)
Record Prediction := {
  predicted_aqi : Q;
  feature_importance : list (string * Q);
  prediction_interval : Q * Q
}.

(** [sorted(items, key=lambda x: x[1], reverse=True)]: by falling
    importance; the sort is stable, so ties keep their original order.
    [item] stood before every entry of [sorted] and goes behind those of
    strictly greater importance only. *)
Fixpoint insert_by_importance (item : string * Q) (sorted : list (string * Q))
    : list (string * Q) :=
  match sorted with
  | [] => [item]
  | x :: rest =>
      if Py.ltb item.2 x.2 then x :: insert_by_importance item rest
      else item :: x :: rest
  end.

Definition sort_by_importance (items : list (string * Q)) : list (string * Q) :=
  foldr insert_by_importance [] items.

(** [processed_data.iloc[-1:][feature_columns].fillna(0)]: the last row,
    restricted to the feature columns, NaN replaced by 0. *)
Definition latest_row (processed_data : DataFrame) (names : list string)
    : exn + list Q :=
  let last_index := (nrows processed_data - 1)%nat in
  foldr (fun name acc =>
           match acc with
           | inl e => inl e
           | inr values =>
               match lookup_col name (columns processed_data) with
               | Some s => inr (default 0%Q (mjoin (s !! last_index)) :: values)
               | None => inl (KeyError name)
               end
           end) (inr []) names.

(** [predict_next_day_rf(current_data)]; the method does not change the
    predictor. *)
Definition predict_next_day_rf `{Numpy} (self : AirQualityPredictor)
    (current_data : list Measurement) : exn + Prediction :=
  let wrap (e : exn) : exn + Prediction :=
    inl (Wrapped "Error making Random Forest prediction: " e) in
  match is_trained self, rf_model self with
  | true, Some model =>
      match current_data with
      | [] => wrap (ValueError "No current data for prediction")
      | _ =>
          let processed_data := prepare_features current_data in
          if (nrows processed_data =? 0)%nat
          then wrap (ValueError "No data available after feature preparation")
          else
            match feature_columns self with
            | None => wrap (KeyError "None")
            | Some names =>
                match latest_row processed_data names with
                | inl e => wrap e
                | inr latest_data =>
                    match transform (scaler self) [latest_data] with
                    | inl e => wrap e
                    | inr latest_scaled =>
                        match predict model latest_scaled with
                        | inl e => wrap e
                        | inr [] => wrap IndexError
                        | inr (prediction :: _) =>
                            let importance :=
                              sort_by_importance
                                (zip names (feature_importances_ model)) in
                            inr {| predicted_aqi := Py.max 0 prediction;
                                   feature_importance := importance;
                                   prediction_interval :=
                                     (Py.max 0 (prediction - 25)%Q,
                                      (prediction + 25)%Q) |}
                        end
                    end
                end
            end
      end
  | _, _ => wrap (ValueError "Random Forest model not trained")
  end.

End Forecast.

(** ** Sample data for the examples *)

Module Samples.
Import Features Forecast.

Definition sample_numpy : Numpy :=
  {| np_sqrt := fun x => x; np_sin := fun _ => 0%Q; np_pi := 3.14159%Q;
     np_random := fun _ => 0.5%Q |}.

Definition sample_sklearn : Sklearn :=
  {| mean_absolute_error := fun _ _ => inr 0%Q;
     mean_squared_error := fun _ _ => inr 0%Q |}.

(** A record at time [t] whose pollutant values and AQI are all [v]. *)
Definition reading (t : Z) (v : Q) : Measurement :=
  {| timestamp := t; city := "Delhi"; location := "Delhi Central";
     pm25 := Some v; pm10 := Some v; no2 := Some v; so2 := Some v;
     o3 := Some v; co := Some v; aqi := Some v |}.

(** [n] hourly records from 2024-01-01 00:00, with values 100, 101, ... *)
Definition hourly (n : nat) : list Measurement :=
  (fun i => reading (1704067200 + 3600 * Z.of_nat i) (inject_Z (100 + Z.of_nat i)))
    <$> seq 0 n.

(** A forest that predicts [p] for every row. *)
Definition constant_forest (p : Q) : RandomForestRegressor :=
  {| predict := fun rows => inr ((fun _ => p) <$> rows);
     feature_importances_ := [0.25; 0.75]%Q |}.

Definition identity_scaler : StandardScaler := {| transform := fun rows => inr rows |}.

(** A predictor trained on two feature columns. *)
Definition trained (p : Q) : AirQualityPredictor :=
  {| rf_model := Some (constant_forest p); arima_model := None;
     scaler := identity_scaler;
     feature_columns := Some ["pm25"; "aqi_lag_24"]%string;
     is_trained := true; arima_fitted := None |}.

(** What [trained p] returns on 26 hourly records. *)
Definition sample_prediction (p : Q) : Prediction :=
  {| predicted_aqi := Py.max 0 p;
     feature_importance := [("aqi_lag_24"%string, 0.75%Q); ("pm25"%string, 0.25%Q)];
     prediction_interval := (Py.max 0 (p - 25)%Q, (p + 25)%Q) |}.

End Samples.

(** ** visualization_utils: the band helpers *)

Module Display.
Local Open Scope Q_scope.

(** [get_aqi_color(aqi_value)] *)
Definition get_aqi_color (aqi_value : Q) : string :=
  if Py.leb aqi_value 50 then "green"
  else if Py.leb aqi_value 100 then "yellow"
  else if Py.leb aqi_value 150 then "orange"
  else if Py.leb aqi_value 200 then "red"
  else if Py.leb aqi_value 300 then "purple"
  else "maroon".

(** [get_aqi_category(aqi_value)] *)
Definition get_aqi_category (aqi_value : Q) : string :=
  if Py.leb aqi_value 50 then "Good"
  else if Py.leb aqi_value 100 then "Moderate"
  else if Py.leb aqi_value 150 then "Unhealthy for Sensitive Groups"
  else if Py.leb aqi_value 200 then "Unhealthy"
  else if Py.leb aqi_value 300 then "Very Unhealthy"
  else "Hazardous".

(** [get_health_message(aqi_value)] *)
Definition get_health_message (aqi_value : Q) : string :=
  if Py.leb aqi_value 50
  then "Air quality is satisfactory and poses little to no health risk."
  else if Py.leb aqi_value 100
  then "Air quality is acceptable. Sensitive individuals may experience minor symptoms."
  else if Py.leb aqi_value 150
  then "Sensitive groups may experience health effects. General public is less likely to be affected."
  else if Py.leb aqi_value 200
  then "Everyone may begin to experience health effects. Sensitive groups may experience more serious effects."
  else if Py.leb aqi_value 300
  then "Health warnings of emergency conditions. Everyone may experience more serious health effects."
  else "Emergency conditions. Everyone is likely to be affected. Avoid outdoor activities.".

(** The six categories, from the lowest band to the highest. *)
Definition categories : list string :=
  ["Good"; "Moderate"; "Unhealthy for Sensitive Groups"; "Unhealthy";
   "Very Unhealthy"; "Hazardous"]%string.

End Display.

(** ** HealthRiskAnalyzer.get_vulnerable_populations_at_risk *)

Module Population.
Import Risk.
Local Open Scope Q_scope.

(** [int(x)] of a float: truncation towards zero. *)
Definition py_int (x : Q) : Z := Z.quot (Qnum x) (Z.pos (Qden x)).

(** [_get_base_risk_from_aqi(aqi_value)] *)
Definition _get_base_risk_from_aqi (aqi_value : Q) : Q :=
  if Py.leb aqi_value 50 then 0.05
  else if Py.leb aqi_value 100 then 0.15
  else if Py.leb aqi_value 150 then 0.35
  else if Py.leb aqi_value 200 then 0.60
  else if Py.leb aqi_value 300 then 0.85
  else 1.0.

(** The [risk_threshold] chosen from the AQI. *)
Definition risk_threshold (aqi_value : Q) : Q :=
  if Py.leb aqi_value 100 then 0.1
  else if Py.leb aqi_value 150 then 0.3
  else 0.6.

(** One value of the dictionary [at_risk_populations]. *)
Record AtRisk := {
  total_population : Z;
  at_risk_count : Z;
  risk_level : Q;
  percentage : Q
}.

(** The body of the loop over the vulnerable groups, acting on
    [at_risk_populations]; the groups are distinct keys, so the assignment
    adds an entry at the end. *)
Definition assess (demographics : gmap string Q) (total_population : Q)
    (aqi_value : Q) (at_risk_populations : list (string * AtRisk))
    (item : string * Q) : list (string * AtRisk) :=
  let '(group, vulnerability) := item in
  match demographics !! group with
  | Some share =>
      let group_population := total_population * (share / 100) in
      let base_risk := _get_base_risk_from_aqi aqi_value in
      let group_risk := base_risk * vulnerability in
      if Py.leb (risk_threshold aqi_value) group_risk
      then
        at_risk_populations
        ++ [(group,
             {| total_population := py_int group_population;
                at_risk_count := py_int (group_population * group_risk);
                risk_level := group_risk;
                percentage := share |})]
      else at_risk_populations
  | None => at_risk_populations
  end.

(** [get_vulnerable_populations_at_risk(aqi_value, city_name)]; [None] stands
    for the [KeyError] of a failed dictionary subscript. *)
Definition get_vulnerable_populations_at_risk (aqi_value : Q) (city_name : string)
    : option (list (string * AtRisk)) :=
  let city_name :=
    match city_demographics !! city_name with
    | None => "Delhi"%string
    | Some _ => city_name
    end in
  demographics ← city_demographics !! city_name;
  total_population ← demographics !! "population"%string;
  Some (foldl (assess demographics total_population aqi_value) []
              vulnerability_factors).

(** *** Vocabulary of the properties *)

(** What the loop returns once the demographics are chosen. *)
Definition at_risk_with (demographics : gmap string Q) (aqi_value : Q)
    : option (list (string * AtRisk)) :=
  total_population ← demographics !! "population"%string;
  Some (foldl (assess demographics total_population aqi_value) []
              vulnerability_factors).

(** The loop with the two table values made explicit. *)
Definition assess_at (demographics : gmap string Q) (total_population base threshold : Q)
    (at_risk_populations : list (string * AtRisk)) (item : string * Q)
    : list (string * AtRisk) :=
  let '(group, vulnerability) := item in
  match demographics !! group with
  | Some share =>
      let group_population := total_population * (share / 100) in
      let group_risk := base * vulnerability in
      if Py.leb threshold group_risk
      then
        at_risk_populations
        ++ [(group,
             {| total_population := py_int group_population;
                at_risk_count := py_int (group_population * group_risk);
                risk_level := group_risk;
                percentage := share |})]
      else at_risk_populations
  | None => at_risk_populations
  end.

(** The tests on one entry of the result: a count that is not negative,
    at most the group ([lo]), at least the group ([hi]). *)
Definition count_ok (lo hi : bool) (e : string * AtRisk) : bool :=
  (0 <=? at_risk_count e.2)%Z
  && (if lo then (at_risk_count e.2 <=? total_population e.2)%Z else true)
  && (if hi then (total_population e.2 <=? at_risk_count e.2)%Z else true).

(** The same tests with the risk level: at most 1 ([lo]), above 1 ([hi]). *)
Definition count_level_ok (lo hi : bool) (e : string * AtRisk) : bool :=
  (0 <=? at_risk_count e.2)%Z
  && (if lo then (at_risk_count e.2 <=? total_population e.2)%Z
                 && Py.leb (risk_level e.2) 1 else true)
  && (if hi then (total_population e.2 <=? at_risk_count e.2)%Z
                 && Py.ltb 1 (risk_level e.2) else true).

End Population.

(** ** HealthRiskAnalyzer.calculate_health_impact_metrics *)

Module Impact.
Import Risk Features Population.
Local Open Scope Q_scope.

(** [series.mean()]: the mean of the values that are not NaN, NaN when
    there is none. *)
Definition series_mean (s : Series) : option Q :=
  match omap id s with
  | [] => None
  | xs => Some (mean xs)
  end.

(** [data[name].mean() if name in data.columns else 0] *)
Definition column_mean (name : string) (data : DataFrame) : option Q :=
  match lookup_col name (columns data) with
  | Some s => series_mean s
  | None => Some 0
  end.

(** [max(0, x)] for a float [x] that may be NaN: the comparison [x > 0] is
    false for NaN, so [0] is kept. *)
Definition max0 (x : option Q) : Q :=
  match x with
  | Some v => Py.max 0 v
  | None => 0
  end.

(** [(avg_pm25 - 10) / 10 * slope] *)
Definition excess_per_10 (avg_pm25 : option Q) (slope : Q) : option Q :=
  (fun v => (v - 10) / 10 * slope) <$> avg_pm25.

(** [aqi > 100] on one cell; false for NaN. *)
Definition above_100 (c : option Q) : bool :=
  match c with
  | Some v => Py.ltb 100 v
  | None => false
  end.

(** [len(data[data["aqi"] > 100]) if "aqi" in data.columns else 0] *)
Definition unhealthy_rows (data : DataFrame) : nat :=
  match lookup_col "aqi" (columns data) with
  | Some s => length (List.filter above_100 s)
  | None => 0
  end.

(** The dictionary that [calculate_health_impact_metrics] returns. *)
Record HealthImpact := {
  impact_city : string;
  population : Q;
  average_aqi : option Q;
  average_pm25 : option Q;
  average_pm10 : option Q;
  average_no2 : option Q;
  excess_deaths_annual : Z;
  excess_respiratory_cases : Z;
  economic_impact_inr : Z;
  unhealthy_days : nat;
  total_days : nat;
  percentage_unhealthy_days : Q;
  who_pm25_exceedance : Q;
  who_pm10_exceedance : Q;
  low_income_population : Z
}.

(** What the call gives: the empty dictionary, a report, or the [KeyError]
    of a failed dictionary subscript. *)
Inductive outcome : Type :=
| NoData
| Report (r : HealthImpact)
| MissingKey (key : string).

(** [calculate_health_impact_metrics(air_quality_data, city_name)] *)
Definition calculate_health_impact_metrics (air_quality_data : DataFrame)
    (city_name : string) : outcome :=
  if (nrows air_quality_data =? 0)%nat then NoData
  else
    let city_name :=
      match city_demographics !! city_name with
      | None => "Delhi"%string
      | Some _ => city_name
      end in
    match city_demographics !! city_name with
    | None => MissingKey city_name
    | Some demographics =>
        let avg_pm25 := column_mean "pm25" air_quality_data in
        let avg_pm10 := column_mean "pm10" air_quality_data in
        let avg_no2 := column_mean "no2" air_quality_data in
        let avg_aqi := column_mean "aqi" air_quality_data in
        match demographics !! "population"%string,
              demographics !! "low_income_percentage"%string with
        | None, _ => MissingKey "population"
        | _, None => MissingKey "low_income_percentage"
        | Some population, Some low_income =>
            let baseline_mortality_rate := 0.008 in
            let pm25_risk_factor := max0 (excess_per_10 avg_pm25 0.06) in
            let excess_deaths_annual :=
              py_int (population * baseline_mortality_rate * pm25_risk_factor) in
            let respiratory_baseline := 0.15 in
            let respiratory_risk_factor := max0 (excess_per_10 avg_pm25 0.12) in
            let excess_respiratory_cases :=
              py_int (population * respiratory_baseline * respiratory_risk_factor) in
            let cost_per_death := 3500000%Z in
            let cost_per_illness := 25000%Z in
            let economic_impact :=
              (excess_deaths_annual * cost_per_death
               + excess_respiratory_cases * cost_per_illness)%Z in
            let unhealthy_days := unhealthy_rows air_quality_data in
            let total_days := nrows air_quality_data in
            Report
              {| impact_city := city_name;
                 population := population;
                 average_aqi := avg_aqi;
                 average_pm25 := avg_pm25;
                 average_pm10 := avg_pm10;
                 average_no2 := avg_no2;
                 excess_deaths_annual := excess_deaths_annual;
                 excess_respiratory_cases := excess_respiratory_cases;
                 economic_impact_inr := economic_impact;
                 unhealthy_days := unhealthy_days;
                 total_days := total_days;
                 percentage_unhealthy_days :=
                   if (0 <? total_days)%nat
                   then inject_Z (Z.of_nat unhealthy_days)
                        / inject_Z (Z.of_nat total_days) * 100
                   else 0;
                 who_pm25_exceedance := max0 ((fun v => v - 5) <$> avg_pm25);
                 who_pm10_exceedance := max0 ((fun v => v - 15) <$> avg_pm10);
                 low_income_population := py_int (population * low_income / 100) |}
        end
    end.

(** *** Vocabulary of the properties *)

(** Every column is as long as the table. *)
Definition well_formed (data : DataFrame) : Prop :=
  Forall (fun c : string * Series => length c.2 = nrows data) (columns data).

End Impact.

(** ** HealthRiskAnalyzer.create_vulnerability_map_data *)

Module VulnerabilityMap.
Import Risk.
Local Open Scope Q_scope.

(** One row of the table that [create_vulnerability_map_data] returns. *)
Record MapRow := {
  map_city : string;
  latitude : Q;
  longitude : Q;
  map_population : Q;
  vulnerability_score : Q;
  current_risk_score : Q;
  current_aqi : Q;
  low_income_percentage : Q;
  children_percentage : Q;
  elderly_percentage : Q
}.

(** The inner loop and the normalisation that follows it. *)
Definition overall_vulnerability (demographics : gmap string Q) : Q :=
  let vulnerability_score :=
    foldl (fun score (item : string * Q) =>
             match demographics !! item.1 with
             | Some share => score + (share / 100) * item.2
             | None => score
             end)
          0 vulnerability_factors in
  Py.min (vulnerability_score / inject_Z (Z.of_nat (length vulnerability_factors))) 1.0.

(** The dictionary appended for a city of [self.city_demographics]; [None]
    stands for a [KeyError]. *)
Definition map_row (city : string) (demographics data : gmap string Q) : option MapRow :=
  let current_aqi := default 150 (data !! "aqi"%string) in
  risk_score ← calculate_health_risk_score current_aqi city;
  population ← demographics !! "population"%string;
  low_income ← demographics !! "low_income_percentage"%string;
  children ← demographics !! "children_under_5"%string;
  elderly ← demographics !! "elderly_over_65"%string;
  Some {| map_city := city;
          latitude := if bool_decide (city = "Delhi"%string) then 28.6139 else 19.0760;
          longitude := if bool_decide (city = "Delhi"%string) then 77.2090 else 72.8777;
          map_population := population;
          vulnerability_score := overall_vulnerability demographics;
          current_risk_score := risk_score;
          current_aqi := current_aqi;
          low_income_percentage := low_income;
          children_percentage := children;
          elderly_percentage := elderly |}.

(** [create_vulnerability_map_data(cities_data)]: the rows of the table, in
    the order of the dictionary given. *)
Definition create_vulnerability_map_data (cities_data : list (string * gmap string Q))
    : option (list MapRow) :=
  foldl (fun map_data (item : string * gmap string Q) =>
           rows ← map_data;
           match city_demographics !! item.1 with
           | Some demographics =>
               row ← map_row item.1 demographics item.2;
               Some (rows ++ [row])
           | None => Some rows
           end)
        (Some []) cities_data.

(** *** Vocabulary of the properties *)

(** [city in self.city_demographics] *)
Definition known (city : string) : Prop := is_Some (city_demographics !! city).

#[global] Instance known_dec (city : string) : Decision (known city) :=
  decide (is_Some (city_demographics !! city)).

End VulnerabilityMap.

(** ** AirQualityPredictor.train_random_forest *)

Module Training.
Import Features Forecast.

(** A column handed to scikit-learn as the target [y]: numeric, or one of
    the three columns that are not. *)
Inductive target_data : Type :=
| NumericTarget (values : Series)
| TimeTarget (values : list Z)
| TextTarget (values : list string).

(** The parts of scikit-learn that [train_random_forest] calls; parameters
    of the model.  [fit_scaler] and [fit_forest] give the fitted object that
    [fit] leaves in place of the one it is called on. *)
Class Forest := {
  (** [train_test_split(X, y, test_size=0.2, random_state=42, shuffle=False)];
      it raises when a side of the split would be empty. *)
  train_test_split :
    list (list Q) -> target_data ->
    exn + list (list Q) * list (list Q) * target_data * target_data;
  (** [scaler.fit_transform(X)] *)
  fit_transform : StandardScaler -> list (list Q)
                  -> StandardScaler * (exn + list (list Q));
  (** [RandomForestRegressor(n_estimators=100, ...)], not fitted *)
  new_forest : RandomForestRegressor;
  (** [model.fit(X, y)] *)
  fit_forest : RandomForestRegressor -> list (list Q) -> target_data
               -> RandomForestRegressor * option exn;
  forest_mean_absolute_error : target_data -> list Q -> exn + Q;
  forest_mean_squared_error : target_data -> list Q -> exn + Q;
  r2_score : target_data -> list Q -> exn + Q
}.

Definition with_feature_columns (self : AirQualityPredictor) (names : list string)
    : AirQualityPredictor :=
  {| rf_model := rf_model self; arima_model := arima_model self;
     scaler := scaler self; feature_columns := Some names;
     is_trained := is_trained self; arima_fitted := arima_fitted self |}.

Definition with_scaler (self : AirQualityPredictor) (fitted : StandardScaler)
    : AirQualityPredictor :=
  {| rf_model := rf_model self; arima_model := arima_model self;
     scaler := fitted; feature_columns := feature_columns self;
     is_trained := is_trained self; arima_fitted := arima_fitted self |}.

Definition with_rf_model (self : AirQualityPredictor) (model : RandomForestRegressor)
    : AirQualityPredictor :=
  {| rf_model := Some model; arima_model := arima_model self;
     scaler := scaler self; feature_columns := feature_columns self;
     is_trained := is_trained self; arima_fitted := arima_fitted self |}.

Definition mark_trained (self : AirQualityPredictor) : AirQualityPredictor :=
  {| rf_model := rf_model self; arima_model := arima_model self;
     scaler := scaler self; feature_columns := feature_columns self;
     is_trained := true; arima_fitted := arima_fitted self |}.

(** The metrics dictionary of [train_random_forest]. *)
Record ForestMetrics := {
  rf_mae : Q;
  rf_mse : Q;
  rf_rmse : Q;
  rf_r2 : Q
}.

(** [exclude_cols] *)
Definition exclude_cols : list string :=
  ["timestamp"; "location"; "city"; "country"; "latitude"; "longitude"]%string.

(** [processed_data.columns]: the three non-numeric columns come first, as
    in the records of the data collector. *)
Definition column_names (data : DataFrame) : list string :=
  ["timestamp"; "city"; "location"]%string ++ (columns data).*1.

(** [processed_data[names].fillna(0)], row by row. *)
Definition feature_rows (data : DataFrame) (names : list string)
    : exn + list (list Q) :=
  foldr (fun name acc =>
           match acc with
           | inl e => inl e
           | inr rows =>
               match lookup_col name (columns data) with
               | Some s =>
                   inr (zip_with (fun c row => default 0%Q c :: row) s rows)
               | None => inl (KeyError name)
               end
           end)
        (inr (replicate (nrows data) [])) names.

(** [processed_data[target_column]] *)
Definition target_of (data : DataFrame) (target_column : string) : exn + target_data :=
  match lookup_col target_column (columns data) with
  | Some s => inr (NumericTarget s)
  | None =>
      if bool_decide (target_column = "timestamp"%string)
      then inr (TimeTarget (timestamps data))
      else if bool_decide (target_column = "city"%string)
      then inr (TextTarget (cities data))
      else if bool_decide (target_column = "location"%string)
      then inr (TextTarget (locations data))
      else inl (KeyError target_column)
  end.

(** The body of the [try] of [train_random_forest]: the predictor as the
    call leaves it, with the metrics or the exception raised. *)
Definition train_random_forest_body `{Numpy} `{Forest}
    (self : AirQualityPredictor) (df : list Measurement) (target_column : string)
    : AirQualityPredictor * (exn + ForestMetrics) :=
  match df with
  | [] => (self, inl (ValueError "No training data available"))
  | _ =>
      let processed_data := prepare_features df in
      if (nrows processed_data =? 0)%nat
      then (self, inl (ValueError "No data available after feature preparation"))
      else
        let names :=
          filter (fun col => (col ∉ exclude_cols) /\ col <> target_column)
                 (column_names processed_data) in
        let self := with_feature_columns self names in
        match names with
        | [] => (self, inl (ValueError "No feature columns available for training"))
        | _ =>
            match feature_rows processed_data names with
            | inl e => (self, inl e)
            | inr X =>
                match target_of processed_data target_column with
                | inl e => (self, inl e)
                | inr y =>
                    match train_test_split X y with
                    | inl e => (self, inl e)
                    | inr (X_train, X_test, y_train, y_test) =>
                        let '(fitted, X_train_scaled) :=
                          fit_transform (scaler self) X_train in
                        let self := with_scaler self fitted in
                        match X_train_scaled with
                        | inl e => (self, inl e)
                        | inr X_train_scaled =>
                            match transform fitted X_test with
                            | inl e => (self, inl e)
                            | inr X_test_scaled =>
                                let '(model, raised) :=
                                  fit_forest new_forest X_train_scaled y_train in
                                let self := with_rf_model self model in
                                match raised with
                                | Some e => (self, inl e)
                                | None =>
                                    match predict model X_test_scaled with
                                    | inl e => (self, inl e)
                                    | inr y_pred =>
                                        match forest_mean_absolute_error y_test y_pred with
                                        | inl e => (self, inl e)
                                        | inr mae =>
                                            match forest_mean_squared_error y_test y_pred with
                                            | inl e => (self, inl e)
                                            | inr mse =>
                                                match r2_score y_test y_pred with
                                                | inl e => (self, inl e)
                                                | inr r2 =>
                                                    (mark_trained self,
                                                     inr {| rf_mae := mae; rf_mse := mse;
                                                            rf_rmse := np_sqrt mse;
                                                            rf_r2 := r2 |})
                                                end
                                            end
                                        end
                                    end
                                end
                            end
                        end
                    end
                end
            end
        end
  end.

(** [train_random_forest(df, target_column)]: the [except] clause wraps
    whatever the body raises. *)
Definition train_random_forest `{Numpy} `{Forest}
    (self : AirQualityPredictor) (df : list Measurement) (target_column : string)
    : AirQualityPredictor * (exn + ForestMetrics) :=
  match train_random_forest_body self df target_column with
  | (self, inl e) => (self, inl (Wrapped "Error training Random Forest model: " e))
  | (self, inr metrics) => (self, inr metrics)
  end.

(** *** Vocabulary of the properties *)

(** The numeric columns of the prepared table of records with the columns
    of [Measurement], in the order of the table. *)
Definition prepared_columns : list string :=
  ["pm25"; "pm10"; "no2"; "so2"; "o3"; "co"; "aqi";
   "hour"; "day_of_week"; "month"; "day_of_year"]%string
  ++ lag_names ++ rolling_names
  ++ ["temp_estimate"; "humidity_estimate"; "wind_speed_estimate"]%string.

(** The message of the exception that too small a table meets. *)
Definition no_data (df : list Measurement) (empty : string) : exn :=
  match df with
  | [] => ValueError empty
  | _ => ValueError "No data available after feature preparation"
  end.

(** What [predict_next_day_rf] goes on to return once it has read the
    latest row: the answer of the scaler and of the forest, clamped. *)
Definition forest_answer (self : AirQualityPredictor) (model : RandomForestRegressor)
    (names : list string) (latest_data : list Q) : exn + Prediction :=
  let wrap (e : exn) : exn + Prediction :=
    inl (Wrapped "Error making Random Forest prediction: " e) in
  match transform (scaler self) [latest_data] with
  | inl e => wrap e
  | inr latest_scaled =>
      match predict model latest_scaled with
      | inl e => wrap e
      | inr [] => wrap IndexError
      | inr (prediction :: _) =>
          inr {| predicted_aqi := Py.max 0 prediction;
                 feature_importance :=
                   sort_by_importance (zip names (feature_importances_ model));
                 prediction_interval :=
                   (Py.max 0 (prediction - 25)%Q, (prediction + 25)%Q) |}
      end
  end.

End Training.

Module TrainingSamples.
Import Features Forecast Training Samples.

Definition split_target (k : nat) (y : target_data) : target_data * target_data :=
  match y with
  | NumericTarget v => (NumericTarget (take k v), NumericTarget (drop k v))
  | TimeTarget v => (TimeTarget (take k v), TimeTarget (drop k v))
  | TextTarget v => (TextTarget (take k v), TextTarget (drop k v))
  end.

(** A library whose split keeps the first four fifths for training and
    refuses an empty side, whose scaler is the identity and whose forest
    predicts 150. *)
Definition sample_forest : Forest :=
  {| train_test_split := fun X y =>
       let k := (length X * 4 / 5)%nat in
       if ((k =? 0) || (length X <=? k))%nat
       then inl (ValueError "the resulting train set will be empty")
       else inr (take k X, drop k X, (split_target k y).1, (split_target k y).2);
     fit_transform := fun _ X => (identity_scaler, inr X);
     new_forest := {| predict := fun _ => inl (LibraryError "not fitted");
                      feature_importances_ := [] |};
     fit_forest := fun _ _ _ => (constant_forest 150, None);
     forest_mean_absolute_error := fun _ _ => inr 0%Q;
     forest_mean_squared_error := fun _ _ => inr 0%Q;
     r2_score := fun _ _ => inr 1%Q |}.

(** A predictor as [__init__] leaves it. *)
Definition fresh : AirQualityPredictor :=
  {| rf_model := None; arima_model := None;
     scaler := {| transform := fun _ => inl (LibraryError "not fitted") |};
     feature_columns := None; is_trained := false; arima_fitted := None |}.

(** What the training of [fresh] on 30 hourly records leaves and returns. *)
Definition sample_trained : AirQualityPredictor :=
  (train_random_forest (H := sample_numpy) (H0 := sample_forest)
     fresh (hourly 30) "aqi").1.

Definition sample_forest_metrics : ForestMetrics :=
  {| rf_mae := 0%Q; rf_mse := 0%Q; rf_rmse := 0%Q; rf_r2 := 1%Q |}.

End TrainingSamples.

(** ** AirQualityPredictor.predict_next_day_arima and get_model_performance *)

Module Predictor.
Import Features Forecast.
Local Open Scope Q_scope.

(** What [arima_fitted.forecast(steps=...)] returns: the predictions
    themselves, or an object with [predicted_mean] and, if it has the
    method, the outcome of [conf_int()], a table of lower and upper ends. *)
Inductive forecast_result : Type :=
| Values (predictions : list Q)
| WithMean (predicted_mean : list Q) (conf_int : option (exn + list (Q * Q))).

(** What the predictor reads from fitted models; parameters of the model. *)
Class Fitted := {
  forecast : ARIMAResults -> nat -> exn + forecast_result;
  (** [arima_fitted.model.order] *)
  model_order : ARIMAResults -> nat * nat * nat;
  n_estimators : RandomForestRegressor -> nat;
  max_depth : RandomForestRegressor -> option nat
}.

Record HourlyPrediction := {
  hour : nat;
  hourly_aqi : Q;
  lower_bound : Q;
  upper_bound : Q
}.

Record ModelSummary := {
  summary_aic : Q;
  summary_bic : Q;
  log_likelihood : Q
}.

(** The dictionary that [predict_next_day_arima] returns. *)
Record ArimaForecast := {
  next_day_average : Q;
  hourly_predictions : list HourlyPrediction;
  model_summary : ModelSummary
}.

(** One turn of the loop over [enumerate(predictions)]. *)
Definition hourly_prediction (conf_int : option (list (Q * Q))) (i : nat) (pred : Q)
    : exn + HourlyPrediction :=
  match conf_int with
  | None =>
      inr {| hour := i + 1; hourly_aqi := Py.max 0 pred;
             lower_bound := Py.max 0 (pred - 20); upper_bound := pred + 20 |}
  | Some rows =>
      match rows !! i with
      | Some (lower, upper) =>
          inr {| hour := i + 1; hourly_aqi := Py.max 0 pred;
                 lower_bound := Py.max 0 lower; upper_bound := upper |}
      | None => inl IndexError
      end
  end.

Fixpoint hourly_from (i : nat) (predictions : list Q) (conf_int : option (list (Q * Q)))
    : exn + list HourlyPrediction :=
  match predictions with
  | [] => inr []
  | pred :: rest =>
      match hourly_prediction conf_int i pred with
      | inl e => inl e
      | inr item =>
          match hourly_from (S i) rest conf_int with
          | inl e => inl e
          | inr items => inr (item :: items)
          end
      end
  end.

(** [max(0, predictions.mean())]; the mean of no prediction is NaN, which
    [max] does not prefer to 0. *)
Definition next_day_avg (predictions : list Q) : Q :=
  match predictions with
  | [] => 0
  | _ => Py.max 0 (mean predictions)
  end.

(** [predict_next_day_arima(steps)]; the method does not change the
    predictor. *)
Definition predict_next_day_arima `{Fitted} (self : AirQualityPredictor) (steps : nat)
    : exn + ArimaForecast :=
  let wrap (e : exn) : exn + ArimaForecast :=
    inl (Wrapped "Error making ARIMA prediction: " e) in
  match arima_fitted self with
  | None => wrap (ValueError "ARIMA model not trained")
  | Some fitted =>
      match forecast fitted steps with
      | inl e => wrap e
      | inr forecast_result =>
          let unpacked : exn + list Q * option (list (Q * Q)) :=
            match forecast_result with
            | WithMean predictions (Some (inr rows)) => inr (predictions, Some rows)
            | WithMean predictions (Some (inl e)) => inl e
            | WithMean predictions None => inr (predictions, None)
            | Values predictions => inr (predictions, None)
            end in
          match unpacked with
          | inl e => wrap e
          | inr (predictions, conf_int) =>
              match hourly_from 0 predictions conf_int with
              | inl e => wrap e
              | inr items =>
                  inr {| next_day_average := next_day_avg predictions;
                         hourly_predictions := items;
                         model_summary :=
                           {| summary_aic := aic fitted; summary_bic := bic fitted;
                              log_likelihood := llf fitted |} |}
              end
          end
      end
  end.

Record ForestInfo := {
  forest_model_type : string;
  forest_n_estimators : nat;
  forest_max_depth : option nat;
  n_features : nat
}.

Record ArimaInfo := {
  arima_model_type : string;
  arima_order : nat * nat * nat;
  arima_aic : Q;
  arima_bic : Q
}.

(** The dictionary that [get_model_performance] returns: the error entry,
    or the entries of the models at hand. *)
Inductive performance : Type :=
| error (message : string)
| models (random_forest : option ForestInfo) (arima : option ArimaInfo).

(** [get_model_performance()] *)
Definition get_model_performance `{Fitted} (self : AirQualityPredictor) : performance :=
  if negb (is_trained self) then error "Models not trained yet"
  else
    models
      ((fun model =>
          {| forest_model_type := "Random Forest";
             forest_n_estimators := n_estimators model;
             forest_max_depth := max_depth model;
             n_features :=
               match feature_columns self with
               | Some names => if bool_decide (names = []) then 0%nat else length names
               | None => 0%nat
               end |}) <$> rf_model self)
      ((fun fitted =>
          {| arima_model_type := "ARIMA";
             arima_order := model_order fitted;
             arima_aic := aic fitted;
             arima_bic := bic fitted |}) <$> arima_fitted self).

(** *** Vocabulary of the properties *)

(** A run carried out with the given outcomes of the fits it asks for, in
    order: the predictor it leaves, with the value returned or the
    exception raised. *)
Fixpoint run_with {A} (outcomes : list (exn + ARIMAResults)) (r : Run A) {struct r}
    : option (AirQualityPredictor * (exn + A)) :=
  match r with
  | Return self a => Some (self, inr a)
  | Raise self e => Some (self, inl e)
  | Fit _ _ k =>
      match outcomes with
      | [] => None
      | outcome :: outcomes => run_with outcomes (k outcome)
      end
  end.

End Predictor.

Module PredictorSamples.
Import Features Forecast Predictor Samples TrainingSamples.

Definition sample_fit : ARIMAResults :=
  {| fittedvalues := []; aic := 410%Q; bic := 425%Q; llf := (-200)%Q |}.

(** A library whose forecast repeats 150 and gives no interval. *)
Definition sample_fitted : Fitted :=
  {| forecast := fun _ steps => inr (Values (replicate steps 150%Q));
     model_order := fun _ => (2, 1, 2)%nat;
     n_estimators := fun _ => 100%nat;
     max_depth := fun _ => Some 10%nat |}.

(** What [train_arima] leaves and returns on 48 hourly records, when the
    fit gives [sample_fit]. *)
Definition sample_arima_trained : AirQualityPredictor :=
  default fresh
    (fst <$> run_with [inr sample_fit]
               (train_arima (H := sample_numpy) (H0 := sample_sklearn)
                  fresh (hourly 48) "aqi")).

Definition sample_arima_metrics : Metrics :=
  {| mae := 0%Q; mse := 0%Q; rmse := 0%Q; metrics_aic := 410%Q; metrics_bic := 425%Q |}.

End PredictorSamples.

(** ** DataCollector._generate_historical_data *)

Module Synthetic.
Import Features.
Local Open Scope Q_scope.

(** [np.random.normal(1, 0.1)]: the draw made in turn [i] of the loop; a
    parameter of the model. *)
Class Noise := {
  np_random_normal : nat -> Q
}.

(** [pd.date_range(start=start_date, end=end_date, freq="H")], times in
    seconds: every hour from [start_date] on, up to [end_date]. *)
Definition date_range (start_date end_date : Z) : list Z :=
  if (end_date <? start_date)%Z then []
  else
    (fun k => (start_date + 3600 * Z.of_nat k)%Z)
      <$> seq 0 (Z.to_nat ((end_date - start_date) / 3600) + 1).

Record BaseValues := {
  base_pm25 : Q;
  base_pm10 : Q;
  base_no2 : Q;
  base_aqi : Q
}.

Definition city_base_values : gmap string BaseValues :=
  list_to_map
    [ ("Delhi"%string, {| base_pm25 := 120; base_pm10 := 180; base_no2 := 50; base_aqi := 200 |});
      ("Mumbai"%string, {| base_pm25 := 90; base_pm10 := 140; base_no2 := 45; base_aqi := 160 |});
      ("Kolkata"%string, {| base_pm25 := 110; base_pm10 := 170; base_no2 := 40; base_aqi := 180 |});
      ("Chennai"%string, {| base_pm25 := 70; base_pm10 := 110; base_no2 := 35; base_aqi := 130 |});
      ("Bangalore"%string, {| base_pm25 := 65; base_pm10 := 100; base_no2 := 30; base_aqi := 120 |});
      ("Hyderabad"%string, {| base_pm25 := 80; base_pm10 := 130; base_no2 := 38; base_aqi := 150 |}) ].

(** [{...}.get(city_name, {...})] *)
Definition base_values (city_name : string) : BaseValues :=
  default {| base_pm25 := 85; base_pm10 := 130; base_no2 := 40; base_aqi := 150 |}
          (city_base_values !! city_name).

(** The record appended in turn [i] of the loop, for [timestamp]. *)
Definition historical_record `{Numpy} `{Noise} (city_name : string) (i : nat)
    (timestamp : Z) : Measurement :=
  let base := base_values city_name in
  let hour_factor :=
    1 + 0.3 * np_sin (2 * np_pi * inject_Z (Calendar.hour timestamp) / 24) in
  let seasonal_factor :=
    1 + 0.4 * np_sin (2 * np_pi * inject_Z (Calendar.dayofyear timestamp) / 365) in
  let noise := np_random_normal i in
  let multiplier := hour_factor * seasonal_factor * noise in
  {| Features.timestamp := timestamp;
     city := city_name;
     location := city_name +:+ " Central";
     pm25 := Some (Py.max (base_pm25 base * multiplier) 5);
     pm10 := Some (Py.max (base_pm10 base * multiplier) 10);
     no2 := Some (Py.max (base_no2 base * multiplier) 5);
     so2 := Some (Py.max (15 * multiplier) 2);
     o3 := Some (Py.max (40 * multiplier) 10);
     co := Some (Py.max (1.5 * multiplier) 0.1);
     aqi := Some (Py.max (base_aqi base * multiplier) 10) |}.

(** [_generate_historical_data(city_name, start_date, end_date)] *)
Definition _generate_historical_data `{Numpy} `{Noise} (city_name : string)
    (start_date end_date : Z) : list Measurement :=
  imap (historical_record city_name) (date_range start_date end_date).

(** *** Vocabulary of the properties *)

(** The value of a cell is at least [floor]. *)
Definition at_least (floor : Q) (c : option Q) : Prop :=
  exists v, c = Some v /\ floor <= v.

End Synthetic.

Module SyntheticSamples.
Import Features Forecast Training Synthetic Samples TrainingSamples.

Definition sample_noise : Noise := {| np_random_normal := fun _ => 1%Q |}.

(** The history generated for Delhi from 2024-01-01 00:00 to 2024-01-02
    05:00: 30 records. *)
Definition sample_history : list Measurement :=
  _generate_historical_data (H := sample_numpy) (H0 := sample_noise)
    "Delhi" 1704067200 1704171600.

(** What the training of [fresh] on that history leaves. *)
Definition sample_history_trained : AirQualityPredictor :=
  (train_random_forest (H := sample_numpy) (H0 := sample_forest)
     fresh sample_history "aqi").1.

End SyntheticSamples.

(** * Proofs *)

(** Membership in a list that is written out. *)
Ltac in_list := repeat first [apply list_elem_of_here | apply list_elem_of_further].

(** ** The Python built-ins *)

Section PyFacts.
Local Open Scope Q_scope.

Lemma leb_le a b : Py.leb a b = true <-> a <= b.
Proof. apply Qle_bool_iff. Qed.

Lemma ltb_lt a b : Py.ltb a b = true <-> a < b.
Proof.
  unfold Py.ltb. rewrite negb_true_iff. split.
  - intros H. apply Qnot_le_lt. intros Hle. apply Qle_bool_iff in Hle. congruence.
  - intros H. destruct (Qle_bool b a) eqn:E; [|reflexivity].
    apply Qle_bool_iff in E. lra.
Qed.

Lemma ltb_ge a b : Py.ltb a b = false <-> b <= a.
Proof.
  unfold Py.ltb. rewrite negb_false_iff. apply Qle_bool_iff.
Qed.

Lemma leb_gt a b : Py.leb a b = false <-> b < a.
Proof.
  unfold Py.leb. split.
  - intros H. apply Qnot_le_lt. intros Hle. apply Qle_bool_iff in Hle. congruence.
  - intros H. destruct (Qle_bool a b) eqn:E; [|reflexivity].
    apply Qle_bool_iff in E. lra.
Qed.

Lemma py_max_cases a b :
  (Py.max a b = a /\ b <= a) \/ (Py.max a b = b /\ a < b).
Proof.
  unfold Py.max. destruct (Py.ltb a b) eqn:E.
  - right. apply ltb_lt in E. auto.
  - left. apply ltb_ge in E. auto.
Qed.

Lemma py_min_cases a b :
  (Py.min a b = a /\ a <= b) \/ (Py.min a b = b /\ b < a).
Proof.
  unfold Py.min. destruct (Py.ltb b a) eqn:E.
  - right. apply ltb_lt in E. auto.
  - left. apply ltb_ge in E. auto.
Qed.

Lemma py_min_Qmin a b : Py.min a b == Qmin a b.
Proof.
  destruct (py_min_cases a b) as [[-> H]|[-> H]].
  - now rewrite Q.min_l.
  - rewrite Q.min_r; [reflexivity|lra].
Qed.

Lemma py_min_monotone a b c : a <= b -> Py.min a c <= Py.min b c.
Proof.
  intros H. rewrite !py_min_Qmin. apply Q.min_le_compat_r. assumption.
Qed.

Lemma sum_from a xs : foldl Qplus a xs == a + Py.sum xs.
Proof.
  unfold Py.sum. revert a. induction xs as [|x xs IH]; intros a; cbn [foldl].
  - lra.
  - rewrite IH, (IH (0 + x)). lra.
Qed.

Lemma sum_cons x xs : Py.sum (x :: xs) == x + Py.sum xs.
Proof. unfold Py.sum at 1. cbn [foldl]. rewrite sum_from. lra. Qed.

(** [foldl Py.max x xs] is [x] or an element of [xs], and bounds them all. *)
Lemma foldl_max_spec xs : forall x,
  (foldl Py.max x xs = x \/ foldl Py.max x xs ∈ xs)
  /\ x <= foldl Py.max x xs
  /\ Forall (fun y => y <= foldl Py.max x xs) xs.
Proof.
  induction xs as [|y xs IH]; intros x; cbn [foldl].
  - split; [now left|]. split; [lra|constructor].
  - destruct (IH (Py.max x y)) as (Hin & Hle & Hall).
    destruct (py_max_cases x y) as [[E Hxy]|[E Hxy]]; rewrite E in *.
    + split; [destruct Hin; [now left|right; now apply elem_of_cons; right]|].
      split; [assumption|]. constructor; [lra|assumption].
    + split; [right; destruct Hin as [->|Hin]; apply elem_of_cons; auto|].
      split; [lra|]. constructor; [lra|assumption].
Qed.

Lemma max_list_spec xs m :
  Py.max_list xs = Some m -> m ∈ xs /\ Forall (fun y => y <= m) xs.
Proof.
  destruct xs as [|x xs]; [discriminate|]. cbn [Py.max_list].
  intros [= <-]. destruct (foldl_max_spec xs x) as (Hin & Hle & Hall).
  split.
  - apply elem_of_cons. destruct Hin as [->|Hin]; auto.
  - constructor; assumption.
Qed.

Lemma max_list_unique xs m ys m' :
  Py.max_list xs = Some m -> Py.max_list ys = Some m' ->
  m ∈ ys -> Forall (fun y => y ∈ xs) ys -> m' == m.
Proof.
  intros Hx Hy Hm Hsub.
  apply max_list_spec in Hx as [Hx1 Hx2]. apply max_list_spec in Hy as [Hy1 Hy2].
  rewrite Forall_forall in Hx2, Hy2, Hsub.
  apply Qle_antisym; auto.
Qed.

Lemma max_list_None xs : Py.max_list xs = None <-> xs = [].
Proof. destruct xs; cbn; split; congruence. Qed.

End PyFacts.

(** ** AQI derivation *)

Section AQIProofs.
Import AQI.
Local Open Scope Q_scope.

Lemma in_bracket_test c lo hi alo ahi :
  Py.leb lo c && Py.leb c hi = true <-> in_bracket c (lo, hi, alo, ahi).
Proof. simpl. rewrite andb_true_iff, !leb_le. tauto. Qed.

Lemma interpolate_lo lo hi alo ahi : lo < hi -> interpolate (lo, hi, alo, ahi) lo == alo.
Proof. intros. simpl. field. lra. Qed.

Lemma interpolate_hi lo hi alo ahi : lo < hi -> interpolate (lo, hi, alo, ahi) hi == ahi.
Proof. intros. simpl. field. lra. Qed.

Lemma interpolate_mono lo hi alo ahi c1 c2 :
  lo < hi -> alo <= ahi -> c1 <= c2 ->
  interpolate (lo, hi, alo, ahi) c1 <= interpolate (lo, hi, alo, ahi) c2.
Proof.
  intros Hlt Ha Hc. simpl.
  assert (Hs : 0 <= (ahi - alo) / (hi - lo)).
  { apply Qle_shift_div_l; lra. }
  nra.
Qed.

Lemma scan_head lo hi alo ahi rest c :
  in_bracket c (lo, hi, alo, ahi) ->
  scan_brackets ((lo, hi, alo, ahi) :: rest) c = interpolate (lo, hi, alo, ahi) c.
Proof.
  intros H. apply in_bracket_test in H. simpl in *. now rewrite H.
Qed.

Lemma scan_skip b rest c :
  ~ in_bracket c b -> scan_brackets (b :: rest) c = scan_brackets rest c.
Proof.
  destruct b as [[[lo hi] alo] ahi]. intros H. cbn [scan_brackets].
  destruct (Py.leb lo c && Py.leb c hi) eqn:E; [|reflexivity].
  apply in_bracket_test with (alo := alo) (ahi := ahi) in E. contradiction.
Qed.

Lemma scan_uncovered bps c :
  Forall (fun b => ~ in_bracket c b) bps -> scan_brackets bps c = 500.
Proof.
  induction 1 as [|b rest Hb _ IH]; [reflexivity|].
  now rewrite scan_skip.
Qed.

(** Within an ascending table every bracket lies above the previous upper
    end, and the sub-index of a covered concentration lies between the
    previous AQI ceiling and 500. *)
Lemma ascending_bounds bps : forall h a c,
  ascending h a bps -> Exists (in_bracket c) bps ->
  h < c /\ a <= scan_brackets bps c /\ scan_brackets bps c <= 500.
Proof.
  induction bps as [|[[[lo hi] alo] ahi] rest IH]; intros h a c Hasc Hex.
  - inversion Hex.
  - destruct Hasc as (Hh & Hlt & Ha & Haa & Hrest).
    destruct (Py.leb lo c && Py.leb c hi) eqn:E.
    + apply in_bracket_test with (alo := alo) (ahi := ahi) in E.
      rewrite (scan_head _ _ _ _ _ _ E). destruct E as [E1 E2]. simpl in E1, E2.
      assert (Hup : ahi <= 500).
      { clear -Hrest. revert hi ahi Hrest.
        induction rest as [|[[[lo' hi'] alo'] ahi'] rest IH]; intros hi ahi H.
        - exact H.
        - destruct H as (_ & _ & H1 & H2 & H3). apply IH in H3. lra. }
      pose proof (interpolate_mono lo hi alo ahi lo c Hlt Haa E1) as M1.
      pose proof (interpolate_mono lo hi alo ahi c hi Hlt Haa E2) as M2.
      rewrite interpolate_lo in M1 by assumption.
      rewrite interpolate_hi in M2 by assumption.
      split; [lra|]. split; lra.
    + assert (Hn : ~ in_bracket c (lo, hi, alo, ahi)).
      { intros Hin. apply in_bracket_test in Hin. simpl in Hin. congruence. }
      rewrite scan_skip by assumption.
      apply Exists_cons in Hex as [Hex|Hex]; [contradiction|].
      destruct (IH hi ahi c Hrest Hex) as (H1 & H2 & H3).
      split; [lra|]. split; lra.
Qed.

Lemma ascending_monotone bps : forall h a c1 c2,
  ascending h a bps ->
  Exists (in_bracket c1) bps -> Exists (in_bracket c2) bps -> c1 <= c2 ->
  scan_brackets bps c1 <= scan_brackets bps c2.
Proof.
  induction bps as [|[[[lo hi] alo] ahi] rest IH]; intros h a c1 c2 Hasc H1 H2 Hle.
  - inversion H1.
  - pose proof Hasc as (Hh & Hlt & Ha & Haa & Hrest).
    apply Exists_cons in H1. apply Exists_cons in H2.
    destruct H1 as [H1|H1].
    + rewrite (scan_head _ _ _ _ _ _ H1).
      destruct H2 as [H2|H2].
      * rewrite (scan_head _ _ _ _ _ _ H2). now apply interpolate_mono.
      * destruct (ascending_bounds rest hi ahi c2 Hrest H2) as (B1 & B2 & _).
        assert (Hn : ~ in_bracket c2 (lo, hi, alo, ahi)) by (simpl; lra).
        rewrite scan_skip by assumption.
        destruct H1 as [E1 E2]. simpl in E1, E2.
        pose proof (interpolate_mono lo hi alo ahi c1 hi Hlt Haa E2) as M.
        rewrite interpolate_hi in M by assumption. lra.
    + destruct (ascending_bounds rest hi ahi c1 Hrest H1) as (B1 & _ & _).
      assert (Hn1 : ~ in_bracket c1 (lo, hi, alo, ahi)) by (simpl; lra).
      assert (Hn2 : ~ in_bracket c2 (lo, hi, alo, ahi)) by (simpl; lra).
      rewrite !scan_skip by assumption.
      destruct H2 as [H2|H2]; [contradiction|].
      now apply (IH hi ahi).
Qed.

(** In an ascending table the brackets are disjoint, so a covered
    concentration is interpolated in the bracket that holds it. *)
Lemma ascending_interpolates bps : forall h a b c,
  ascending h a bps -> b ∈ bps -> in_bracket c b ->
  scan_brackets bps c = interpolate b c.
Proof.
  induction bps as [|[[[lo hi] alo] ahi] rest IH]; intros h a b c Hasc Hb Hc.
  - inversion Hb.
  - destruct Hasc as (Hh & Hlt & Ha & Haa & Hrest).
    apply elem_of_cons in Hb as [->|Hb].
    + now apply scan_head.
    + assert (Hex : Exists (in_bracket c) rest).
      { apply Exists_exists. exists b. split; assumption. }
      destruct (ascending_bounds rest hi ahi c Hrest Hex) as (B1 & _ & _).
      rewrite scan_skip by (simpl; lra). now apply (IH hi ahi).
Qed.

Lemma breakpoints_ascending p bps :
  breakpoints !! p = Some bps -> ascending (-1) 0 bps.
Proof.
  unfold breakpoints. cbn [list_to_map foldr fst snd uncurry].
  intros H.
  repeat (apply lookup_insert_Some in H as [[_ <-]|[_ H]];
    [cbn; repeat split; lra|]).
  now rewrite lookup_empty in H.
Qed.

Lemma breakpoints_pollutants p :
  p ∈ pollutants -> exists bps, breakpoints !! p = Some bps.
Proof.
  unfold pollutants. rewrite !elem_of_cons, elem_of_nil.
  intros [->|[->|[->|[]]]]; eexists; reflexivity.
Qed.

Lemma covered_Exists p bps c :
  breakpoints !! p = Some bps -> covered p c -> Exists (in_bracket c) bps.
Proof.
  intros Hp (bps' & b & Hp' & Hb & Hc). rewrite Hp in Hp'. injection Hp' as <-.
  apply Exists_exists. exists b. split; assumption.
Qed.

Lemma uncovered_Forall p bps c :
  breakpoints !! p = Some bps -> ~ covered p c ->
  Forall (fun b => ~ in_bracket c b) bps.
Proof.
  intros Hp Hn. apply Forall_forall. intros b Hb Hc.
  apply Hn. exists bps, b. auto.
Qed.

Lemma get_aqi_value_scan p bps c :
  breakpoints !! p = Some bps -> get_aqi_value (Some c) p = scan_brackets bps c.
Proof. intros H. unfold get_aqi_value. now rewrite H. Qed.

Lemma covered_inv p c :
  covered p c ->
  exists bps lo hi alo ahi,
    breakpoints !! p = Some bps /\ (lo, hi, alo, ahi) ∈ bps /\ lo <= c /\ c <= hi.
Proof.
  intros (bps & [[[lo hi] alo] ahi] & Hp & Hb & Hlo & Hhi).
  exists bps, lo, hi, alo, ahi. auto.
Qed.

Lemma ascending_range bps : forall h a c,
  ascending h a bps -> 0 <= a ->
  0 <= scan_brackets bps c /\ scan_brackets bps c <= 500.
Proof.
  induction bps as [|[[[lo hi] alo] ahi] rest IH]; intros h a c Hasc Ha.
  - cbn. split; lra.
  - destruct (Py.leb lo c && Py.leb c hi) eqn:E.
    + apply in_bracket_test with (alo := alo) (ahi := ahi) in E.
      destruct (ascending_bounds _ h a c Hasc) as (_ & H1 & H2).
      { now apply Exists_cons_hd. }
      split; lra.
    + destruct Hasc as (_ & _ & H1 & H2 & Hrest).
      cbn [scan_brackets]. rewrite E. apply (IH hi ahi); [assumption|lra].
Qed.

Lemma sub_index_range p c :
  0 <= get_aqi_value (Some c) p /\ get_aqi_value (Some c) p <= 500.
Proof.
  unfold get_aqi_value. destruct (breakpoints !! p) as [bps|] eqn:E.
  - apply (ascending_range bps (-1) 0); [|lra]. eapply breakpoints_ascending, E.
  - split; lra.
Qed.

(** A concentration lies in a bracket of the table or in none. *)
Lemma scan_cases bps c :
  Exists (in_bracket c) bps \/ Forall (fun b => ~ in_bracket c b) bps.
Proof.
  induction bps as [|[[[lo hi] alo] ahi] rest [IH|IH]].
  - right. constructor.
  - left. now apply Exists_cons_tl.
  - destruct (Qlt_le_dec c lo) as [Hlo|Hlo].
    { right. constructor; [|exact IH]. cbn. intros [? ?]. lra. }
    destruct (Qlt_le_dec hi c) as [Hhi|Hhi].
    { right. constructor; [|exact IH]. cbn. intros [? ?]. lra. }
    left. apply Exists_cons_hd. cbn. split; assumption.
Qed.

Ltac split_brackets H :=
  repeat (apply elem_of_cons in H as [H|H]; [injection H as ? ? ? ?; subst|]);
  try (apply elem_of_nil in H; destruct H).

(** C1.  For each of pm25, pm10 and no2 and for every concentration within
    a breakpoint bracket, the sub-index is non-decreasing: no larger
    concentration, within a bracket or not, gets a smaller sub-index.
    Inside a bracket the sub-index is the straight line of the interpolation
    formula; it maps the two ends of every bracket to the two ends of the
    bracket's AQI range; consecutive brackets are separated by exactly one
    AQI unit, so PM2.5 = 12.0 gives 50 and PM2.5 = 12.1 gives 51. *)
Theorem sub_index_monotone_on_brackets p :
  p ∈ pollutants ->
  (forall c1 c2, covered p c1 -> c1 <= c2 ->
     get_aqi_value (Some c1) p <= get_aqi_value (Some c2) p)
  /\ (forall bps b c, breakpoints !! p = Some bps -> b ∈ bps -> in_bracket c b ->
        get_aqi_value (Some c) p = interpolate b c)
  /\ (forall bps lo hi alo ahi,
        breakpoints !! p = Some bps -> (lo, hi, alo, ahi) ∈ bps ->
        get_aqi_value (Some lo) p == alo /\ get_aqi_value (Some hi) p == ahi)
  /\ (forall bps k lo hi alo ahi lo' hi' alo' ahi',
        breakpoints !! p = Some bps ->
        bps !! k = Some (lo, hi, alo, ahi) ->
        bps !! S k = Some (lo', hi', alo', ahi') ->
        hi < lo' /\ alo' == ahi + 1)
  /\ get_aqi_value (Some 12.0) "pm25" == 50
  /\ get_aqi_value (Some 12.1) "pm25" == 51.
Proof.
  intros Hp. destruct (breakpoints_pollutants p Hp) as [tbl Htbl].
  pose proof (breakpoints_ascending p tbl Htbl) as Hasc.
  assert (Hwide : forall lo hi alo ahi, (lo, hi, alo, ahi) ∈ tbl -> lo < hi).
  { clear -Hasc. revert Hasc. generalize (-1) 0.
    induction tbl as [|[[[l h] al] ah] rest IH]; intros x y Hasc lo hi alo ahi Hin.
    - inversion Hin.
    - destruct Hasc as (_ & Hlt & _ & _ & Hrest).
      apply elem_of_cons in Hin as [Heq|Hin]; [congruence|eauto]. }
  assert (Hstep : forall k lo hi alo ahi lo' hi' alo' ahi',
             tbl !! k = Some (lo, hi, alo, ahi) ->
             tbl !! S k = Some (lo', hi', alo', ahi') ->
             hi < lo' /\ alo' == ahi + 1).
  { clear Hasc Hwide. unfold pollutants in Hp.
    rewrite !elem_of_cons, elem_of_nil in Hp.
    intros k lo hi alo ahi lo' hi' alo' ahi' H0 H1.
    destruct Hp as [->|[->|[->|[]]]]; vm_compute in Htbl; injection Htbl as <-;
      do 6 (destruct k as [|k];
            [cbn in H0, H1;
             first [discriminate
                   |injection H0 as <- <- <- <-; injection H1 as <- <- <- <-;
                    split; [lra|reflexivity]]|]);
      discriminate. }
  split; [|split; [|split; [|split; [|split]]]].
  - intros c1 c2 H1 Hle.
    destruct (scan_cases tbl c2) as [H2|H2].
    + rewrite !(get_aqi_value_scan p tbl) by assumption.
      apply (ascending_monotone tbl (-1) 0); eauto using covered_Exists.
    + rewrite (get_aqi_value_scan p tbl c2), (scan_uncovered tbl c2) by assumption.
      apply sub_index_range.
  - intros bps b c Hbps Hb Hc. rewrite Htbl in Hbps. injection Hbps as <-.
    rewrite (get_aqi_value_scan p tbl) by assumption.
    now apply (ascending_interpolates tbl (-1) 0).
  - intros bps lo hi alo ahi Hbps Hb. rewrite Htbl in Hbps. injection Hbps as <-.
    pose proof (Hwide _ _ _ _ Hb) as Hlt.
    rewrite !(get_aqi_value_scan p tbl) by assumption.
    rewrite (ascending_interpolates tbl (-1) 0 (lo, hi, alo, ahi) lo)
      by (simpl; auto; lra).
    rewrite (ascending_interpolates tbl (-1) 0 (lo, hi, alo, ahi) hi)
      by (simpl; auto; lra).
    split; [now apply interpolate_lo|now apply interpolate_hi].
  - intros bps k lo hi alo ahi lo' hi' alo' ahi' Hbps.
    rewrite Htbl in Hbps. injection Hbps as <-. apply Hstep.
  - reflexivity.
  - reflexivity.
Qed.

Lemma pm25_in_pollutants : "pm25"%string ∈ pollutants.
Proof. unfold pollutants. apply elem_of_cons. now left. Qed.

Lemma covered_pm25_12 : covered "pm25" 12.0.
Proof.
  eexists _, (0, 12, 0, 50). split; [reflexivity|].
  split; [apply elem_of_cons; now left|]. simpl. lra.
Qed.

(** C1, an instance: PM2.5 at 12.0 and at 12.1. *)
Lemma sub_index_monotone_on_brackets_witness :
  get_aqi_value (Some 12.0) "pm25" <= get_aqi_value (Some 12.1) "pm25".
Proof.
  apply (proj1 (sub_index_monotone_on_brackets "pm25" pm25_in_pollutants)).
  - exact covered_pm25_12.
  - lra.
Defined.

(** The hypothesis of C1 that the smaller concentration lies within a
    bracket cannot be dropped: PM2.5 = 12.05 lies in the gap between the
    first two brackets and gets 500 (see C10), while the larger PM2.5 = 12.1
    gets 51. *)
Lemma sub_index_not_monotone_in_gap :
  ~ (forall c1 c2 : Q, c1 <= c2 ->
       get_aqi_value (Some c1) "pm25" <= get_aqi_value (Some c2) "pm25").
Proof.
  intros H. specialize (H 12.05 12.1).
  assert (E1 : get_aqi_value (Some 12.05) "pm25" = 500) by reflexivity.
  assert (E2 : get_aqi_value (Some 12.1) "pm25" == 51) by reflexivity.
  rewrite E1, E2 in H. lra.
Qed.

(** C10.  For each of pm25, pm10 and no2, a concentration that lies in no
    bracket of the table gets the sub-index 500: a negative one, one in the
    gap between two consecutive brackets (PM2.5 strictly between 12 and
    12.1, PM10 strictly between 54 and 55, NO2 strictly between 53 and 54),
    and one above the last bracket. *)
Theorem uncovered_concentration_is_500 :
  (forall p c, p ∈ pollutants -> ~ covered p c -> get_aqi_value (Some c) p = 500)
  /\ (forall p c, p ∈ pollutants -> c < 0 -> get_aqi_value (Some c) p = 500)
  /\ (forall c, 12 < c < 12.1 -> get_aqi_value (Some c) "pm25" = 500)
  /\ (forall c, 54 < c < 55 -> get_aqi_value (Some c) "pm10" = 500)
  /\ (forall c, 53 < c < 54 -> get_aqi_value (Some c) "no2" = 500)
  /\ (forall c, 500.4 < c -> get_aqi_value (Some c) "pm25" = 500)
  /\ (forall c, 604 < c -> get_aqi_value (Some c) "pm10" = 500)
  /\ (forall c, 2049 < c -> get_aqi_value (Some c) "no2" = 500).
Proof.
  assert (Hgen : forall p c, p ∈ pollutants -> ~ covered p c ->
                   get_aqi_value (Some c) p = 500).
  { intros p c Hp Hn. destruct (breakpoints_pollutants p Hp) as [bps Hbps].
    rewrite (get_aqi_value_scan p bps) by assumption.
    apply scan_uncovered. eauto using uncovered_Forall. }
  assert (Hout : forall p c, p ∈ pollutants ->
            (forall bps lo hi alo ahi, breakpoints !! p = Some bps ->
               (lo, hi, alo, ahi) ∈ bps -> ~ (lo <= c /\ c <= hi)) ->
            get_aqi_value (Some c) p = 500).
  { intros p c Hp Hno. apply Hgen; [assumption|]. intros Hc.
    apply covered_inv in Hc as (bps & lo & hi & alo & ahi & H1 & H2 & H3 & H4).
    apply (Hno bps lo hi alo ahi); auto. }
  split; [exact Hgen|].
  split.
  { intros p c Hp Hneg. apply Hout; [assumption|].
    intros bps lo hi alo ahi Hbps Hb.
    unfold pollutants in Hp. rewrite !elem_of_cons, elem_of_nil in Hp.
    destruct Hp as [->|[->|[->|[]]]]; vm_compute in Hbps; injection Hbps as <-;
      split_brackets Hb; lra. }
  repeat split; intros c Hc; (apply Hout; [unfold pollutants; in_list|]);
    intros bps lo hi alo ahi Hbps Hb; vm_compute in Hbps; injection Hbps as <-;
    split_brackets Hb; lra.
Qed.

(** C10, an instance: PM2.5 = 12.05. *)
Lemma uncovered_concentration_is_500_witness :
  get_aqi_value (Some 12.05) "pm25" = 500.
Proof.
  apply (proj1 (proj2 (proj2 uncovered_concentration_is_500))). lra.
Defined.

(** The loop of [_calculate_aqi] collects the strictly positive sub-indices. *)
Lemma collect_loop r ps : forall acc,
  foldl (collect r) acc ps =
  acc ++ filter (fun x => positive x = true) (omap (sub_index r) ps).
Proof.
  induction ps as [|p ps IH]; intros acc; cbn [foldl].
  - cbn. now rewrite app_nil_r.
  - rewrite IH.
    change (omap (sub_index r) (p :: ps))
      with (match sub_index r p with
            | Some y => y :: omap (sub_index r) ps
            | None => omap (sub_index r) ps
            end).
    unfold collect, sub_index.
    destruct (r !! p) as [[c|]|]; try reflexivity.
    rewrite filter_cons.
    destruct (Py.ltb 0 (get_aqi_value (Some c) p)) eqn:E.
    + rewrite decide_True by exact E. now rewrite <- app_assoc.
    + rewrite decide_False by (unfold positive; congruence). reflexivity.
Qed.

Lemma calculate_aqi_unfold r :
  _calculate_aqi r =
  match Py.max_list (filter (fun x => positive x = true) (sub_indices r)) with
  | Some m => m
  | None => 100
  end.
Proof. unfold _calculate_aqi. now rewrite collect_loop. Qed.

Lemma filter_positive_nil xs m :
  Forall (fun y => y <= m) xs -> m <= 0 ->
  filter (fun x => positive x = true) xs = [].
Proof.
  intros Hall Hm. induction Hall as [|y ys Hy _ IH]; [reflexivity|].
  rewrite filter_cons, decide_False; [exact IH|].
  unfold positive. intros E. apply ltb_lt in E. lra.
Qed.

(** C9.  When none of pm25, pm10 and no2 is present and non-missing in the
    row, [_calculate_aqi] returns the default 100, which is not zero. *)
Theorem no_pollutant_gives_default (r : row) :
  (forall p, p ∈ pollutants -> r !! p = None \/ r !! p = Some None) ->
  _calculate_aqi r = 100 /\ ~ _calculate_aqi r == 0.
Proof.
  intros H.
  assert (E : sub_indices r = []).
  { unfold sub_indices, sub_index, pollutants in *.
    cbn [omap list_omap].
    destruct (H "pm25"%string ltac:(set_solver)) as [-> | ->];
    destruct (H "pm10"%string ltac:(set_solver)) as [-> | ->];
    destruct (H "no2"%string ltac:(set_solver)) as [-> | ->]; reflexivity. }
  rewrite calculate_aqi_unfold, E. cbn. split; [reflexivity|]. intros Hz. lra.
Qed.

(** C9, an instance: a row with so2 only and a NaN pm10. *)
Lemma no_pollutant_gives_default_witness :
  _calculate_aqi {[ "so2"%string := Some 20; "pm10"%string := None ]} = 100
  /\ ~ _calculate_aqi {[ "so2"%string := Some 20; "pm10"%string := None ]} == 0.
Proof.
  apply no_pollutant_gives_default.
  intros p Hp. unfold pollutants in Hp. rewrite !elem_of_cons, elem_of_nil in Hp.
  destruct Hp as [->|[->|[->|[]]]]; vm_compute; auto.
Defined.

(** C2, as amended.  The overall AQI is the maximum of the sub-indices of
    the pollutants present and non-missing whenever that maximum is
    positive; when it is zero (every present pollutant has sub-index 0) or
    no pollutant is present, the result is the default 100.  For the row
    pm25 = 35.4, pm10 = 54, no2 = 53 the result is 100. *)
Theorem overall_aqi_is_max_positive_sub_index (r : row) :
  (forall m, spec_overall_aqi r = Some m -> 0 < m -> _calculate_aqi r == m)
  /\ (forall m, spec_overall_aqi r = Some m -> m <= 0 -> _calculate_aqi r = 100)
  /\ (spec_overall_aqi r = None -> _calculate_aqi r = 100)
  /\ _calculate_aqi {[ "pm25"%string := Some 35.4; "pm10"%string := Some 54;
                       "no2"%string := Some 53 ]} == 100.
Proof.
  unfold spec_overall_aqi. rewrite calculate_aqi_unfold.
  split; [|split; [|split]].
  - intros m Hm Hpos.
    pose proof (max_list_spec _ _ Hm) as [Hin Hall].
    assert (Hinf : m ∈ filter (fun x => positive x = true) (sub_indices r)).
    { apply list_elem_of_filter. split; [|assumption]. now apply ltb_lt. }
    destruct (Py.max_list (filter _ (sub_indices r))) as [m'|] eqn:E.
    + apply (max_list_unique (sub_indices r) m
               (filter (fun x => positive x = true) (sub_indices r)) m');
        try assumption.
      apply Forall_forall. intros y Hy. now apply list_elem_of_filter in Hy as [_ Hy].
    + apply max_list_None in E. rewrite E in Hinf. now apply elem_of_nil in Hinf.
  - intros m Hm Hneg.
    pose proof (max_list_spec _ _ Hm) as [Hin Hall].
    rewrite (filter_positive_nil _ m) by assumption. reflexivity.
  - intros E. apply max_list_None in E. now rewrite E.
  - reflexivity.
Qed.

(** C2, an instance: pm25 = 60 and no2 = 0. *)
Lemma overall_aqi_is_max_positive_sub_index_witness :
  exists m,
    spec_overall_aqi {[ "pm25"%string := Some 60; "no2"%string := Some 0 ]} = Some m
    /\ 0 < m
    /\ _calculate_aqi {[ "pm25"%string := Some 60; "no2"%string := Some 0 ]} == m.
Proof.
  eexists. split; [reflexivity|]. split; [reflexivity|].
  apply (proj1 (overall_aqi_is_max_positive_sub_index _)); reflexivity.
Defined.

(** C2 as stated fails: for the row pm25 = 0 the only sub-index is 0, so
    the maximum of the sub-indices is 0, but the result is 100. *)
Lemma zero_sub_index_is_discarded :
  exists m,
    spec_overall_aqi {[ "pm25"%string := Some 0 ]} = Some m
    /\ m == 0
    /\ _calculate_aqi {[ "pm25"%string := Some 0 ]} = 100
    /\ ~ _calculate_aqi {[ "pm25"%string := Some 0 ]} == m.
Proof.
  eexists. split; [reflexivity|]. split; [reflexivity|].
  split; [reflexivity|]. intros H. vm_compute in H. discriminate.
Qed.

(** X1.  The overall AQI is always positive and at most 500. *)
Theorem overall_aqi_range (r : row) :
  0 < _calculate_aqi r /\ _calculate_aqi r <= 500.
Proof.
  rewrite calculate_aqi_unfold.
  destruct (Py.max_list _) as [m|] eqn:E; [|split; lra].
  apply max_list_spec in E as [Hin _].
  apply list_elem_of_filter in Hin as [Hpos Hin].
  apply ltb_lt in Hpos. split; [exact Hpos|].
  unfold sub_indices in Hin. apply list_elem_of_omap in Hin as (p & _ & Hp).
  unfold sub_index in Hp. destruct (r !! p) as [[c|]|]; try discriminate.
  injection Hp as <-. apply sub_index_range.
Qed.

End AQIProofs.

(** ** Health-risk scoring *)

Section RiskProofs.
Import Risk.
Local Open Scope Q_scope.

(** The loop of [calculate_health_risk_score] computes the two sums. *)
Lemma accumulate_loop d base items : forall tr tpf,
  (foldl (accumulate d base) (tr, tpf) items).1
    == tr + Py.sum (map (fun item => base * item.2 * group_share d item.1) items)
  /\ (foldl (accumulate d base) (tr, tpf) items).2
    == tpf + Py.sum (map (fun item => group_share d item.1) items).
Proof.
  induction items as [|[g v] items IH]; intros tr tpf; cbn [foldl map].
  - cbn. split; lra.
  - rewrite !sum_cons.
    change (accumulate d base (tr, tpf) (g, v))
      with (match d !! g with
            | Some share => (tr + base * v * (share / 100), tpf + share / 100)
            | None => (tr, tpf)
            end).
    unfold group_share at 1 3. cbn [fst snd].
    destruct (d !! g) as [share|]; cbn [default].
    + destruct (IH (tr + base * v * (share / 100)) (tpf + share / 100)) as [E1 E2].
      rewrite E1, E2. unfold id. split; lra.
    + destruct (IH tr tpf) as [E1 E2]. rewrite E1, E2. split; field.
Qed.

Lemma known_city c d :
  city_demographics !! c = Some d ->
  d ∈ [Delhi; Mumbai; Kolkata; Chennai; Bangalore; Hyderabad].
Proof.
  unfold city_demographics. cbn [list_to_map foldr fst snd uncurry].
  intros H.
  repeat (apply lookup_insert_Some in H as [[_ <-]|[_ H]]; [set_solver|]).
  now rewrite lookup_empty in H.
Qed.

Lemma known_city_facts c d :
  city_demographics !! c = Some d ->
  0 < share_sum d
  /\ (exists li, d !! "low_income_percentage"%string = Some li /\ 0 <= li)
  /\ ~ risk_sum d 1 / share_sum d == simple_mean_risk 1.
Proof.
  intros H. apply known_city in H.
  rewrite !elem_of_cons, elem_of_nil in H.
  destruct H as [->|[->|[->|[->|[->|[->|[]]]]]]];
    (split; [reflexivity|]); (split; [eexists; split; [reflexivity|discriminate]|]);
    intros E; vm_compute in E; discriminate.
Qed.

Lemma score_known aqi city d :
  city_demographics !! city = Some d ->
  calculate_health_risk_score aqi city = score_with d aqi.
Proof.
  intros H. unfold calculate_health_risk_score. rewrite H. cbn zeta. rewrite H.
  reflexivity.
Qed.

Lemma score_unknown aqi city :
  city_demographics !! city = None ->
  calculate_health_risk_score aqi city = score_with Delhi aqi.
Proof.
  intros H. unfold calculate_health_risk_score. rewrite H. reflexivity.
Qed.


Lemma base_risk_bounds a : 0.1 <= base_risk a /\ base_risk a <= 1.
Proof.
  unfold base_risk.
  repeat match goal with |- context [Py.leb ?x ?y] => destruct (Py.leb x y) end;
    split; lra.
Qed.


Lemma risk_sum_scale d base : risk_sum d base == base * risk_sum d 1.
Proof.
  unfold risk_sum. induction vulnerability_factors as [|[g v] items IH]; cbn [map].
  - cbn. lra.
  - rewrite !sum_cons, IH. cbn [fst snd]. lra.
Qed.

Lemma simple_mean_scale base : simple_mean_risk base == base * simple_mean_risk 1.
Proof.
  unfold simple_mean_risk.
  assert (E : Py.sum (map (fun item : string * Q => base * item.2) vulnerability_factors)
              == base * Py.sum (map (fun item : string * Q => 1 * item.2) vulnerability_factors)).
  { induction vulnerability_factors as [|[g v] items IH]; cbn [map].
    - cbn. lra.
    - rewrite !sum_cons, IH. cbn [fst snd]. lra. }
  rewrite E. field.
Qed.

(** What [score_with] returns for a city with a positive share sum. *)
Lemma score_with_value d aqi li :
  0 < share_sum d -> d !! "low_income_percentage"%string = Some li ->
  exists r, score_with d aqi = Some r
    /\ r == Qmin (risk_sum d (base_risk aqi) / share_sum d * (1 + li / 100 * 0.3)) 1.
Proof.
  intros Hpos Hli. unfold score_with.
  destruct (accumulate_loop d (base_risk aqi) vulnerability_factors 0 0) as [E1 E2].
  destruct (foldl _ _ _) as [tr tpf]. cbn [fst snd] in E1, E2.
  fold (risk_sum d (base_risk aqi)) in E1. fold (share_sum d) in E2.
  rewrite Qplus_0_l in E1, E2.
  rewrite Hli. cbn [mbind option_bind].
  assert (Ht : Py.ltb 0 tpf = true) by (apply ltb_lt; lra).
  rewrite Ht. eexists. split; [reflexivity|].
  rewrite py_min_Qmin, E1, E2.
  apply Q.min_compat; reflexivity.
Qed.

(** C3.  For every AQI value and every known city the score is
    [min(weighted_risk * (1 + low_income_percentage / 100 * 0.3), 1)], where
    [weighted_risk] is the sum of [base_risk * multiplier * group_share] over
    the six groups divided by the sum of the group shares; the score is at
    most 1, and the weighted average differs from the simple mean of the six
    group risks. *)
Theorem risk_score_is_capped_weighted_average (aqi_value : Q) (city_name : string)
    (d : gmap string Q) :
  city_demographics !! city_name = Some d ->
  exists r li,
    d !! "low_income_percentage"%string = Some li
    /\ calculate_health_risk_score aqi_value city_name = Some r
    /\ r == Qmin (risk_sum d (base_risk aqi_value) / share_sum d
                  * (1 + li / 100 * 0.3)) 1
    /\ r <= 1
    /\ ~ risk_sum d (base_risk aqi_value) / share_sum d
          == simple_mean_risk (base_risk aqi_value).
Proof.
  intros Hcity. destruct (known_city_facts _ _ Hcity) as (Hpos & (li & Hli & _) & Hne).
  destruct (score_with_value d aqi_value li Hpos Hli) as (r & Hr & Hval).
  exists r, li. split; [assumption|].
  split; [now rewrite (score_known _ _ d)|].
  split; [assumption|]. split.
  - rewrite Hval. apply Q.le_min_r.
  - intros E. apply Hne.
    rewrite risk_sum_scale, simple_mean_scale in E.
    pose proof (base_risk_bounds aqi_value) as [Hb _].
    assert (Hb' : ~ base_risk aqi_value == 0) by lra.
    apply (Qmult_inj_l _ _ (base_risk aqi_value)); [assumption|].
    rewrite <- E. field. lra.
Qed.

(** C3, an instance: Mumbai at AQI 180. *)
Lemma risk_score_is_capped_weighted_average_witness :
  exists r li,
    Mumbai !! "low_income_percentage"%string = Some li
    /\ calculate_health_risk_score 180 "Mumbai" = Some r
    /\ r == Qmin (risk_sum Mumbai (base_risk 180) / share_sum Mumbai
                  * (1 + li / 100 * 0.3)) 1
    /\ r <= 1
    /\ ~ risk_sum Mumbai (base_risk 180) / share_sum Mumbai
          == simple_mean_risk (base_risk 180).
Proof.
  apply (risk_score_is_capped_weighted_average 180 "Mumbai" Mumbai). reflexivity.
Defined.



(** X2.  A city that is not in the table is scored with Delhi's
    demographics. *)
Theorem unknown_city_is_scored_as_delhi (aqi_value : Q) (city_name : string) :
  city_demographics !! city_name = None ->
  calculate_health_risk_score aqi_value city_name
  = calculate_health_risk_score aqi_value "Delhi".
Proof.
  intros Hnone. rewrite (score_unknown _ _ Hnone).
  symmetry. now apply score_known.
Qed.

(** X2, an instance: Pune at AQI 180. *)
Lemma unknown_city_is_scored_as_delhi_witness :
  calculate_health_risk_score 180 "Pune" = calculate_health_risk_score 180 "Delhi".
Proof. apply unknown_city_is_scored_as_delhi. reflexivity. Defined.

End RiskProofs.

(** ** Feature engineering *)

Section FeatureProofs.
Import Features.
Context `{Numpy}.

(** The columns of the table before [dropna] are laid out as [layout] says. *)
Lemma feature_table_columns (df : list Measurement) :
  columns (feature_table df) = layout (sort_values df).
Proof.
  unfold feature_table. generalize (sort_values df) as s. intros s.
  reflexivity.
Qed.

Lemma full_lookup col i :
  full col -> (i < length col)%nat -> exists v, col !! i = Some (Some v).
Proof.
  intros Hfull Hi. destruct (lookup_lt_is_Some_2 col i Hi) as [c Hc].
  unfold full in Hfull. rewrite Forall_forall in Hfull.
  destruct (Hfull c) as [v ->]; [eapply list_elem_of_lookup_2; eassumption|].
  eauto.
Qed.

Lemma notna_full col i : full col -> (i < length col)%nat -> notna col i = true.
Proof.
  intros Hfull Hi. unfold notna.
  destruct (full_lookup col i Hfull Hi) as [v ->]. reflexivity.
Qed.

Lemma shift_length p col : length (shift p col) = length col.
Proof. unfold shift. rewrite length_take, length_app. lia. Qed.

Lemma shift_lookup p col i :
  (i < length col)%nat ->
  shift p col !! i = if decide (p <= i)%nat then col !! (i - p)%nat else Some None.
Proof.
  intros Hi. unfold shift. rewrite lookup_take_lt by assumption.
  case_decide.
  - rewrite lookup_app_r by (rewrite length_replicate; assumption).
    now rewrite length_replicate.
  - rewrite lookup_app_l by (rewrite length_replicate; lia).
    apply lookup_replicate_2. lia.
Qed.

Lemma notna_shift p col i :
  full col -> (i < length col)%nat ->
  notna (shift p col) i = bool_decide (p <= i)%nat.
Proof.
  intros Hfull Hi. unfold notna. rewrite shift_lookup by assumption.
  case_decide.
  - destruct (full_lookup col (i - p) Hfull) as [v ->]; [lia|].
    now rewrite bool_decide_true.
  - now rewrite bool_decide_false.
Qed.

Lemma window_at_full w col i :
  full col -> (i < length col)%nat -> (w <= S i)%nat ->
  exists xs, window_at w col i = Some xs /\ length xs = w.
Proof.
  intros Hfull Hi Hw. unfold window_at. rewrite decide_True by assumption.
  assert (Hsome : is_Some (mapM id (take w (drop (S i - w) col)))).
  { apply mapM_is_Some. apply Forall_take, Forall_drop.
    unfold full in Hfull. eapply Forall_impl; [exact Hfull|]. auto. }
  destruct Hsome as [xs Hxs]. exists xs. split; [assumption|].
  apply length_mapM in Hxs. rewrite <- Hxs, length_take, length_drop. lia.
Qed.

Lemma window_at_early w col i : (S i < w)%nat -> window_at w col i = None.
Proof. intros Hw. unfold window_at. rewrite decide_False by lia. reflexivity. Qed.

Lemma rolling_mean_length w col : length (rolling_mean w col) = length col.
Proof. apply length_imap. Qed.

Lemma notna_rolling_mean w col i :
  full col -> (i < length col)%nat ->
  notna (rolling_mean w col) i = bool_decide (w <= S i)%nat.
Proof.
  intros Hfull Hi. unfold notna, rolling_mean. rewrite list_lookup_imap.
  destruct (lookup_lt_is_Some_2 col i Hi) as [c ->]. cbn [fmap option_fmap option_map].
  case_bool_decide as Hw.
  - destruct (window_at_full w col i Hfull Hi Hw) as (xs & -> & _). reflexivity.
  - rewrite window_at_early by lia. reflexivity.
Qed.

Lemma rolling_std_length w col : length (rolling_std w col) = length col.
Proof. apply length_imap. Qed.

Lemma notna_rolling_std w col i :
  (2 <= w)%nat -> full col -> (i < length col)%nat ->
  notna (rolling_std w col) i = bool_decide (w <= S i)%nat.
Proof.
  intros Hw2 Hfull Hi. unfold notna, rolling_std. rewrite list_lookup_imap.
  destruct (lookup_lt_is_Some_2 col i Hi) as [c ->]. cbn [fmap option_fmap option_map].
  case_bool_decide as Hw.
  - destruct (window_at_full w col i Hfull Hi Hw) as (xs & -> & Hlen).
    cbn [mbind option_bind]. unfold std. rewrite decide_False by lia. reflexivity.
  - rewrite window_at_early by lia. reflexivity.
Qed.

Lemma notna_temporal f data i :
  (i < nrows data)%nat -> notna (temporal f data) i = true.
Proof.
  intros Hi. unfold notna, temporal. rewrite list_lookup_fmap.
  destruct (lookup_lt_is_Some_2 (timestamps data) i Hi) as [t ->]. reflexivity.
Qed.

Lemma notna_temp_estimate f g data i :
  (i < nrows data)%nat ->
  notna (zip_with temp_estimate (temporal f data) (temporal g data)) i = true.
Proof.
  intros Hi. unfold notna, temporal. rewrite lookup_zip_with, !list_lookup_fmap.
  destruct (lookup_lt_is_Some_2 (timestamps data) i Hi) as [t ->]. reflexivity.
Qed.

Lemma notna_humidity_estimate f data i :
  (i < nrows data)%nat ->
  notna (humidity_estimate <$> temporal f data) i = true.
Proof.
  intros Hi. unfold notna, temporal. rewrite !list_lookup_fmap.
  destruct (lookup_lt_is_Some_2 (timestamps data) i Hi) as [t ->]. reflexivity.
Qed.

Lemma notna_wind_speed_estimate n i :
  (i < n)%nat -> notna (wind_speed_estimate <$> seq 0 n) i = true.
Proof.
  intros Hi. unfold notna. rewrite list_lookup_fmap, lookup_seq_lt by assumption.
  reflexivity.
Qed.

Lemma source_column_full s col :
  Forall complete s -> col ∈ source_columns ->
  full (column col (of_records s)) /\ length (column col (of_records s)) = length s.
Proof.
  intros Hs Hcol. unfold source_columns in Hcol.
  rewrite !elem_of_cons, elem_of_nil in Hcol.
  assert (Hall : forall f : Measurement -> option Q,
             (forall m, complete m -> is_Some (f m)) -> full (map f s)).
  { intros f Hf. unfold full. apply Forall_fmap.
    eapply Forall_impl; [exact Hs|]. exact Hf. }
  destruct Hcol as [->|[->|[->|[->|[]]]]];
    (split; [apply Hall; intros m Hm; unfold complete in Hm; tauto
            |cbn; apply length_map]).
Qed.

Lemma base_columns_full s i :
  Forall complete s -> (i < length s)%nat ->
  forallb (fun c : string * Series => notna c.2 i) (columns (of_records s)) = true.
Proof.
  intros Hs Hi.
  assert (Hall : forall f : Measurement -> option Q,
             (forall m, complete m -> is_Some (f m)) -> notna (map f s) i = true).
  { intros f Hf. apply notna_full; [|now rewrite length_map].
    unfold full. apply Forall_fmap. eapply Forall_impl; [exact Hs|]. exact Hf. }
  cbn [of_records columns forallb snd].
  rewrite !Hall by (intros m Hm; unfold complete in Hm; tauto). reflexivity.
Qed.

Lemma forallb_bind {A B} (P : B -> bool) (f : A -> list B) (l : list A) :
  forallb P (l ≫= f) = forallb (fun x => forallb P (f x)) l.
Proof.
  induction l as [|x l IH]; [reflexivity|].
  cbn [mbind list_bind forallb]. rewrite <- IH. apply forallb_app.
Qed.

(** From row 24 on, and not before, a row of complete records has all its
    lag and rolling values. *)
Lemma row_complete_layout s i :
  Forall complete s -> (i < length s)%nat ->
  forallb (fun c : string * Series => notna c.2 i) (layout s) = bool_decide (24 <= i)%nat.
Proof.
  intros Hs Hi. unfold layout. cbv zeta.
  assert (Hn : (i < nrows (of_records s))%nat)
    by (unfold nrows; cbn; now rewrite length_map).
  assert (Hsrc : forall col, col ∈ source_columns ->
            full (column col (of_records s))
            /\ (i < length (column col (of_records s)))%nat).
  { intros col Hcol. destruct (source_column_full s col Hs Hcol) as [Hf Hl].
    split; [assumption|lia]. }
  rewrite !forallb_app, !forallb_bind.
  rewrite base_columns_full by assumption.
  cbn [forallb snd lag_periods window_sizes source_columns].
  rewrite !notna_temporal, notna_temp_estimate, notna_humidity_estimate,
    notna_wind_speed_estimate by assumption.
  rewrite !forallb_bind.
  cbn [forallb snd source_columns].
  rewrite !notna_shift by (apply Hsrc; unfold source_columns; in_list).
  rewrite !notna_rolling_mean by (apply Hsrc; unfold source_columns; in_list).
  rewrite !notna_rolling_std
    by (first [lia | apply Hsrc; unfold source_columns; in_list]).
  repeat case_bool_decide; cbn; try reflexivity; lia.
Qed.

Lemma select_from {A} k (xs : list A) : forall a n,
  length xs = n ->
  select (map (fun i => bool_decide (k <= i)%nat) (seq a n)) xs = drop (k - a) xs.
Proof.
  induction xs as [|x xs IH]; intros a n Hn; cbn in Hn; subst n.
  - now rewrite drop_nil.
  - cbn [seq map select]. rewrite (IH (S a)) by reflexivity.
    case_bool_decide as Hk.
    + replace (k - a)%nat with 0%nat by lia. replace (k - S a)%nat with 0%nat by lia.
      reflexivity.
    + replace (k - a)%nat with (S (k - S a)) by lia. reflexivity.
Qed.

Lemma sort_values_length df : length (sort_values df) = length df.
Proof. unfold sort_values. now rewrite merge_sort_Permutation. Qed.

Lemma feature_table_timestamps df :
  timestamps (feature_table df) = timestamp <$> sort_values df.
Proof. reflexivity. Qed.

Lemma feature_table_cities df :
  cities (feature_table df) = city <$> sort_values df.
Proof. reflexivity. Qed.

Lemma feature_table_locations df :
  locations (feature_table df) = location <$> sort_values df.
Proof. reflexivity. Qed.

Lemma feature_table_nrows df : nrows (feature_table df) = length df.
Proof.
  unfold nrows. now rewrite feature_table_timestamps, length_fmap, sort_values_length.
Qed.

Lemma layout_lengths s :
  Forall (fun c : string * Series => length c.2 = length s) (layout s).
Proof.
  unfold layout. cbv zeta.
  rewrite !Forall_app. split; [|split; [|split; [|split]]].
  - cbn [of_records columns]. repeat constructor; cbn [snd]; apply length_map.
  - repeat constructor; cbn [snd]; unfold temporal; cbn; now rewrite !length_map.
  - apply Forall_bind. apply Forall_forall. intros period _.
    apply Forall_bind. apply Forall_forall. intros col Hcol.
    constructor; [|constructor]. cbn [snd]. rewrite shift_length.
    unfold source_columns in Hcol. rewrite !elem_of_cons, elem_of_nil in Hcol.
    destruct Hcol as [->|[->|[->|[->|[]]]]]; cbn; apply length_map.
  - apply Forall_bind. apply Forall_forall. intros window _.
    apply Forall_bind. apply Forall_forall. intros col Hcol.
    constructor; [|constructor; [|constructor]]; cbn [snd];
      rewrite ?rolling_mean_length, ?rolling_std_length;
      unfold source_columns in Hcol; rewrite !elem_of_cons, elem_of_nil in Hcol;
      destruct Hcol as [->|[->|[->|[->|[]]]]]; cbn; apply length_map.
  - repeat constructor; cbn [snd].
    + rewrite length_zip_with; unfold temporal; cbn; rewrite !length_map; lia.
    + unfold temporal; cbn; now rewrite !length_map.
    + unfold nrows; cbn. now rewrite length_map, length_seq, length_map.
Qed.

(** On complete records [dropna] removes exactly the first 24 rows. *)
Lemma dropna_feature_table df :
  Forall complete df -> dropna (feature_table df) = drop_rows 24 (feature_table df).
Proof.
  intros Hdf.
  assert (Hs : Forall complete (sort_values df)).
  { unfold sort_values. now rewrite merge_sort_Permutation. }
  assert (Hkeep : map (row_complete (feature_table df)) (seq 0 (nrows (feature_table df)))
                  = map (fun i => bool_decide (24 <= i)%nat) (seq 0 (length df))).
  { rewrite feature_table_nrows. apply map_ext_in. intros i Hi.
    apply in_seq in Hi. unfold row_complete. rewrite feature_table_columns.
    apply row_complete_layout; [assumption|]. rewrite sort_values_length. lia. }
  unfold dropna, drop_rows. rewrite Hkeep.
  rewrite feature_table_timestamps, feature_table_cities, feature_table_locations.
  f_equal.
  - rewrite select_from; [reflexivity|]. now rewrite length_fmap, sort_values_length.
  - rewrite select_from; [reflexivity|]. now rewrite length_fmap, sort_values_length.
  - rewrite select_from; [reflexivity|]. now rewrite length_fmap, sort_values_length.
  - apply map_ext_in. intros [name col] Hc. cbn [fst snd]. f_equal.
    rewrite select_from; [reflexivity|].
    rewrite feature_table_columns in Hc.
    pose proof (layout_lengths (sort_values df)) as Hlen.
    rewrite List.Forall_forall in Hlen. specialize (Hlen _ Hc). cbn [snd] in Hlen.
    now rewrite Hlen, sort_values_length.
Qed.

Lemma shift_take p col i :
  shift p (take (S i) col) !! i = shift p col !! i.
Proof.
  destruct (decide (i < length col)%nat) as [Hi|Hi].
  - rewrite !shift_lookup by (rewrite ?length_take; lia).
    case_decide; [|reflexivity]. apply lookup_take_lt. lia.
  - rewrite take_ge by lia. reflexivity.
Qed.

Lemma window_at_take w col i :
  window_at w (take (S i) col) i = window_at w col i.
Proof.
  unfold window_at. case_decide as Hw; [|reflexivity].
  f_equal. rewrite !take_drop_commute, take_take.
  replace (S i - w + w)%nat with (S i) by lia.
  now rewrite Nat.min_id.
Qed.

Lemma rolling_mean_take w col i :
  rolling_mean w (take (S i) col) !! i = rolling_mean w col !! i.
Proof.
  unfold rolling_mean. rewrite !list_lookup_imap, window_at_take.
  destruct (decide (i < length col)%nat) as [Hi|Hi].
  - now rewrite lookup_take_lt by lia.
  - now rewrite take_ge by lia.
Qed.

Lemma rolling_std_take w col i :
  rolling_std w (take (S i) col) !! i = rolling_std w col !! i.
Proof.
  unfold rolling_std. rewrite !list_lookup_imap, window_at_take.
  destruct (decide (i < length col)%nat) as [Hi|Hi].
  - now rewrite lookup_take_lt by lia.
  - now rewrite take_ge by lia.
Qed.

Lemma source_column_take s k col :
  col ∈ source_columns ->
  column col (of_records (take k s)) = take k (column col (of_records s)).
Proof.
  unfold source_columns. rewrite !elem_of_cons, elem_of_nil.
  intros [->|[->|[->|[->|[]]]]]; cbn; apply fmap_take.
Qed.

Lemma lookup_layout_lag s period col :
  period ∈ lag_periods -> col ∈ source_columns ->
  lookup_col (col +:+ "_lag_" +:+ pretty period) (layout s)
  = Some (shift period (column col (of_records s))).
Proof.
  unfold lag_periods, source_columns. rewrite !elem_of_cons, !elem_of_nil.
  intros [->|[->|[->|[->|[->|[]]]]]] [->|[->|[->|[->|[]]]]]; reflexivity.
Qed.

Lemma lookup_layout_rolling_mean s window col :
  window ∈ window_sizes -> col ∈ source_columns ->
  lookup_col (col +:+ "_rolling_mean_" +:+ pretty window) (layout s)
  = Some (rolling_mean window (column col (of_records s))).
Proof.
  unfold window_sizes, source_columns. rewrite !elem_of_cons, !elem_of_nil.
  intros [->|[->|[->|[]]]] [->|[->|[->|[->|[]]]]]; reflexivity.
Qed.

Lemma lookup_layout_rolling_std s window col :
  window ∈ window_sizes -> col ∈ source_columns ->
  lookup_col (col +:+ "_rolling_std_" +:+ pretty window) (layout s)
  = Some (rolling_std window (column col (of_records s))).
Proof.
  unfold window_sizes, source_columns. rewrite !elem_of_cons, !elem_of_nil.
  intros [->|[->|[->|[]]]] [->|[->|[->|[->|[]]]]]; reflexivity.
Qed.

(** A lag or rolling value at row [i] is computed from the first [i + 1]
    records alone. *)
Lemma cell_layout_take s i name :
  name ∈ lag_names ++ rolling_names ->
  lookup_col name (layout s) ≫= (fun c => c !! i)
  = lookup_col name (layout (take (S i) s)) ≫= (fun c => c !! i).
Proof.
  rewrite elem_of_app. unfold lag_names, rolling_names.
  intros [Hn|Hn].
  - apply list_elem_of_bind in Hn as (period & Hn & Hp).
    apply list_elem_of_bind in Hn as (col & Hn & Hc).
    apply list_elem_of_singleton in Hn as ->.
    rewrite !lookup_layout_lag by assumption. cbn [mbind option_bind].
    rewrite source_column_take by assumption. now rewrite shift_take.
  - apply list_elem_of_bind in Hn as (window & Hn & Hw).
    apply list_elem_of_bind in Hn as (col & Hn & Hc).
    rewrite !elem_of_cons, elem_of_nil in Hn. destruct Hn as [->|[->|[]]].
    + rewrite !lookup_layout_rolling_mean by assumption. cbn [mbind option_bind].
      rewrite source_column_take by assumption. now rewrite rolling_mean_take.
    + rewrite !lookup_layout_rolling_std by assumption. cbn [mbind option_bind].
      rewrite source_column_take by assumption. now rewrite rolling_std_take.
Qed.

Lemma lookup_col_map (g : Series -> Series) name cols :
  lookup_col name (map (fun c : string * Series => (c.1, g c.2)) cols)
  = g <$> lookup_col name cols.
Proof.
  induction cols as [|[n s] cols IH]; [reflexivity|].
  cbn [map lookup_col fst snd]. destruct (String.eqb n name); [reflexivity|exact IH].
Qed.

Lemma lookup_col_elem name cols s :
  lookup_col name cols = Some s -> (name, s) ∈ cols.
Proof.
  induction cols as [|[n s0] cols IH]; [discriminate|].
  cbn [lookup_col]. destruct (String.eqb n name) eqn:E.
  - intros [= ->]. apply String.eqb_eq in E as ->. apply list_elem_of_here.
  - intros Hs. apply list_elem_of_further. auto.
Qed.

Lemma select_keeps {B} (mask : list bool) : forall (ys : list B) j,
  length ys = length mask -> (j < length (select mask ys))%nat ->
  exists i, (j <= i)%nat /\ mask !! i = Some true
    /\ forall A (xs : list A), length xs = length mask -> select mask xs !! j = xs !! i.
Proof.
  induction mask as [|b mask IH]; intros ys j Hys Hj.
  - destruct ys; cbn in Hj; lia.
  - destruct ys as [|y ys]; [discriminate|]. cbn in Hys.
    destruct b; cbn [select] in Hj.
    + destruct j as [|j].
      * exists 0%nat. split; [lia|]. split; [reflexivity|].
        intros A [|x xs] Hlen; [discriminate|reflexivity].
      * cbn [length] in Hj.
        destruct (IH ys j ltac:(lia) ltac:(lia)) as (i & Hle & Hm & Hsel).
        exists (S i). split; [lia|]. split; [exact Hm|].
        intros A [|x xs] Hlen; [discriminate|]. cbn [select]. cbn.
        apply Hsel. cbn in Hlen. lia.
    + destruct (IH ys j ltac:(lia) Hj) as (i & Hle & Hm & Hsel).
      exists (S i). split; [lia|]. split; [exact Hm|].
      intros A [|x xs] Hlen; [discriminate|]. cbn [select]. cbn.
      apply Hsel. cbn in Hlen. lia.
Qed.

(** [dropna] only deletes rows: every row it returns is a row of the table
    it was given, at the same or a later position. *)
Lemma dropna_rows (data : DataFrame) (j : nat) :
  Forall (fun c : string * Series => length c.2 = nrows data) (columns data) ->
  (j < nrows (dropna data))%nat ->
  exists i, (j <= i < nrows data)%nat
    /\ timestamps (dropna data) !! j = timestamps data !! i
    /\ forall name, cell name j (dropna data) = cell name i data.
Proof.
  intros Hcols. unfold dropna. unfold nrows at 2. cbn [timestamps columns].
  set (keep := map (row_complete data) (seq 0 (nrows data))).
  intros Hj.
  assert (Hkeep : length keep = nrows data).
  { unfold keep. now rewrite length_map, length_seq. }
  assert (Hts : length (timestamps data) = length keep) by now rewrite Hkeep.
  destruct (select_keeps keep (timestamps data) j Hts Hj) as (i & Hle & Hm & Hsel).
  exists i. split.
  { split; [exact Hle|]. apply lookup_lt_Some in Hm. lia. }
  split; [now apply Hsel|].
  intros name. unfold cell. cbn [columns]. rewrite lookup_col_map.
  destruct (lookup_col name (columns data)) as [s|] eqn:Hs; [|reflexivity].
  cbn [fmap option_fmap option_map mbind option_bind].
  apply Hsel. rewrite Hkeep.
  apply lookup_col_elem in Hs. rewrite Forall_forall in Hcols.
  exact (Hcols _ Hs).
Qed.

Lemma feature_table_lengths df :
  Forall (fun c : string * Series => length c.2 = nrows (feature_table df))
         (columns (feature_table df)).
Proof.
  rewrite feature_table_nrows, feature_table_columns, <- (sort_values_length df).
  apply layout_lengths.
Qed.

Lemma prepare_features_cons m df :
  prepare_features (m :: df) = dropna (feature_table (m :: df)).
Proof. reflexivity. Qed.

Lemma feature_cell_prefix (df1 df2 : list Measurement) (i : nat) (name : string) :
  take (S i) (sort_values df1) = take (S i) (sort_values df2) ->
  name ∈ lag_names ++ rolling_names ->
  cell name i (feature_table df1) = cell name i (feature_table df2).
Proof.
  intros Htake Hname. unfold cell.
  rewrite !feature_table_columns.
  rewrite (cell_layout_take (sort_values df1)) by assumption.
  rewrite (cell_layout_take (sort_values df2)) by assumption.
  now rewrite Htake.
Qed.

Lemma prepared_rows_are_table_rows (df : list Measurement) (j : nat) :
  (j < nrows (prepare_features df))%nat ->
  exists i, (j <= i < length df)%nat
    /\ timestamps (prepare_features df) !! j = timestamp <$> sort_values df !! i
    /\ forall name, cell name j (prepare_features df) = cell name i (feature_table df).
Proof.
  destruct df as [|m df].
  - unfold prepare_features, empty_frame, nrows. cbn [timestamps length]. lia.
  - rewrite prepare_features_cons. generalize (m :: df) as d. intros d Hj.
    destruct (dropna_rows (feature_table d) j (feature_table_lengths d) Hj)
      as (i & Hi & Hts & Hcell).
    exists i. rewrite feature_table_nrows in Hi. split; [exact Hi|].
    split; [|exact Hcell].
    rewrite Hts, feature_table_timestamps. apply list_lookup_fmap.
Qed.

(** C4.  For a table of more than 24 records without missing values, the
    output of [prepare_features] has the input length minus 24 rows, 24
    being the largest of the lag periods and rolling windows; the output is
    the feature table without its first 24 rows, so the warm-up rows are
    dropped and no value is filled in.  (Neither hourly spacing nor a single
    city is needed for this.) *)
Theorem warm_up_rows_are_dropped (df : list Measurement) :
  Forall complete df -> (24 < length df)%nat ->
  max_list (lag_periods ++ window_sizes) = 24%nat
  /\ nrows (prepare_features df)
     = (length df - max_list (lag_periods ++ window_sizes))%nat
  /\ prepare_features df = drop_rows 24 (feature_table df).
Proof.
  intros Hdf Hlen. split; [reflexivity|].
  assert (E : prepare_features df = drop_rows 24 (feature_table df)).
  { unfold prepare_features. destruct df as [|m df]; [cbn in Hlen; lia|].
    now apply dropna_feature_table. }
  split; [|exact E].
  rewrite E. unfold nrows, drop_rows. cbn [timestamps].
  rewrite length_drop, feature_table_timestamps, length_fmap, sort_values_length.
  reflexivity.
Qed.

(** C8.  In the feature table, a lag or rolling value at row [i] is the
    same for two inputs whose time-sorted records agree up to position [i]:
    changing later rows does not change it.  Every row of the output of
    [prepare_features] is a row of that table, at the same or a later
    position of the time-sorted input, with all its cells unchanged. *)
Theorem no_look_ahead :
  (forall (df1 df2 : list Measurement) (i : nat) (name : string),
     take (S i) (sort_values df1) = take (S i) (sort_values df2) ->
     name ∈ lag_names ++ rolling_names ->
     cell name i (feature_table df1) = cell name i (feature_table df2))
  /\ (forall (df : list Measurement) (j : nat),
        (j < nrows (prepare_features df))%nat ->
        exists i, (j <= i < length df)%nat
          /\ timestamps (prepare_features df) !! j
             = timestamp <$> sort_values df !! i
          /\ forall name,
               cell name j (prepare_features df) = cell name i (feature_table df)).
Proof.
  split; [exact feature_cell_prefix|exact prepared_rows_are_table_rows].
Qed.

End FeatureProofs.

Section FeatureExamples.
Import Features Samples.

Lemma hourly_complete n : Forall complete (hourly n).
Proof.
  unfold hourly. apply Forall_fmap, Forall_forall. intros i _.
  unfold complete, reading. cbn. repeat split; eexists; reflexivity.
Qed.

(** C4, an instance: 30 hourly records leave 6 rows. *)
Lemma warm_up_rows_are_dropped_witness :
  nrows (@prepare_features sample_numpy (hourly 30)) = 6%nat.
Proof.
  apply (proj1 (proj2 (@warm_up_rows_are_dropped sample_numpy (hourly 30)
                         (hourly_complete 30) ltac:(vm_compute; lia)))).
Defined.

(** C8, an instance: replacing the 26th record leaves the rolling standard
    deviation of row 24 unchanged. *)
Lemma no_look_ahead_witness :
  cell "aqi_rolling_std_24" 24 (@feature_table sample_numpy (hourly 26))
  = cell "aqi_rolling_std_24" 24
      (@feature_table sample_numpy (hourly 25 ++ [reading 1704157200 999])).
Proof.
  apply (proj1 (@no_look_ahead sample_numpy)).
  - vm_compute. reflexivity.
  - refine (bool_decide_unpack _ _). vm_compute. exact I.
Defined.

End FeatureExamples.

(** ** Forecasting *)

Section ForecastProofs.
Import Features Forecast.
Context `{Numpy} `{Sklearn}.

(** C5.  When the hourly-resampled, forward-filled target has fewer than 48
    points, [train_arima] raises its insufficient-data error (for an empty
    table: its no-data error) wrapped by the [except] clause, leaves the
    predictor unchanged and never asks for a model fit. *)
Theorem short_series_is_rejected (self : AirQualityPredictor)
    (df : list Measurement) (target_column : string) (values : Series) :
  target_values target_column (sort_values df) = inr values ->
  (length (ts_data_of (sort_values df) values) < 48)%nat ->
  train_arima self df target_column
  = Raise self
      (Wrapped "Error training ARIMA model: "
         (ValueError match df with
                     | [] => "No training data available"
                     | _ => insufficient_data
                     end))
  /\ fits (train_arima self df target_column) = false.
Proof.
  intros Htarget Hshort.
  assert (E : train_arima self df target_column
              = Raise self
                  (Wrapped "Error training ARIMA model: "
                     (ValueError match df with
                                 | [] => "No training data available"
                                 | _ => insufficient_data
                                 end))).
  { unfold train_arima. destruct df as [|m df]; [reflexivity|].
    rewrite Htarget. apply Nat.ltb_lt in Hshort. rewrite Hshort. reflexivity. }
  split; [exact E|]. now rewrite E.
Qed.

(** X3.  With a non-empty table and at least 48 hourly points
    [train_arima] asks for a fit of order (2, 1, 2) on [ts_data]. *)
Theorem long_series_is_fitted (self : AirQualityPredictor)
    (df : list Measurement) (target_column : string) (values : Series) :
  df <> [] ->
  target_values target_column (sort_values df) = inr values ->
  (48 <= length (ts_data_of (sort_values df) values))%nat ->
  exists k, train_arima self df target_column
            = Fit (ts_data_of (sort_values df) values) (2, 1, 2)%nat k.
Proof.
  intros Hne Htarget Hlong. unfold train_arima.
  destruct df as [|m df]; [contradiction|].
  rewrite Htarget. apply Nat.ltb_ge in Hlong. rewrite Hlong. cbn [try_except].
  eexists. reflexivity.
Qed.

Lemma ffill_from_length prev s : length (ffill_from prev s) = length s.
Proof.
  revert prev. induction s as [|c s IH]; intros prev; [reflexivity|].
  cbn [ffill_from length]. now rewrite IH.
Qed.

(** The number of hourly points is the span of hours the data covers. *)
Lemma ts_data_length (first : Measurement) (rest : list Measurement) (values : Series) :
  length (ts_data_of (first :: rest) values)
  = Z.to_nat (hour_bin (timestamp (List.last (first :: rest) first))
              - hour_bin (timestamp first) + 1).
Proof.
  unfold ts_data_of, ffill. rewrite ffill_from_length.
  unfold resample_hourly_mean. now rewrite length_map, length_seq.
Qed.

(** [sort_by_importance] rearranges its argument by falling importance. *)
Lemma insert_by_importance_Permutation item sorted :
  insert_by_importance item sorted ≡ₚ item :: sorted.
Proof.
  induction sorted as [|x rest IH]; [reflexivity|].
  cbn [insert_by_importance]. destruct (Py.ltb item.2 x.2); [|reflexivity].
  rewrite IH. apply Permutation_swap.
Qed.

Lemma sort_by_importance_Permutation items : sort_by_importance items ≡ₚ items.
Proof.
  induction items as [|item items IH]; [reflexivity|].
  unfold sort_by_importance. cbn [foldr].
  rewrite insert_by_importance_Permutation. now apply Permutation_skip.
Qed.

Lemma insert_by_importance_sorted item sorted :
  Sorted (fun x y : string * Q => (y.2 <= x.2)%Q) sorted ->
  Sorted (fun x y : string * Q => (y.2 <= x.2)%Q) (insert_by_importance item sorted).
Proof.
  induction 1 as [|x rest Hrest IH Hhd]; [repeat constructor|].
  cbn [insert_by_importance]. destruct (Py.ltb item.2 x.2) eqn:E.
  - apply ltb_lt in E. constructor; [exact IH|].
    destruct rest as [|y rest]; cbn [insert_by_importance].
    + constructor. lra.
    + destruct (Py.ltb item.2 y.2); constructor; [now inversion Hhd|lra].
  - apply ltb_ge in E. constructor; [now constructor|]. now constructor.
Qed.

Lemma sort_by_importance_sorted items :
  Sorted (fun x y : string * Q => (y.2 <= x.2)%Q) (sort_by_importance items).
Proof.
  induction items as [|item items IH]; [constructor|].
  unfold sort_by_importance. cbn [foldr]. now apply insert_by_importance_sorted.
Qed.

(** C6, as amended.  When [predict_next_day_rf] returns, the predictor is
    trained and [prediction] is the raw output of its forest, the first
    value that [rf_model.predict] gives on the scaled latest row of the
    prepared table.  The point prediction is [max(0, prediction)], hence not
    negative; the interval is [[max(0, prediction - 25), prediction + 25]];
    its upper end is the point prediction plus 25 whenever the raw
    prediction is not negative; its lower end is the point prediction minus
    25 when the raw prediction is at least 25 and is 0 otherwise.  The
    importances are those of the forest, paired with the feature columns
    and sorted.  Conversely, whenever a trained predictor reads a latest row
    on which the scaler and the forest answer, [predict_next_day_rf] returns
    this output. *)
Theorem prediction_is_clamped_with_25_band (self : AirQualityPredictor)
    (current_data : list Measurement) :
  (forall r : Prediction,
     predict_next_day_rf self current_data = inr r ->
     exists (model : RandomForestRegressor) (names : list string)
            (latest_data : list Q) (latest_scaled : list (list Q))
            (prediction : Q) (others : list Q),
       is_trained self = true
       /\ rf_model self = Some model
       /\ feature_columns self = Some names
       /\ latest_row (prepare_features current_data) names = inr latest_data
       /\ transform (scaler self) [latest_data] = inr latest_scaled
       /\ predict model latest_scaled = inr (prediction :: others)
       /\ feature_importance r
          = sort_by_importance (zip names (feature_importances_ model))
       /\ predicted_aqi r = Py.max 0 prediction
       /\ prediction_interval r
          = (Py.max 0 (prediction - 25)%Q, (prediction + 25)%Q)
       /\ (0 <= predicted_aqi r)%Q
       /\ (0 <= (prediction_interval r).1)%Q
       /\ ((prediction_interval r).1 <= predicted_aqi r)%Q
       /\ (0 <= prediction -> (prediction_interval r).2 == predicted_aqi r + 25)%Q
       /\ (25 <= prediction -> (prediction_interval r).1 == predicted_aqi r - 25)%Q
       /\ (prediction < 25 -> (prediction_interval r).1 == 0)%Q)
  /\ (forall (model : RandomForestRegressor) (names : list string)
             (latest_data : list Q) (latest_scaled : list (list Q))
             (prediction : Q) (others : list Q),
        is_trained self = true ->
        rf_model self = Some model ->
        feature_columns self = Some names ->
        nrows (prepare_features current_data) <> 0%nat ->
        latest_row (prepare_features current_data) names = inr latest_data ->
        transform (scaler self) [latest_data] = inr latest_scaled ->
        predict model latest_scaled = inr (prediction :: others) ->
        predict_next_day_rf self current_data
        = inr {| predicted_aqi := Py.max 0 prediction;
                 feature_importance :=
                   sort_by_importance (zip names (feature_importances_ model));
                 prediction_interval :=
                   (Py.max 0 (prediction - 25)%Q, (prediction + 25)%Q) |}).
Proof.
  split.
  - unfold predict_next_day_rf. intros r Hr.
    destruct (is_trained self); [|discriminate Hr].
    destruct (rf_model self) as [model|]; [|discriminate Hr].
    destruct current_data as [|m rest]; [discriminate Hr|].
    destruct (nrows _ =? 0)%nat; [discriminate Hr|].
    destruct (feature_columns self) as [names|]; [|discriminate Hr].
    destruct (latest_row _ names) as [e|latest_data] eqn:Hlatest; [discriminate Hr|].
    destruct (transform _ _) as [e|latest_scaled] eqn:Hscaled; [discriminate Hr|].
    destruct (predict model latest_scaled) as [e|[|prediction others]] eqn:Hpred;
      try discriminate Hr.
    injection Hr as <-.
    exists model, names, latest_data, latest_scaled, prediction, others.
    cbn [predicted_aqi prediction_interval feature_importance fst snd].
    do 9 (split; [reflexivity || assumption|]).
    destruct (py_max_cases 0 prediction) as [[-> Hp]|[-> Hp]];
      destruct (py_max_cases 0 (prediction - 25)) as [[-> Hq]|[-> Hq]];
      repeat split; intros; lra.
  - intros model names latest_data latest_scaled prediction others
      Ht Hm Hc Hrows Hlatest Hscaled Hpred.
    unfold predict_next_day_rf. rewrite Ht, Hm.
    destruct current_data as [|m rest]; [now cbn in Hrows|].
    apply Nat.eqb_neq in Hrows. rewrite Hrows, Hc, Hlatest, Hscaled, Hpred.
    reflexivity.
Qed.

End ForecastProofs.

Section ForecastExamples.
Import Features Forecast Samples.

(** C5, an instance: 30 hourly records. *)
Lemma short_series_is_rejected_witness :
  @train_arima sample_numpy sample_sklearn (trained 10) (hourly 30) "aqi"
  = Raise (trained 10)
      (Wrapped "Error training ARIMA model: " (ValueError insufficient_data))
  /\ fits (@train_arima sample_numpy sample_sklearn (trained 10) (hourly 30) "aqi") = false.
Proof.
  apply (@short_series_is_rejected sample_numpy sample_sklearn (trained 10) (hourly 30) "aqi"
           (aqi <$> sort_values (hourly 30))).
  - reflexivity.
  - vm_compute. lia.
Defined.

(** The run of the sample predictor on 26 hourly records. *)
Lemma sample_run p :
  @predict_next_day_rf sample_numpy (trained p) (hourly 26) = inr (sample_prediction p).
Proof. vm_compute. reflexivity. Qed.

(** C6, an instance: a forest whose raw prediction is 140. *)
Lemma prediction_is_clamped_with_25_band_witness :
  exists prediction : Q,
    prediction = 140%Q
    /\ predicted_aqi (sample_prediction 140) = Py.max 0 prediction
    /\ prediction_interval (sample_prediction 140)
       = (Py.max 0 (prediction - 25)%Q, (prediction + 25)%Q).
Proof.
  destruct (proj1 (@prediction_is_clamped_with_25_band sample_numpy (trained 140)
                     (hourly 26)) (sample_prediction 140) (sample_run 140))
    as (model & names & latest_data & latest_scaled & prediction & others
        & _ & Hmodel & _ & _ & _ & Hpredict & _ & Hpoint & Hinterval & _).
  exists prediction. split; [|split; assumption].
  injection Hmodel as <-. cbn in Hpredict.
  destruct latest_scaled as [|row rows]; [discriminate Hpredict|].
  now injection Hpredict as <- _.
Defined.

(** C6 as stated fails: for a raw prediction of 10 the point prediction is
    10 and the interval is [[0, 35]], not [[-15, 35]]. *)
Lemma interval_is_not_symmetric_below_25 :
  exists r,
    @predict_next_day_rf sample_numpy (trained 10) (hourly 26) = inr r
    /\ (predicted_aqi r == 10)%Q
    /\ ((prediction_interval r).2 == predicted_aqi r + 25)%Q
    /\ ((prediction_interval r).1 == 0)%Q
    /\ ~ ((prediction_interval r).1 == predicted_aqi r - 25)%Q.
Proof.
  exists (sample_prediction 10). split; [apply sample_run|].
  split; [reflexivity|]. split; [reflexivity|]. split; [reflexivity|].
  intros E. vm_compute in E. discriminate.
Qed.

(** X3, an instance: 48 hourly records. *)
Lemma long_series_is_fitted_witness :
  exists k,
    @train_arima sample_numpy sample_sklearn (trained 10) (hourly 48) "aqi"
    = Fit (ts_data_of (sort_values (hourly 48)) (aqi <$> sort_values (hourly 48)))
          (2, 1, 2)%nat k.
Proof.
  apply (@long_series_is_fitted sample_numpy sample_sklearn (trained 10) (hourly 48)
           "aqi" (aqi <$> sort_values (hourly 48))).
  - discriminate.
  - reflexivity.
  - vm_compute. lia.
Defined.

End ForecastExamples.

(** ** The bands of the AQI: display helpers and populations at risk *)

(** Case analysis on the five comparisons that cut the AQI into bands. *)
Ltac band_split a :=
  destruct (Py.leb a 50) eqn:?; destruct (Py.leb a 100) eqn:?;
  destruct (Py.leb a 150) eqn:?; destruct (Py.leb a 200) eqn:?;
  destruct (Py.leb a 300) eqn:?;
  repeat match goal with
         | H : Py.leb _ _ = true |- _ => apply leb_le in H
         | H : Py.leb _ _ = false |- _ => apply leb_gt in H
         end;
  try (exfalso; lra).

Ltac in_band := solve [repeat split; first [lra | reflexivity]].

Section PopulationProofs.
Import Risk Population.
Local Open Scope Q_scope.

(** The six bands of the AQI, with the values the risk tables take there. *)
Lemma population_bands (aqi_value : Q) :
  (aqi_value <= 50 /\ _get_base_risk_from_aqi aqi_value = 0.05
     /\ risk_threshold aqi_value = 0.1)
  \/ (50 < aqi_value /\ aqi_value <= 100 /\ _get_base_risk_from_aqi aqi_value = 0.15
     /\ risk_threshold aqi_value = 0.1)
  \/ (100 < aqi_value /\ aqi_value <= 150 /\ _get_base_risk_from_aqi aqi_value = 0.35
     /\ risk_threshold aqi_value = 0.3)
  \/ (150 < aqi_value /\ aqi_value <= 200 /\ _get_base_risk_from_aqi aqi_value = 0.60
     /\ risk_threshold aqi_value = 0.6)
  \/ (200 < aqi_value /\ aqi_value <= 300 /\ _get_base_risk_from_aqi aqi_value = 0.85
     /\ risk_threshold aqi_value = 0.6)
  \/ (300 < aqi_value /\ _get_base_risk_from_aqi aqi_value = 1.0
     /\ risk_threshold aqi_value = 0.6).
Proof.
  unfold _get_base_risk_from_aqi, risk_threshold.
  band_split aqi_value;
    first [left; in_band | right; left; in_band | do 2 right; left; in_band
          | do 3 right; left; in_band | do 4 right; left; in_band
          | do 5 right; in_band].
Qed.

Lemma at_risk_effective city :
  exists d, d ∈ [Delhi; Mumbai; Kolkata; Chennai; Bangalore; Hyderabad]
    /\ forall aqi : Q, get_vulnerable_populations_at_risk aqi city = at_risk_with d aqi.
Proof.
  destruct (city_demographics !! city) as [d|] eqn:E.
  - exists d. split; [eapply known_city; eassumption|].
    intros aqi. unfold get_vulnerable_populations_at_risk. rewrite E. cbn zeta.
    now rewrite E.
  - exists Delhi. split; [in_list|]. intros aqi.
    unfold get_vulnerable_populations_at_risk. now rewrite E.
Qed.

Lemma at_risk_with_at d aqi :
  at_risk_with d aqi
  = (total_population ← d !! "population"%string;
     Some (foldl (assess_at d total_population (_get_base_risk_from_aqi aqi)
                            (risk_threshold aqi)) [] vulnerability_factors)).
Proof. reflexivity. Qed.

Lemma at_risk_table d :
  d ∈ [Delhi; Mumbai; Kolkata; Chennai; Bangalore; Hyderabad] ->
  forall base thr names lo hi,
    (base, thr, names, lo, hi) ∈
      [ (0.05, 0.1, ["respiratory_conditions"%string], true, false);
        (0.15, 0.1, vulnerability_factors.*1, true, false);
        (0.35, 0.3, vulnerability_factors.*1, true, false);
        (0.60, 0.6, vulnerability_factors.*1, false, false);
        (0.85, 0.6, vulnerability_factors.*1, false, true);
        (1.0, 0.6, vulnerability_factors.*1, false, true) ] ->
    exists tp l,
      d !! "population"%string = Some tp
      /\ foldl (assess_at d tp base thr) [] vulnerability_factors = l
      /\ l.*1 = names
      /\ forallb (count_ok lo hi) l = true.
Proof.
  intros Hd base thr names lo hi Hband.
  rewrite !elem_of_cons, elem_of_nil in Hd.
  rewrite !elem_of_cons, elem_of_nil in Hband.
  destruct Hd as [->|[->|[->|[->|[->|[->|[]]]]]]];
  destruct Hband as [H|[H|[H|[H|[H|[H|[]]]]]]];
    injection H as -> -> -> -> ->;
    eexists _, _; (split; [reflexivity|]); (split; [reflexivity|]);
    split; vm_compute; reflexivity.
Qed.

Lemma at_risk_levels d :
  d ∈ [Delhi; Mumbai; Kolkata; Chennai; Bangalore; Hyderabad] ->
  forall base thr lo hi,
    (base, thr, lo, hi) ∈
      [ (0.05, 0.1, true, false); (0.15, 0.1, true, false);
        (0.35, 0.3, true, false); (0.60, 0.6, false, false);
        (0.85, 0.6, false, true); (1.0, 0.6, false, true) ] ->
    exists tp,
      d !! "population"%string = Some tp
      /\ forallb (count_level_ok lo hi)
           (foldl (assess_at d tp base thr) [] vulnerability_factors) = true.
Proof.
  intros Hd base thr lo hi Hband.
  rewrite !elem_of_cons, elem_of_nil in Hd.
  rewrite !elem_of_cons, elem_of_nil in Hband.
  destruct Hd as [->|[->|[->|[->|[->|[->|[]]]]]]];
  destruct Hband as [H|[H|[H|[H|[H|[H|[]]]]]]];
    injection H as -> -> -> ->;
    eexists; (split; [reflexivity|]); vm_compute; reflexivity.
Qed.

(** X4.  For every AQI value and every city name (an unknown city is
    counted as Delhi) [get_vulnerable_populations_at_risk] returns: for an
    AQI of at most 50 only the group with respiratory conditions is reported;
    above 50 all six groups are, in the order of [vulnerability_factors].
    The result is therefore never empty. *)
Theorem at_risk_groups_reported (aqi_value : Q) (city_name : string) :
  exists l,
    get_vulnerable_populations_at_risk aqi_value city_name = Some l
    /\ (aqi_value <= 50 -> l.*1 = ["respiratory_conditions"%string])
    /\ (50 < aqi_value -> l.*1 = vulnerability_factors.*1).
Proof.
  destruct (at_risk_effective city_name) as (d & Hd & ->).
  rewrite at_risk_with_at.
  destruct (population_bands aqi_value)
    as [(B & -> & ->)|[(B1 & B2 & -> & ->)|[(B1 & B2 & -> & ->)
       |[(B1 & B2 & -> & ->)|[(B1 & B2 & -> & ->)|(B & -> & ->)]]]]].
  - destruct (at_risk_table d Hd 0.05 0.1 _ true false ltac:(in_list))
      as (tp & l & -> & <- & Hn & _).
    eexists. split; [reflexivity|]. split; [intros _; exact Hn|intros; lra].
  - destruct (at_risk_table d Hd 0.15 0.1 _ true false ltac:(in_list))
      as (tp & l & -> & <- & Hn & _).
    eexists. split; [reflexivity|]. split; [intros; lra|intros _; exact Hn].
  - destruct (at_risk_table d Hd 0.35 0.3 _ true false ltac:(in_list))
      as (tp & l & -> & <- & Hn & _).
    eexists. split; [reflexivity|]. split; [intros; lra|intros _; exact Hn].
  - destruct (at_risk_table d Hd 0.60 0.6 _ false false ltac:(in_list))
      as (tp & l & -> & <- & Hn & _).
    eexists. split; [reflexivity|]. split; [intros; lra|intros _; exact Hn].
  - destruct (at_risk_table d Hd 0.85 0.6 _ false true ltac:(in_list))
      as (tp & l & -> & <- & Hn & _).
    eexists. split; [reflexivity|]. split; [intros; lra|intros _; exact Hn].
  - destruct (at_risk_table d Hd 1.0 0.6 _ false true ltac:(in_list))
      as (tp & l & -> & <- & Hn & _).
    eexists. split; [reflexivity|]. split; [intros; lra|intros _; exact Hn].
Qed.

Lemma count_level_ok_spec lo hi e :
  count_level_ok lo hi e = true ->
  (0 <= at_risk_count e.2)%Z
  /\ (lo = true -> (at_risk_count e.2 <= total_population e.2)%Z /\ risk_level e.2 <= 1)
  /\ (hi = true -> (total_population e.2 <= at_risk_count e.2)%Z /\ 1 < risk_level e.2).
Proof.
  unfold count_level_ok. rewrite !andb_true_iff. intros [[H0 H1] H2].
  split; [lia|]. split; intros ->.
  - apply andb_true_iff in H1 as [H1 H1']. apply leb_le in H1'. split; [lia|assumption].
  - apply andb_true_iff in H2 as [H2 H2']. apply ltb_lt in H2'. split; [lia|assumption].
Qed.

(** X5.  The risk level of a group is not capped: up to an AQI of 150 it is at
    most 1 and the people counted at risk are at most the group; above an
    AQI of 200 it exceeds 1 and the count is at least the whole group. *)
Theorem at_risk_count_against_group_size (aqi_value : Q) (city_name : string) :
  exists l,
    get_vulnerable_populations_at_risk aqi_value city_name = Some l
    /\ Forall (fun e : string * AtRisk =>
                 (0 <= at_risk_count e.2)%Z
                 /\ (aqi_value <= 150 ->
                     (at_risk_count e.2 <= total_population e.2)%Z
                     /\ risk_level e.2 <= 1)
                 /\ (200 < aqi_value ->
                     (total_population e.2 <= at_risk_count e.2)%Z
                     /\ 1 < risk_level e.2)) l.
Proof.
  destruct (at_risk_effective city_name) as (d & Hd & ->).
  rewrite at_risk_with_at.
  assert (Hgen : forall base thr lo hi,
             (base, thr, lo, hi) ∈
               [ (0.05, 0.1, true, false); (0.15, 0.1, true, false);
                 (0.35, 0.3, true, false); (0.60, 0.6, false, false);
                 (0.85, 0.6, false, true); (1.0, 0.6, false, true) ] ->
             (aqi_value <= 150 -> lo = true) -> (200 < aqi_value -> hi = true) ->
             exists l,
               (total_population ← d !! "population"%string;
                Some (foldl (assess_at d total_population base thr) []
                            vulnerability_factors)) = Some l
               /\ Forall (fun e : string * AtRisk =>
                 (0 <= at_risk_count e.2)%Z
                 /\ (aqi_value <= 150 ->
                     (at_risk_count e.2 <= total_population e.2)%Z
                     /\ risk_level e.2 <= 1)
                 /\ (200 < aqi_value ->
                     (total_population e.2 <= at_risk_count e.2)%Z
                     /\ 1 < risk_level e.2)) l).
  { intros base thr lo hi Hband Hlo Hhi.
    destruct (at_risk_levels d Hd base thr lo hi Hband) as (tp & -> & Hall).
    eexists. split; [reflexivity|].
    apply Forall_forall. intros e He.
    rewrite forallb_forall in Hall. apply list_elem_of_In in He.
    destruct (count_level_ok_spec lo hi e (Hall e He)) as (H0 & H1 & H2).
    split; [exact H0|]. split; intros Ha; [apply H1|apply H2]; auto. }
  destruct (population_bands aqi_value)
    as [(B & -> & ->)|[(B1 & B2 & -> & ->)|[(B1 & B2 & -> & ->)
       |[(B1 & B2 & -> & ->)|[(B1 & B2 & -> & ->)|(B & -> & ->)]]]]].
  - apply (Hgen _ _ true false); [in_list|auto|intros; lra].
  - apply (Hgen _ _ true false); [in_list|auto|intros; lra].
  - apply (Hgen _ _ true false); [in_list|auto|intros; lra].
  - apply (Hgen _ _ false false); [in_list|intros; lra|intros; lra].
  - apply (Hgen _ _ false true); [in_list|intros; lra|auto].
  - apply (Hgen _ _ false true); [in_list|intros; lra|auto].
Qed.

End PopulationProofs.

Section DisplayProofs.
Import AQI Risk Population Display.
Local Open Scope Q_scope.

(** The sub-index of a concentration inside a bracket lies in the AQI range
    of that bracket. *)
Lemma sub_index_in_bracket_range p bps lo hi alo ahi c :
  breakpoints !! p = Some bps -> (lo, hi, alo, ahi) ∈ bps ->
  lo <= c -> c <= hi ->
  alo <= get_aqi_value (Some c) p /\ get_aqi_value (Some c) p <= ahi.
Proof.
  intros Hp Hb Hlo Hhi.
  pose proof (breakpoints_ascending p bps Hp) as Hasc.
  rewrite (get_aqi_value_scan p bps) by assumption.
  rewrite (ascending_interpolates bps (-1) 0 (lo, hi, alo, ahi) c)
    by (simpl; auto).
  assert (Hwide : lo < hi /\ alo <= ahi).
  { clear -Hasc Hb. revert Hasc Hb. generalize (-1) 0.
    induction bps as [|[[[l h] al] ah] rest IH]; intros x y Hasc Hin.
    - inversion Hin.
    - destruct Hasc as (_ & Hlt & _ & Haa & Hrest).
      apply elem_of_cons in Hin as [Heq|Hin]; [injection Heq as -> -> -> ->; auto|eauto]. }
  destruct Hwide as [Hlt Haa].
  pose proof (interpolate_mono lo hi alo ahi lo c Hlt Haa Hlo) as M1.
  pose proof (interpolate_mono lo hi alo ahi c hi Hlt Haa Hhi) as M2.
  rewrite interpolate_lo in M1 by assumption.
  rewrite interpolate_hi in M2 by assumption.
  split; assumption.
Qed.

(** X6.  The category shown for a sub-index is the one of the bracket the
    concentration lies in: first bracket "Good", second "Moderate", and so
    on; a concentration in no bracket is shown as "Hazardous", in maroon. *)
Theorem category_follows_bracket (p : string) :
  p ∈ pollutants ->
  (forall bps k b c,
     breakpoints !! p = Some bps -> bps !! k = Some b -> in_bracket c b ->
     categories !! k = Some (get_aqi_category (get_aqi_value (Some c) p)))
  /\ (forall c, ~ covered p c ->
        get_aqi_category (get_aqi_value (Some c) p) = "Hazardous"%string
        /\ get_aqi_color (get_aqi_value (Some c) p) = "maroon"%string).
Proof.
  intros Hp. split.
  - intros bps k [[[lo hi] alo] ahi] c Hbps Hk [Hlo Hhi].
    assert (Hb : (lo, hi, alo, ahi) ∈ bps) by (eapply list_elem_of_lookup_2; eassumption).
    destruct (sub_index_in_bracket_range p bps lo hi alo ahi c Hbps Hb Hlo Hhi)
      as [R1 R2].
    revert R1 R2. generalize (get_aqi_value (Some c) p). intros v R1 R2.
    unfold pollutants in Hp. rewrite !elem_of_cons, elem_of_nil in Hp.
    destruct Hp as [->|[->|[->|[]]]]; vm_compute in Hbps; injection Hbps as <-;
      do 6 (destruct k as [|k];
            [cbn in Hk; injection Hk as <- <- <- <-;
             unfold get_aqi_category; band_split v; reflexivity|]);
      discriminate.
  - intros c Hc.
    destruct (breakpoints_pollutants p Hp) as [bps Hbps].
    rewrite (get_aqi_value_scan p bps) by assumption.
    rewrite scan_uncovered by eauto using uncovered_Forall.
    split; reflexivity.
Qed.

Lemma category_follows_bracket_witness :
  categories !! 1%nat = Some (get_aqi_category (get_aqi_value (Some 20) "pm25")).
Proof.
  apply (proj1 (category_follows_bracket "pm25" ltac:(unfold pollutants; in_list))
           [ (0, 12, 0, 50); (12.1, 35.4, 51, 100); (35.5, 55.4, 101, 150);
             (55.5, 150.4, 151, 200); (150.5, 250.4, 201, 300);
             (250.5, 500.4, 301, 500) ] 1%nat (12.1, 35.4, 51, 100) 20).
  - reflexivity.
  - reflexivity.
  - simpl. lra.
Defined.

(** X7.  The colour, the category, the health message and the two base-risk
    tables all cut the AQI at the same five values: two AQI values of one
    category have the same colour and message and the same base risks. *)
Theorem bands_agree (a b : Q) :
  (get_aqi_category a = get_aqi_category b <-> get_aqi_color a = get_aqi_color b)
  /\ (get_aqi_category a = get_aqi_category b ->
      get_health_message a = get_health_message b
      /\ base_risk a = base_risk b
      /\ _get_base_risk_from_aqi a = _get_base_risk_from_aqi b).
Proof.
  unfold get_aqi_category, get_aqi_color, get_health_message, base_risk,
    _get_base_risk_from_aqi.
  destruct (Py.leb a 50), (Py.leb a 100), (Py.leb a 150), (Py.leb a 200), (Py.leb a 300),
    (Py.leb b 50), (Py.leb b 100), (Py.leb b 150), (Py.leb b 200), (Py.leb b 300);
    (split; [split; intros E; first [reflexivity|discriminate E]
            |intros E; first [discriminate E|repeat split; reflexivity]]).
Qed.

End DisplayProofs.

(** ** The health impact report *)

Section ImpactProofs.
Import Risk Features Population Impact Samples.
Local Open Scope Q_scope.

Lemma py_int_floor x : 0 <= x -> py_int x = Qfloor x.
Proof.
  destruct x as [n d]. unfold Qle, py_int, Qfloor. cbn. intros H.
  apply Z.quot_div_nonneg; lia.
Qed.

Lemma py_int_nonneg x : 0 <= x -> (0 <= py_int x)%Z.
Proof.
  intros H. rewrite py_int_floor by assumption.
  change 0%Z with (Qfloor 0). now apply Qfloor_resp_le.
Qed.

Lemma py_int_monotone x y : 0 <= x -> x <= y -> (py_int x <= py_int y)%Z.
Proof.
  intros Hx Hxy. rewrite !py_int_floor by lra. now apply Qfloor_resp_le.
Qed.

Lemma py_int_zero x : x == 0 -> py_int x = 0%Z.
Proof.
  intros H. rewrite py_int_floor by lra. rewrite H. reflexivity.
Qed.

Lemma max0_nonneg x : 0 <= max0 x.
Proof.
  destruct x as [v|]; cbn; [|lra].
  destruct (py_max_cases 0 v) as [[-> _]|[-> H]]; lra.
Qed.

Lemma max0_low v : v <= 0 -> max0 (Some v) == 0.
Proof.
  intros H. cbn. destruct (py_max_cases 0 v) as [[-> _]|[-> H']]; lra.
Qed.

Lemma max0_monotone v w : v <= w -> max0 (Some v) <= max0 (Some w).
Proof.
  intros H. cbn.
  destruct (py_max_cases 0 v) as [[-> ?]|[-> ?]];
    destruct (py_max_cases 0 w) as [[-> ?]|[-> ?]]; lra.
Qed.

Lemma known_population c d :
  city_demographics !! c = Some d ->
  exists population low_income,
    d !! "population"%string = Some population
    /\ d !! "low_income_percentage"%string = Some low_income
    /\ 0 < population /\ 0 <= low_income.
Proof.
  intros H. apply known_city in H. rewrite !elem_of_cons, elem_of_nil in H.
  destruct H as [->|[->|[->|[->|[->|[->|[]]]]]]];
    eexists _, _; (split; [reflexivity|]); (split; [reflexivity|]);
    (split; [reflexivity|discriminate]).
Qed.

(** The city whose demographics a call uses. *)
Lemma effective_city city :
  exists name d,
    city_demographics !! name = Some d
    /\ match city_demographics !! city with
       | None => "Delhi"%string
       | Some _ => city
       end = name.
Proof.
  destruct (city_demographics !! city) as [d|] eqn:E.
  - exists city, d. auto.
  - exists "Delhi"%string, Delhi. split; reflexivity.
Qed.

Lemma unhealthy_rows_le data : well_formed data -> (unhealthy_rows data <= nrows data)%nat.
Proof.
  intros Hwf. unfold unhealthy_rows.
  destruct (lookup_col "aqi" (columns data)) as [s|] eqn:E; [|lia].
  apply lookup_col_elem in E. unfold well_formed in Hwf.
  rewrite Forall_forall in Hwf. specialize (Hwf _ E). cbn [snd] in Hwf.
  rewrite <- Hwf. apply List.filter_length_le.
Qed.

(** X8.  An empty table gives the empty dictionary; any other table gives a
    report for a city of the demographics table with counts and excesses
    that are not negative, at most as many unhealthy days as days, and a
    percentage between 0 and 100. *)
Theorem impact_report_bounds (data : DataFrame) (city_name : string) :
  well_formed data ->
  (nrows data = 0%nat -> calculate_health_impact_metrics data city_name = NoData)
  /\ (nrows data <> 0%nat ->
      exists r,
        calculate_health_impact_metrics data city_name = Report r
        /\ is_Some (city_demographics !! impact_city r)
        /\ total_days r = nrows data
        /\ (unhealthy_days r <= total_days r)%nat
        /\ 0 <= percentage_unhealthy_days r <= 100
        /\ (0 <= excess_deaths_annual r)%Z
        /\ (0 <= excess_respiratory_cases r)%Z
        /\ (0 <= economic_impact_inr r)%Z
        /\ 0 <= who_pm25_exceedance r
        /\ 0 <= who_pm10_exceedance r
        /\ (0 <= low_income_population r)%Z).
Proof.
  intros Hwf. unfold calculate_health_impact_metrics. split.
  - intros ->. reflexivity.
  - intros Hn. apply Nat.eqb_neq in Hn. rewrite Hn.
    destruct (effective_city city_name) as (name & d & Hd & ->). rewrite Hd.
    destruct (known_population name d Hd) as (pop & li & -> & -> & Hpop & Hli).
    eexists. split; [reflexivity|].
    cbn [impact_city total_days unhealthy_days percentage_unhealthy_days
         excess_deaths_annual excess_respiratory_cases economic_impact_inr
         who_pm25_exceedance who_pm10_exceedance low_income_population].
    pose proof (unhealthy_rows_le data Hwf) as Hu.
    apply Nat.eqb_neq in Hn.
    assert (Hd1 : (0 <= py_int (pop * 0.008 * max0 (excess_per_10 (column_mean "pm25" data) 0.06)))%Z).
    { apply py_int_nonneg.
      pose proof (max0_nonneg (excess_per_10 (column_mean "pm25" data) 0.06)). nra. }
    assert (Hd2 : (0 <= py_int (pop * 0.15 * max0 (excess_per_10 (column_mean "pm25" data) 0.12)))%Z).
    { apply py_int_nonneg.
      pose proof (max0_nonneg (excess_per_10 (column_mean "pm25" data) 0.12)). nra. }
    split; [rewrite Hd; eauto|]. split; [reflexivity|]. split; [exact Hu|].
    split.
    { assert (Hpos : (0 <? nrows data)%nat = true) by (apply Nat.ltb_lt; lia).
      rewrite Hpos.
      assert (H1 : 0 <= inject_Z (Z.of_nat (unhealthy_rows data))).
      { change 0 with (inject_Z 0). rewrite <- Zle_Qle. lia. }
      assert (H2 : inject_Z (Z.of_nat (unhealthy_rows data))
                   <= inject_Z (Z.of_nat (nrows data))).
      { rewrite <- Zle_Qle. lia. }
      assert (H3 : 0 < inject_Z (Z.of_nat (nrows data))).
      { change 0 with (inject_Z 0). rewrite <- Zlt_Qlt. lia. }
      split.
      - apply Qmult_le_0_compat; [|lra]. apply Qle_shift_div_l; lra.
      - assert (inject_Z (Z.of_nat (unhealthy_rows data))
                / inject_Z (Z.of_nat (nrows data)) <= 1).
        { apply Qle_shift_div_r; lra. }
        lra. }
    split; [exact Hd1|]. split; [exact Hd2|]. split; [lia|].
    split; [apply max0_nonneg|]. split; [apply max0_nonneg|].
    apply py_int_nonneg. apply Qle_shift_div_l; [lra|]. nra.
Qed.

Lemma of_records_well_formed records : well_formed (of_records records).
Proof.
  unfold well_formed, of_records, nrows. cbn [columns timestamps].
  repeat constructor; cbn [snd]; now rewrite !length_map.
Qed.

Lemma impact_report_bounds_witness :
  exists r,
    calculate_health_impact_metrics (of_records (hourly 3)) "Pune" = Report r
    /\ impact_city r = "Delhi"%string
    /\ (unhealthy_days r <= total_days r)%nat.
Proof.
  destruct (proj2 (impact_report_bounds (of_records (hourly 3)) "Pune"
                     (of_records_well_formed _)) ltac:(discriminate))
    as (r & Hr & _ & _ & Hu & _).
  exists r. split; [exact Hr|]. split; [|exact Hu].
  vm_compute in Hr. injection Hr as <-. reflexivity.
Defined.

(** What a report holds, in terms of the mean PM2.5 and the population. *)
Lemma report_fields data city r :
  calculate_health_impact_metrics data city = Report r ->
  0 < population r
  /\ (exists d, city_demographics !! impact_city r = Some d
                /\ d !! "population"%string = Some (population r))
  /\ match city_demographics !! city with
     | None => "Delhi"%string
     | Some _ => city
     end = impact_city r
  /\ excess_deaths_annual r
     = py_int (population r * 0.008 * max0 (excess_per_10 (average_pm25 r) 0.06))
  /\ excess_respiratory_cases r
     = py_int (population r * 0.15 * max0 (excess_per_10 (average_pm25 r) 0.12))
  /\ economic_impact_inr r
     = (excess_deaths_annual r * 3500000 + excess_respiratory_cases r * 25000)%Z.
Proof.
  unfold calculate_health_impact_metrics.
  destruct (nrows data =? 0)%nat; [discriminate|].
  destruct (effective_city city) as (name & d & Hd & ->). rewrite Hd.
  destruct (known_population name d Hd) as (pop & li & Hp & Hl & Hpop & Hli).
  rewrite Hp, Hl. intros [= <-]. cbn.
  split; [exact Hpop|]. split; [eauto|]. repeat split.
Qed.

Lemma excess_per_10_low v slope :
  0 <= slope -> v <= 10 -> (v - 10) / 10 * slope <= 0.
Proof.
  intros Hs Hv.
  assert (E : (v - 10) / 10 * slope == (v - 10) * slope * (1 # 10)) by field.
  rewrite E. nra.
Qed.

Lemma excess_per_10_monotone v w slope :
  0 <= slope -> v <= w -> (v - 10) / 10 * slope <= (w - 10) / 10 * slope.
Proof.
  intros Hs Hv.
  assert (E : forall x, (x - 10) / 10 * slope == (x - 10) * slope * (1 # 10))
    by (intros x; field).
  rewrite !E. nra.
Qed.

(** X9.  When the mean PM2.5 is at most 10 (or is NaN, or the column is absent)
    no excess death, no excess illness and no cost is reported. *)
Theorem no_excess_below_10 (data : DataFrame) (city_name : string) (r : HealthImpact) :
  calculate_health_impact_metrics data city_name = Report r ->
  match average_pm25 r with
  | Some v => v <= 10
  | None => True
  end ->
  excess_deaths_annual r = 0%Z
  /\ excess_respiratory_cases r = 0%Z
  /\ economic_impact_inr r = 0%Z.
Proof.
  intros Hr Hlow.
  destruct (report_fields data city_name r Hr) as (Hpop & _ & _ & Hd & Hc & He).
  assert (Z1 : max0 (excess_per_10 (average_pm25 r) 0.06) == 0).
  { destruct (average_pm25 r) as [v|]; [|reflexivity].
    apply max0_low. apply excess_per_10_low; [lra|exact Hlow]. }
  assert (Z2 : max0 (excess_per_10 (average_pm25 r) 0.12) == 0).
  { destruct (average_pm25 r) as [v|]; [|reflexivity].
    apply max0_low. apply excess_per_10_low; [lra|exact Hlow]. }
  assert (D : excess_deaths_annual r = 0%Z).
  { rewrite Hd. apply py_int_zero. rewrite Z1. ring. }
  assert (C : excess_respiratory_cases r = 0%Z).
  { rewrite Hc. apply py_int_zero. rewrite Z2. ring. }
  split; [exact D|]. split; [exact C|]. rewrite He, D, C. reflexivity.
Qed.

Lemma no_excess_below_10_witness :
  exists r,
    calculate_health_impact_metrics (of_records [reading 0 8; reading 3600 11]) "Chennai"
    = Report r
    /\ excess_deaths_annual r = 0%Z
    /\ excess_respiratory_cases r = 0%Z
    /\ economic_impact_inr r = 0%Z.
Proof.
  eexists. split; [vm_compute; reflexivity|].
  eapply (no_excess_below_10 (of_records [reading 0 8; reading 3600 11]) "Chennai").
  - vm_compute. reflexivity.
  - vm_compute. discriminate.
Defined.

(** X10.  For one city, a higher mean PM2.5 never lowers the excess deaths, the
    excess illness cases or the cost. *)
Theorem impact_grows_with_pm25 (data1 data2 : DataFrame) (city_name : string)
    (r1 r2 : HealthImpact) (v1 v2 : Q) :
  calculate_health_impact_metrics data1 city_name = Report r1 ->
  calculate_health_impact_metrics data2 city_name = Report r2 ->
  average_pm25 r1 = Some v1 -> average_pm25 r2 = Some v2 -> v1 <= v2 ->
  (excess_deaths_annual r1 <= excess_deaths_annual r2)%Z
  /\ (excess_respiratory_cases r1 <= excess_respiratory_cases r2)%Z
  /\ (economic_impact_inr r1 <= economic_impact_inr r2)%Z.
Proof.
  intros H1 H2 A1 A2 Hle.
  destruct (report_fields _ _ _ H1) as (P1 & (d1 & K1 & Q1) & N1 & D1 & C1 & E1).
  destruct (report_fields _ _ _ H2) as (P2 & (d2 & K2 & Q2) & N2 & D2 & C2 & E2).
  assert (Hp : population r1 = population r2).
  { rewrite <- N1 in K1. rewrite <- N2 in K2. rewrite K1 in K2. injection K2 as <-.
    rewrite Q1 in Q2. now injection Q2. }
  rewrite A1 in D1, C1. rewrite A2 in D2, C2. rewrite Hp in D1, C1.
  assert (M1 : max0 (excess_per_10 (Some v1) 0.06) <= max0 (excess_per_10 (Some v2) 0.06)).
  { apply max0_monotone. apply excess_per_10_monotone; [lra|exact Hle]. }
  assert (M2 : max0 (excess_per_10 (Some v1) 0.12) <= max0 (excess_per_10 (Some v2) 0.12)).
  { apply max0_monotone. apply excess_per_10_monotone; [lra|exact Hle]. }
  pose proof (max0_nonneg (excess_per_10 (Some v1) 0.06)) as N06.
  pose proof (max0_nonneg (excess_per_10 (Some v1) 0.12)) as N12.
  assert (D : (excess_deaths_annual r1 <= excess_deaths_annual r2)%Z).
  { rewrite D1, D2. apply py_int_monotone; nra. }
  assert (C : (excess_respiratory_cases r1 <= excess_respiratory_cases r2)%Z).
  { rewrite C1, C2. apply py_int_monotone; nra. }
  split; [exact D|]. split; [exact C|]. rewrite E1, E2. lia.
Qed.

Lemma impact_grows_with_pm25_witness :
  exists r1 r2,
    calculate_health_impact_metrics (of_records [reading 0 40]) "Mumbai" = Report r1
    /\ calculate_health_impact_metrics (of_records [reading 0 90]) "Mumbai" = Report r2
    /\ (excess_deaths_annual r1 <= excess_deaths_annual r2)%Z
    /\ (excess_respiratory_cases r1 <= excess_respiratory_cases r2)%Z
    /\ (economic_impact_inr r1 <= economic_impact_inr r2)%Z.
Proof.
  eexists _, _. split; [vm_compute; reflexivity|]. split; [vm_compute; reflexivity|].
  eapply (impact_grows_with_pm25 (of_records [reading 0 40]) (of_records [reading 0 90])
            "Mumbai" _ _ 40 90).
  - vm_compute. reflexivity.
  - vm_compute. reflexivity.
  - vm_compute. reflexivity.
  - vm_compute. reflexivity.
  - lra.
Defined.

End ImpactProofs.

(** ** The vulnerability table *)

Section VulnerabilityMapProofs.
Import Risk VulnerabilityMap.
Local Open Scope Q_scope.

Lemma score_with_capped d aqi r : score_with d aqi = Some r -> r <= 1.
Proof.
  unfold score_with. destruct (foldl _ _ _) as [tr tpf].
  destruct (d !! "low_income_percentage"%string) as [li|]; [|discriminate].
  cbn [mbind option_bind]. intros [= <-].
  match goal with |- Py.min ?a ?b <= _ => destruct (py_min_cases a b) as [[-> ?]|[-> ?]] end;
    lra.
Qed.

(** The row of a known city. *)
Lemma map_row_known city demographics data :
  city_demographics !! city = Some demographics ->
  exists row,
    map_row city demographics data = Some row
    /\ map_city row = city
    /\ current_aqi row = default 150 (data !! "aqi"%string)
    /\ calculate_health_risk_score (current_aqi row) city = Some (current_risk_score row)
    /\ current_risk_score row <= 1
    /\ 0 < vulnerability_score row < 1 # 5
    /\ demographics !! "population"%string = Some (map_population row).
Proof.
  intros Hcity. unfold map_row.
  rewrite (score_known _ _ _ Hcity).
  destruct (known_city_facts _ _ Hcity) as (Hpos & (li & Hli & _) & _).
  destruct (score_with_value demographics (default 150 (data !! "aqi"%string)) li Hpos Hli)
    as (r & Hr & _).
  rewrite Hr. cbn [mbind option_bind].
  pose proof (score_with_capped _ _ _ Hr) as Hcap.
  rewrite <- (score_known _ _ _ Hcity) in Hr.
  apply known_city in Hcity.
  rewrite !elem_of_cons, elem_of_nil in Hcity.
  destruct Hcity as [->|[->|[->|[->|[->|[->|[]]]]]]];
    (eexists; split; [reflexivity|]);
    cbn [map_city current_aqi current_risk_score vulnerability_score map_population];
    (split; [reflexivity|]); (split; [reflexivity|]); (split; [exact Hr|]);
    (split; [exact Hcap|]); (split; [|reflexivity]);
    split; reflexivity.
Qed.

Lemma map_loop cities_data : forall rows,
  exists more,
    foldl (fun map_data (item : string * gmap string Q) =>
             rows ← map_data;
             match city_demographics !! item.1 with
             | Some demographics =>
                 row ← map_row item.1 demographics item.2;
                 Some (rows ++ [row])
             | None => Some rows
             end)
          (Some rows) cities_data
    = Some (rows ++ more)
    /\ map_city <$> more = filter known cities_data.*1
    /\ Forall (fun row =>
                 (exists data, (map_city row, data) ∈ cities_data
                    /\ current_aqi row = default 150 (data !! "aqi"%string))
                 /\ calculate_health_risk_score (current_aqi row) (map_city row)
                    = Some (current_risk_score row)
                 /\ current_risk_score row <= 1
                 /\ 0 < vulnerability_score row < 1 # 5)
              more.
Proof.
  induction cities_data as [|[city data] cities_data IH]; intros rows.
  - exists []. rewrite app_nil_r. repeat split; constructor.
  - cbn [foldl mbind option_bind fst snd fmap list_fmap]. rewrite filter_cons.
    destruct (city_demographics !! city) as [demographics|] eqn:Hcity.
    + destruct (map_row_known city demographics data Hcity)
        as (row & -> & Hname & Haqi & Hscore & Hcap & Hv & _).
      cbn [mbind option_bind].
      destruct (IH (rows ++ [row])) as (more & -> & Hnames & Hrows).
      exists (row :: more). rewrite <- app_assoc. split; [reflexivity|]. split.
      * rewrite decide_True by (unfold known; rewrite Hcity; eauto).
        cbn [fmap list_fmap]. now rewrite Hname, <- Hnames.
      * constructor.
        -- rewrite Hname. repeat split; try assumption; try apply Hv.
           exists data. split; [apply list_elem_of_here|exact Haqi].
        -- eapply Forall_impl; [exact Hrows|]. cbn beta.
           intros r ((d & Hd & Ha) & Hrest). split; [|exact Hrest].
           exists d. split; [now apply list_elem_of_further|exact Ha].
    + destruct (IH rows) as (more & -> & Hnames & Hrows).
      exists more. split; [reflexivity|]. split.
      * rewrite decide_False; [exact Hnames|].
        unfold known. rewrite Hcity. now intros [? ?].
      * eapply Forall_impl; [exact Hrows|]. cbn beta.
        intros r ((d & Hd & Ha) & Hrest). split; [|exact Hrest].
        exists d. split; [now apply list_elem_of_further|exact Ha].
Qed.

(** X11.  For every dictionary of cities,
    [create_vulnerability_map_data] raises no [KeyError] and returns one row
    per city of the demographics table, in the order given, skipping the
    other cities.  The AQI of a row is the "aqi" entry of the city or 150,
    its risk score is [calculate_health_risk_score] at that AQI and is at
    most 1, and its vulnerability score lies strictly between 0 and 0.2, so
    the cap at 1.0 never binds. *)
Theorem vulnerability_map_rows (cities_data : list (string * gmap string Q)) :
  exists rows,
    create_vulnerability_map_data cities_data = Some rows
    /\ map_city <$> rows = filter known cities_data.*1
    /\ Forall (fun row =>
                 (exists data, (map_city row, data) ∈ cities_data
                    /\ current_aqi row = default 150 (data !! "aqi"%string))
                 /\ calculate_health_risk_score (current_aqi row) (map_city row)
                    = Some (current_risk_score row)
                 /\ current_risk_score row <= 1
                 /\ 0 < vulnerability_score row < 1 # 5)
              rows.
Proof.
  destruct (map_loop cities_data []) as (more & Hrun & Hnames & Hrows).
  exists more. split; [exact Hrun|]. split; assumption.
Qed.

End VulnerabilityMapProofs.

(** ** The prepared table, whatever the records *)

Section PreparedTableProofs.
Import Features.
Context `{Numpy}.

(** Before row 24 the column [pm25_lag_24] is NaN, whatever the records. *)
Lemma early_row_incomplete s i :
  (i < 24)%nat -> (i < length s)%nat ->
  forallb (fun c : string * Series => notna c.2 i) (layout s) = false.
Proof.
  intros Hi Hlen. apply not_true_is_false. intros Hall.
  rewrite forallb_forall in Hall.
  assert (Hlag : lookup_col ("pm25" +:+ "_lag_" +:+ pretty 24%nat) (layout s)
                 = Some (shift 24 (column "pm25" (of_records s)))).
  { apply lookup_layout_lag; [unfold lag_periods|unfold source_columns]; in_list. }
  apply lookup_col_elem, list_elem_of_In in Hlag.
  specialize (Hall _ Hlag). cbn [snd] in Hall.
  unfold notna in Hall. rewrite shift_lookup in Hall.
  - rewrite decide_False in Hall by lia. discriminate.
  - unfold column. cbn. now rewrite length_map.
Qed.

Lemma select_skips {A} (f : nat -> bool) (k : nat) : forall n (xs : list A) a,
  (forall i, (a <= i < k)%nat -> (i < a + n)%nat -> f i = false) ->
  (length (select (map f (seq a n)) xs) <= n - (k - a))%nat.
Proof.
  induction n as [|n IH]; intros xs a Hf; [cbn; lia|].
  destruct xs as [|x xs]; [cbn; lia|].
  cbn [seq map select].
  assert (Hrest : (length (select (map f (seq (S a) n)) xs) <= n - (k - S a))%nat).
  { apply IH. intros i Hi Hn. apply Hf; lia. }
  destruct (f a) eqn:Hfa.
  - destruct (decide (a < k)%nat) as [Hlt|Hge].
    + rewrite Hf in Hfa by lia. discriminate.
    + cbn [length]. lia.
  - lia.
Qed.

Lemma prepare_features_short df :
  (nrows (prepare_features df) <= length df - 24)%nat.
Proof.
  destruct df as [|m df]; [cbn; lia|].
  rewrite prepare_features_cons. set (records := m :: df).
  unfold dropna, nrows at 1. cbn [timestamps].
  rewrite feature_table_nrows.
  etransitivity; [apply (select_skips _ 24)|lia].
  intros i Hi Hn. unfold row_complete. rewrite feature_table_columns.
  apply early_row_incomplete; [lia|]. rewrite sort_values_length. lia.
Qed.

(** [dropna] leaves no NaN. *)
Lemma dropna_full (data : DataFrame) :
  Forall (fun c : string * Series => length c.2 = nrows data) (columns data) ->
  Forall (fun c : string * Series =>
            full c.2 /\ length c.2 = nrows (dropna data))
         (columns (dropna data)).
Proof.
  intros Hcols.
  change (nrows (dropna data)) with (length (timestamps (dropna data))).
  unfold dropna. cbn [columns timestamps].
  set (keep := map (row_complete data) (seq 0 (nrows data))).
  assert (Hkeep : length keep = nrows data).
  { unfold keep. now rewrite length_map, length_seq. }
  apply Forall_fmap, Forall_forall. intros [name col] Hc.
  unfold compose. cbn [snd fst].
  rewrite Forall_forall in Hcols. pose proof (Hcols _ Hc) as Hlen. cbn [snd] in Hlen.
  assert (Hrows : forall j, (j < length (select keep col))%nat ->
            exists i, keep !! i = Some true
              /\ select keep col !! j = col !! i
              /\ (j < length (select keep (timestamps data)))%nat).
  { intros j Hj.
    destruct (select_keeps keep col j ltac:(lia) Hj) as (i & _ & Hm & Hsel).
    exists i. split; [exact Hm|]. split; [apply Hsel; lia|].
    apply lookup_lt_is_Some. rewrite (Hsel _ (timestamps data)) by (unfold nrows in Hkeep; lia).
    apply lookup_lt_is_Some. apply lookup_lt_Some in Hm. unfold nrows in Hkeep. lia. }
  split.
  - unfold full. apply Forall_lookup. intros j c Hj.
    destruct (Hrows j) as (i & Hm & Hsel & _); [eapply lookup_lt_Some; eassumption|].
    rewrite Hsel in Hj.
    unfold keep in Hm. rewrite list_lookup_fmap in Hm.
    destruct (seq 0 (nrows data) !! i) as [i'|] eqn:Hi; [|discriminate].
    apply lookup_seq in Hi as [-> _]. cbn in Hm. injection Hm as Hm.
    unfold row_complete in Hm. rewrite forallb_forall in Hm.
    apply list_elem_of_In in Hc. specialize (Hm _ Hc). cbn [snd] in Hm.
    unfold notna in Hm. rewrite Hj in Hm. destruct c; [eauto|discriminate].
  - apply Nat.le_antisymm.
    + destruct (length (select keep col)) as [|n] eqn:Hn; [lia|].
      destruct (Hrows n) as (_ & _ & _ & Hlt); lia.
    + destruct (length (select keep (timestamps data))) as [|n] eqn:Hn; [lia|].
      destruct (select_keeps keep (timestamps data) n) as (i & _ & Hm & Hsel);
        [unfold nrows in Hkeep; lia|lia|].
      assert (Hlt : (n < length (select keep col))%nat); [|lia].
      apply lookup_lt_is_Some. rewrite (Hsel _ col) by lia.
      apply lookup_lt_is_Some. apply lookup_lt_Some in Hm. lia.
Qed.

(** X12.  Whatever the records, the prepared table has no NaN, its columns
    have one value per row, and it has lost at least 24 rows. *)
Theorem prepared_table_is_complete (df : list Measurement) :
  (nrows (prepare_features df) <= length df - 24)%nat
  /\ Forall (fun c : string * Series =>
               full c.2 /\ length c.2 = nrows (prepare_features df))
            (columns (prepare_features df)).
Proof.
  split; [apply prepare_features_short|].
  destruct df as [|m df]; [constructor|].
  rewrite prepare_features_cons. apply dropna_full, feature_table_lengths.
Qed.

End PreparedTableProofs.

(** ** Training and using the forest *)

Section TrainingProofs.
Import Features Forecast Training.
Context `{Numpy} `{Forest}.

Lemma layout_names s : (layout s).*1 = prepared_columns.
Proof. reflexivity. Qed.

Lemma dropna_names data : (columns (dropna data)).*1 = (columns data).*1.
Proof.
  unfold dropna. cbn [columns]. rewrite <- list_fmap_compose.
  apply list_fmap_ext. now intros i [n s].
Qed.

Lemma prepared_names m df :
  (columns (prepare_features (m :: df))).*1 = prepared_columns.
Proof.
  rewrite prepare_features_cons, dropna_names, feature_table_columns.
  apply layout_names.
Qed.

Lemma lookup_col_names name cols :
  name ∈ cols.*1 -> is_Some (lookup_col name cols).
Proof.
  induction cols as [|[n s] cols IH]; cbn [fmap list_fmap lookup_col fst].
  - intros Hin. now apply elem_of_nil in Hin.
  - intros Hin. destruct (String.eqb n name) eqn:E; [eauto|].
    apply IH. apply elem_of_cons in Hin as [->|Hin]; [|exact Hin].
    rewrite String.eqb_refl in E. discriminate.
Qed.

(** The last row can be read on every column that the table has. *)
Lemma latest_row_total data names :
  Forall (fun name => name ∈ (columns data).*1) names ->
  exists values, latest_row data names = inr values.
Proof.
  unfold latest_row. induction 1 as [|name names Hname _ [values IH]]; cbn [foldr].
  - eauto.
  - rewrite IH. destruct (lookup_col_names _ _ Hname) as [s ->]. eauto.
Qed.

Lemma filter_agree {A} (P1 P2 : A -> Prop)
    `{!forall x, Decision (P1 x), !forall x, Decision (P2 x)} (l : list A) :
  Forall (fun x => P1 x <-> P2 x) l -> filter P1 l = filter P2 l.
Proof.
  induction 1 as [|x l Hx _ IH]; [reflexivity|].
  rewrite !filter_cons, IH. apply decide_ext. exact Hx.
Qed.

Lemma prepared_columns_kept : Forall (fun col => col ∉ exclude_cols) prepared_columns.
Proof. refine (bool_decide_unpack _ _). vm_compute. exact I. Qed.

(** The feature columns that a training records. *)
Lemma feature_column_filter m df target_column :
  filter (fun col => (col ∉ exclude_cols) /\ col <> target_column)
         (column_names (prepare_features (m :: df)))
  = filter (fun col => col <> target_column) prepared_columns.
Proof.
  unfold column_names. rewrite prepared_names, filter_app.
  replace (filter _ ["timestamp"; "city"; "location"]%string) with (@nil string).
  - cbn [app]. apply filter_agree.
    eapply Forall_impl; [apply prepared_columns_kept|].
    cbn beta. tauto.
  - rewrite !filter_cons, filter_nil.
    rewrite !decide_False; [reflexivity|..]; intros [Hex _]; apply Hex;
      unfold exclude_cols; in_list.
Qed.

Lemma feature_columns_known target_column :
  Forall (fun name => name ∈ prepared_columns)
         (filter (fun col => col <> target_column) prepared_columns).
Proof.
  apply Forall_forall. intros name Hname.
  now apply list_elem_of_filter in Hname as [_ Hname].
Qed.

(** What a run of the body of [train_random_forest] leaves behind. *)
Lemma train_body_outcome self m df target_column self' outcome :
  nrows (prepare_features (m :: df)) <> 0%nat ->
  train_random_forest_body self (m :: df) target_column = (self', outcome) ->
  arima_model self' = arima_model self
  /\ arima_fitted self' = arima_fitted self
  /\ feature_columns self'
     = Some (filter (fun col => (col ∉ exclude_cols) /\ col <> target_column)
                    (column_names (prepare_features (m :: df))))
  /\ match outcome with
     | inr _ =>
         is_trained self' = true /\ is_Some (rf_model self')
         /\ filter (fun col => (col ∉ exclude_cols) /\ col <> target_column)
                   (column_names (prepare_features (m :: df))) <> []
     | inl _ => is_trained self' = is_trained self
     end.
Proof.
  intros Hrows. unfold train_random_forest_body.
  apply Nat.eqb_neq in Hrows. rewrite Hrows. cbv zeta.
  generalize (filter (fun col => (col ∉ exclude_cols) /\ col <> target_column)
                     (column_names (prepare_features (m :: df)))).
  intros names.
  repeat match goal with
         | |- context [match ?x with _ => _ end] => destruct x eqn:?
         end;
    intros [= <- <-]; cbn; repeat split; first [reflexivity | eauto | discriminate].
Qed.

Lemma train_body_no_rows self df target_column :
  nrows (prepare_features df) = 0%nat ->
  train_random_forest_body self df target_column
  = (self, inl (no_data df "No training data available")).
Proof.
  unfold train_random_forest_body. destruct df as [|m df]; [reflexivity|].
  intros ->. reflexivity.
Qed.

(** X13.  Training the forest on at most 24 records raises, "No training
    data available" for an empty table and "No data available after feature
    preparation" otherwise, wrapped by the [except] clause, and leaves the
    predictor as it was. *)
Theorem training_needs_25_rows (self : AirQualityPredictor)
    (df : list Measurement) (target_column : string) :
  (length df <= 24)%nat ->
  train_random_forest self df target_column
  = (self, inl (Wrapped "Error training Random Forest model: "
                        (no_data df "No training data available"))).
Proof.
  intros Hlen. unfold train_random_forest.
  rewrite train_body_no_rows; [reflexivity|].
  pose proof (prepare_features_short df). lia.
Qed.

(** X14.  However a training of the forest ends, it leaves the ARIMA
    attributes alone.  When it returns metrics, the table had at least 25
    records, the predictor is marked trained, holds a forest, and its feature
    columns are the columns of the prepared table that are neither excluded
    nor the target, in table order; there is at least one.  When it raises,
    the exception is wrapped and [is_trained] keeps its value. *)
Theorem training_outcome (self self' : AirQualityPredictor)
    (df : list Measurement) (target_column : string)
    (outcome : exn + ForestMetrics) :
  train_random_forest self df target_column = (self', outcome) ->
  arima_model self' = arima_model self
  /\ arima_fitted self' = arima_fitted self
  /\ match outcome with
     | inr _ =>
         (25 <= length df)%nat
         /\ is_trained self' = true
         /\ is_Some (rf_model self')
         /\ exists names,
              feature_columns self' = Some names
              /\ names = filter (fun col => (col ∉ exclude_cols) /\ col <> target_column)
                                (column_names (prepare_features df))
              /\ names <> []
              /\ (target_column ∉ names)
              /\ Forall (fun col => col ∉ exclude_cols) names
     | inl e =>
         is_trained self' = is_trained self
         /\ exists cause, e = Wrapped "Error training Random Forest model: " cause
     end.
Proof.
  unfold train_random_forest.
  destruct (train_random_forest_body self df target_column) as [s r] eqn:Hbody.
  destruct (decide (nrows (prepare_features df) = 0%nat)) as [Hzero|Hrows].
  - rewrite train_body_no_rows in Hbody by assumption.
    injection Hbody as <- <-. intros [= <- <-]. eauto.
  - destruct df as [|m df]; [now cbn in Hrows|].
    destruct (train_body_outcome _ _ _ _ _ _ Hrows Hbody) as (Hm & Hf & Hc & Ho).
    destruct r as [e|metrics]; intros [= <- <-].
    + eauto.
    + destruct Ho as (Ht & Hr & Hne). repeat split; try assumption.
      * pose proof (prepare_features_short (m :: df)). lia.
      * eexists. split; [exact Hc|]. split; [reflexivity|]. split; [exact Hne|].
        split.
        -- intros Hin. apply list_elem_of_filter in Hin as [[_ Hneq] _].
           now apply Hneq.
        -- apply Forall_forall. intros col Hin.
           now apply list_elem_of_filter in Hin as [[Hex _] _].
Qed.

(** The last row has one value per column asked for. *)
Lemma latest_row_length data names : forall values,
  latest_row data names = inr values -> length values = length names.
Proof.
  unfold latest_row. induction names as [|name names IH]; intros values; cbn [foldr].
  - now intros [= <-].
  - destruct (foldr _ _ names) as [e|rest]; [discriminate|].
    destruct (lookup_col name (columns data)); [|discriminate].
    intros [= <-]. cbn [length]. f_equal. now apply IH.
Qed.

(** X16.  Without a trained forest every prediction raises "Random
    Forest model not trained", whatever the data; with one, a table of at
    most 24 records raises "No current data for prediction" when it is empty
    and "No data available after feature preparation" otherwise. *)
Theorem prediction_needs_training_and_25_rows (self : AirQualityPredictor)
    (current_data : list Measurement) :
  (is_trained self = false \/ rf_model self = None ->
   predict_next_day_rf self current_data
   = inl (Wrapped "Error making Random Forest prediction: "
                  (ValueError "Random Forest model not trained")))
  /\ (is_trained self = true -> is_Some (rf_model self) ->
      (length current_data <= 24)%nat ->
      predict_next_day_rf self current_data
      = inl (Wrapped "Error making Random Forest prediction: "
                     (no_data current_data "No current data for prediction"))).
Proof.
  unfold predict_next_day_rf. split.
  - intros [Ht|Hm]; [rewrite Ht; reflexivity|].
    rewrite Hm. now destruct (is_trained self).
  - intros -> [model ->] Hlen. destruct current_data as [|m df]; [reflexivity|].
    pose proof (prepare_features_short (m :: df)) as Hrows.
    replace (nrows (prepare_features (m :: df))) with 0%nat by lia.
    reflexivity.
Qed.

End TrainingProofs.

Section TrainingExamples.
Import Features Forecast Training Samples TrainingSamples.

Lemma training_needs_25_rows_witness :
  (train_random_forest (H := sample_numpy) (H0 := sample_forest) fresh (hourly 24) "aqi").1
  = fresh.
Proof.
  rewrite (training_needs_25_rows (H := sample_numpy) (H0 := sample_forest));
    [reflexivity|].
  vm_compute. lia.
Defined.

(** The training of a fresh predictor on 30 hourly records. *)
Lemma sample_training_run :
  train_random_forest (H := sample_numpy) (H0 := sample_forest) fresh (hourly 30) "aqi"
  = (sample_trained, inr sample_forest_metrics).
Proof. vm_compute. reflexivity. Qed.

Lemma training_outcome_witness :
  is_trained sample_trained = true /\ is_Some (rf_model sample_trained).
Proof.
  destruct (training_outcome (H := sample_numpy) (H0 := sample_forest)
              _ _ _ _ _ sample_training_run) as (_ & _ & _ & Ht & Hm & _).
  split; assumption.
Defined.

End TrainingExamples.

(** ** The ARIMA forecast and the performance report *)

Section PredictorProofs.
Import Features Forecast Training Predictor.
Context `{Numpy} `{Sklearn} `{Forest} `{Fitted}.
Local Open Scope Q_scope.

Lemma py_max_0 x : 0 <= Py.max 0 x.
Proof. destruct (py_max_cases 0 x) as [[-> _]|[-> ?]]; lra. Qed.

Lemma hourly_from_shape conf_int predictions : forall i items,
  hourly_from i predictions conf_int = inr items ->
  Predictor.hour <$> items = seq (i + 1) (length predictions)
  /\ Forall (fun item => 0 <= hourly_aqi item /\ 0 <= lower_bound item) items.
Proof.
  induction predictions as [|pred rest IH]; intros i items; cbn [hourly_from].
  - intros [= <-]. split; [reflexivity|constructor].
  - destruct (hourly_prediction conf_int i pred) as [e|item] eqn:Hitem; [discriminate|].
    destruct (hourly_from (S i) rest conf_int) as [e|rest_items] eqn:Hrest; [discriminate|].
    intros [= <-]. destruct (IH _ _ Hrest) as [Hhours Hpos].
    assert (Hi : Predictor.hour item = (i + 1)%nat
                 /\ 0 <= hourly_aqi item /\ 0 <= lower_bound item).
    { unfold hourly_prediction in Hitem.
      destruct conf_int as [rows|].
      - destruct (rows !! i) as [[lower upper]|]; [|discriminate].
        injection Hitem as <-. cbn. auto using py_max_0.
      - injection Hitem as <-. cbn. auto using py_max_0. }
    destruct Hi as [Hhour Hitem_pos]. split.
    + cbn [fmap list_fmap length seq]. rewrite Hhour. f_equal.
      replace (S (i + 1))%nat with (S i + 1)%nat by lia. exact Hhours.
    + constructor; assumption.
Qed.

Lemma next_day_avg_nonneg predictions : 0 <= next_day_avg predictions.
Proof. destruct predictions; cbn; [lra|apply py_max_0]. Qed.

(** X17.  When [predict_next_day_arima] returns, the next-day average,
    every hourly prediction and every lower bound are not negative, the hours
    are 1, 2, ... in order, and the summary repeats the AIC, the BIC and the
    log-likelihood of the fitted model.  When it raises, the exception is
    wrapped, and without a fitted model it is "ARIMA model not trained". *)
Theorem arima_forecast_shape (self : AirQualityPredictor) (steps : nat) :
  match predict_next_day_arima self steps with
  | inr result =>
      0 <= next_day_average result
      /\ Predictor.hour <$> hourly_predictions result
         = seq 1 (length (hourly_predictions result))
      /\ Forall (fun item => 0 <= hourly_aqi item /\ 0 <= lower_bound item)
                (hourly_predictions result)
      /\ exists fitted,
           arima_fitted self = Some fitted
           /\ model_summary result
              = {| summary_aic := aic fitted; summary_bic := bic fitted;
                   log_likelihood := llf fitted |}
  | inl e =>
      exists cause,
        e = Wrapped "Error making ARIMA prediction: " cause
        /\ (arima_fitted self = None -> cause = ValueError "ARIMA model not trained")
  end.
Proof.
  unfold predict_next_day_arima.
  destruct (arima_fitted self) as [fitted|]; [|eauto].
  destruct (forecast fitted steps) as [e|result]; [eexists; split; [reflexivity|discriminate]|].
  assert (Hshape : forall predictions conf_int,
    match
      match hourly_from 0 predictions conf_int with
      | inl e => inl (Wrapped "Error making ARIMA prediction: " e)
      | inr items =>
          inr {| next_day_average := next_day_avg predictions;
                 hourly_predictions := items;
                 model_summary :=
                   {| summary_aic := aic fitted; summary_bic := bic fitted;
                      log_likelihood := llf fitted |} |}
      end
    with
    | inr result =>
        0 <= next_day_average result
        /\ Predictor.hour <$> hourly_predictions result
           = seq 1 (length (hourly_predictions result))
        /\ Forall (fun item => 0 <= hourly_aqi item /\ 0 <= lower_bound item)
                  (hourly_predictions result)
        /\ exists fitted0,
             Some fitted = Some fitted0
             /\ model_summary result
                = {| summary_aic := aic fitted0; summary_bic := bic fitted0;
                     log_likelihood := llf fitted0 |}
    | inl e =>
        exists cause,
          e = Wrapped "Error making ARIMA prediction: " cause
          /\ (Some fitted = None -> cause = ValueError "ARIMA model not trained")
    end);
    [|destruct result as [predictions|predictions [[e|rows]|]];
      first [apply Hshape | eexists; split; [reflexivity|discriminate]]].
  intros predictions conf_int.
  destruct (hourly_from 0 predictions conf_int) as [e|items] eqn:Hitems;
    [eexists; split; [reflexivity|discriminate]|].
  destruct (hourly_from_shape _ _ _ _ Hitems) as [Hhours Hpos].
  cbn [next_day_average hourly_predictions model_summary].
  split; [apply next_day_avg_nonneg|]. split.
  - rewrite Hhours. f_equal. rewrite <- (length_fmap Predictor.hour items), Hhours.
    now rewrite length_seq.
  - split; [exact Hpos|]. eauto.
Qed.

Lemma run_with_try_except {A} prefix (body : Run A) : forall outcomes,
  run_with outcomes (try_except prefix body)
  = (fun sr : AirQualityPredictor * (exn + A) =>
       (sr.1, match sr.2 with
              | inl e => inl (Wrapped prefix e)
              | inr a => inr a
              end)) <$> run_with outcomes body.
Proof.
  induction body as [self a|self e|endog order k IH]; intros outcomes;
    cbn [try_except run_with]; [reflexivity..|].
  destruct outcomes as [|outcome outcomes]; [reflexivity|apply IH].
Qed.

(** How a run of [arima_metrics] ends. *)
Lemma arima_metrics_ends self ts_data fitted outcomes self' r :
  run_with outcomes (arima_metrics self ts_data fitted) = Some (self', r) ->
  match r with
  | inl _ => self' = self
  | inr metrics =>
      self' = with_arima_fitted self fitted
      /\ metrics_aic metrics = aic fitted /\ metrics_bic metrics = bic fitted
  end.
Proof.
  unfold arima_metrics.
  repeat match goal with
         | |- context [match ?x with _ => _ end] => destruct x
         end;
    cbn [run_with]; intros [= <- <-]; auto.
Qed.

(** How a run of the body of [train_arima] ends. *)
Lemma train_arima_ends self df target_column outcomes self' r :
  run_with outcomes (train_arima self df target_column) = Some (self', r) ->
  rf_model self' = rf_model self /\ scaler self' = scaler self
  /\ feature_columns self' = feature_columns self
  /\ is_trained self' = is_trained self
  /\ match r with
     | inl e =>
         arima_fitted self' = arima_fitted self
         /\ exists cause, e = Wrapped "Error training ARIMA model: " cause
     | inr metrics =>
         exists fitted rest,
           outcomes = inr fitted :: rest
           /\ arima_fitted self' = Some fitted
           /\ metrics_aic metrics = aic fitted /\ metrics_bic metrics = bic fitted
     end.
Proof.
  unfold train_arima. rewrite run_with_try_except.
  destruct (run_with outcomes _) as [[s r0]|] eqn:Hrun; [|discriminate].
  cbn [fmap option_fmap option_map fst snd]. intros [= <- <-].
  assert (Hbody :
    rf_model s = rf_model self /\ scaler s = scaler self
    /\ feature_columns s = feature_columns self
    /\ is_trained s = is_trained self
    /\ match r0 with
       | inl _ => arima_fitted s = arima_fitted self
       | inr metrics =>
           exists fitted rest,
             outcomes = inr fitted :: rest
             /\ arima_fitted s = Some fitted
             /\ metrics_aic metrics = aic fitted /\ metrics_bic metrics = bic fitted
       end).
  { destruct df as [|m df]; [injection Hrun as <- <-; auto|].
    destruct (target_values target_column (sort_values (m :: df))) as [e|values];
      [injection Hrun as <- <-; auto|].
    cbv zeta in Hrun.
    destruct (length (ts_data_of (sort_values (m :: df)) values) <? 48)%nat;
      [injection Hrun as <- <-; auto|].
    cbn [run_with] in Hrun.
    destruct outcomes as [|[e|fitted] rest]; [discriminate Hrun| |].
    - cbn [run_with] in Hrun. injection Hrun as <- <-. auto.
    - apply arima_metrics_ends in Hrun.
      destruct r0 as [e|metrics].
      + subst s. auto.
      + destruct Hrun as (-> & Haic & Hbic). repeat split; eauto 8. }
  destruct Hbody as (Hrf & Hsc & Hfc & Htr & Hr).
  repeat split; try assumption.
  destruct r0 as [e|metrics]; eauto.
Qed.

(** X18.  However a run of [train_arima] ends, the forest, the scaler, the
    feature columns and [is_trained] are as before: the performance report
    changes at most in its ARIMA entry, and [predict_next_day_rf] behaves as
    before. *)
Theorem arima_training_frame (self self' : AirQualityPredictor)
    (df : list Measurement) (target_column : string)
    (outcomes : list (exn + ARIMAResults)) (r : exn + Metrics) :
  run_with outcomes (train_arima self df target_column) = Some (self', r) ->
  rf_model self' = rf_model self /\ scaler self' = scaler self
  /\ feature_columns self' = feature_columns self
  /\ is_trained self' = is_trained self
  /\ get_model_performance self'
     = match get_model_performance self with
       | error message => error message
       | models random_forest _ =>
           models random_forest
             ((fun fitted =>
                 {| arima_model_type := "ARIMA"; arima_order := model_order fitted;
                    arima_aic := aic fitted; arima_bic := bic fitted |})
                <$> arima_fitted self')
       end
  /\ forall current_data,
       predict_next_day_rf self' current_data = predict_next_day_rf self current_data.
Proof.
  intros Hrun.
  destruct (train_arima_ends _ _ _ _ _ _ Hrun) as (Hrf & Hsc & Hfc & Htr & _).
  repeat split; try assumption.
  - unfold get_model_performance. rewrite Htr, Hrf, Hfc.
    now destruct (is_trained self).
  - intros current_data. unfold predict_next_day_rf. rewrite Htr, Hrf, Hfc, Hsc.
    reflexivity.
Qed.

(** X19.  After a run of [train_arima] on a predictor whose forest is
    not trained, [get_model_performance] still reports "Models not trained
    yet".  If the run returned metrics, the model summary of every later
    forecast repeats their AIC and BIC; if it raised and no model was fitted
    before, every forecast raises "ARIMA model not trained". *)
Theorem arima_forecast_after_training (self self' : AirQualityPredictor)
    (df : list Measurement) (target_column : string)
    (outcomes : list (exn + ARIMAResults)) (r : exn + Metrics) :
  run_with outcomes (train_arima self df target_column) = Some (self', r) ->
  (is_trained self = false ->
   get_model_performance self' = error "Models not trained yet")
  /\ match r with
     | inr metrics =>
         forall steps result,
           predict_next_day_arima self' steps = inr result ->
           summary_aic (model_summary result) = metrics_aic metrics
           /\ summary_bic (model_summary result) = metrics_bic metrics
     | inl _ =>
         arima_fitted self = None ->
         forall steps,
           predict_next_day_arima self' steps
           = inl (Wrapped "Error making ARIMA prediction: "
                          (ValueError "ARIMA model not trained"))
     end.
Proof.
  intros Hrun.
  destruct (train_arima_ends _ _ _ _ _ _ Hrun) as (_ & _ & _ & Htr & Hr).
  split.
  - intros Huntrained. unfold get_model_performance. now rewrite Htr, Huntrained.
  - destruct r as [e|metrics].
    + destruct Hr as [Hfit _]. intros Hnone steps.
      unfold predict_next_day_arima. now rewrite Hfit, Hnone.
    + destruct Hr as (fitted & rest & _ & Hfit & Haic & Hbic).
      intros steps result. unfold predict_next_day_arima. rewrite Hfit.
      repeat match goal with
             | |- context [match ?x with _ => _ end] => destruct x
             end;
        intros [= <-]; cbn; auto.
Qed.

Lemma prepared_columns_NoDup : NoDup prepared_columns.
Proof. refine (bool_decide_unpack _ _). vm_compute. exact I. Qed.

Lemma length_filter_ne (target : string) (l : list string) :
  NoDup l ->
  length (filter (fun col => col <> target) l)
  = if decide (target ∈ l) then (length l - 1)%nat else length l.
Proof.
  induction 1 as [|x l Hx Hl IH]; [reflexivity|].
  rewrite filter_cons. destruct (decide (x = target)) as [->|Hne].
  - rewrite decide_False by tauto. rewrite decide_True by in_list.
    rewrite IH, decide_False by assumption. cbn [length]. lia.
  - rewrite decide_True by assumption. cbn [length]. rewrite IH.
    destruct (decide (target ∈ l)) as [Hin|Hin].
    + rewrite decide_True by (now apply list_elem_of_further).
      destruct l; [now apply elem_of_nil in Hin|cbn [length]; lia].
    + rewrite decide_False; [reflexivity|].
      intros Hin'. apply elem_of_cons in Hin' as [->|Hin']; tauto.
Qed.

End PredictorProofs.

Section PredictorExamples.
Import Features Forecast Training Predictor Samples TrainingSamples PredictorSamples.

(** The ARIMA training of a fresh predictor on 48 hourly records. *)
Lemma sample_arima_run :
  run_with [inr sample_fit]
    (train_arima (H := sample_numpy) (H0 := sample_sklearn) fresh (hourly 48) "aqi")
  = Some (sample_arima_trained, inr sample_arima_metrics).
Proof. vm_compute. reflexivity. Qed.

Lemma arima_training_frame_witness :
  is_trained sample_arima_trained = false
  /\ get_model_performance (H := sample_fitted) sample_arima_trained
     = error "Models not trained yet".
Proof.
  destruct (arima_training_frame (H := sample_numpy) (H0 := sample_sklearn)
              (H2 := sample_fitted) _ _ _ _ _ _ sample_arima_run)
    as (_ & _ & _ & Ht & Hp & _).
  split; [exact Ht|exact Hp].
Defined.

(** The forecast of the sample predictor for the next 24 hours. *)
Lemma sample_forecast :
  exists result,
    predict_next_day_arima (H := sample_fitted) sample_arima_trained 24 = inr result.
Proof. eexists. vm_compute. reflexivity. Qed.

Lemma arima_forecast_after_training_witness :
  exists result,
    predict_next_day_arima (H := sample_fitted) sample_arima_trained 24 = inr result
    /\ summary_aic (model_summary result) = 410%Q.
Proof.
  destruct sample_forecast as [result Hresult]. exists result.
  split; [exact Hresult|].
  destruct (arima_forecast_after_training (H := sample_numpy) (H0 := sample_sklearn)
              (H2 := sample_fitted) _ _ _ _ _ _ sample_arima_run) as [_ Hsummary].
  exact (proj1 (Hsummary 24%nat result Hresult)).
Defined.

End PredictorExamples.

(** ** The generated history *)

Section SyntheticProofs.
Import Features Forecast Synthetic.
Context `{Numpy} `{Sklearn} `{Noise}.
Local Open Scope Q_scope.

Lemma py_max_floor a floor : floor <= Py.max a floor.
Proof. destruct (py_max_cases a floor) as [[-> ?]|[-> ?]]; lra. Qed.

Lemma date_range_length start_date end_date :
  (start_date <= end_date)%Z ->
  length (date_range start_date end_date)
  = (Z.to_nat ((end_date - start_date) / 3600) + 1)%nat.
Proof.
  intros Hspan. unfold date_range.
  destruct (Z.ltb_spec end_date start_date); [lia|].
  now rewrite length_fmap, length_seq.
Qed.

Lemma date_range_lookup start_date end_date i t :
  date_range start_date end_date !! i = Some t ->
  t = (start_date + 3600 * Z.of_nat i)%Z.
Proof.
  unfold date_range. destruct (end_date <? start_date)%Z; [discriminate|].
  rewrite list_lookup_fmap.
  destruct (seq 0 _ !! i) as [k|] eqn:Hk; [|discriminate].
  apply lookup_seq in Hk as [-> _]. now intros [= <-].
Qed.

Lemma generated_length city_name start_date end_date :
  length (_generate_historical_data city_name start_date end_date)
  = length (date_range start_date end_date).
Proof. unfold _generate_historical_data. apply length_imap. Qed.

Lemma generated_lookup city_name start_date end_date i m :
  _generate_historical_data city_name start_date end_date !! i = Some m ->
  m = historical_record city_name i (start_date + 3600 * Z.of_nat i)%Z.
Proof.
  unfold _generate_historical_data. rewrite list_lookup_imap.
  destruct (date_range start_date end_date !! i) as [t|] eqn:Ht; [|discriminate].
  apply date_range_lookup in Ht as ->. now intros [= <-].
Qed.

Lemma generated_complete city_name start_date end_date :
  Forall complete (_generate_historical_data city_name start_date end_date).
Proof.
  apply Forall_lookup. intros i m Hm. apply generated_lookup in Hm as ->.
  unfold complete, historical_record. cbn [pm25 pm10 no2 so2 o3 co aqi].
  repeat split; eauto.
Qed.

(** X21.  The generated history has one record per hour from
    [start_date] up to [end_date] (none when [end_date] is earlier).  Each
    record carries the city name and the location "<city> Central", and its
    values are not below the floors of the code: 5 for pm25, 10 for pm10, 5
    for no2, 2 for so2, 10 for o3, 0.1 for co and 10 for the AQI, whatever
    the random draws. *)
Theorem generated_history_shape (city_name : string) (start_date end_date : Z) :
  let df := _generate_historical_data city_name start_date end_date in
  length df
  = (if (end_date <? start_date)%Z then 0
     else Z.to_nat ((end_date - start_date) / 3600) + 1)%nat
  /\ forall i m, df !! i = Some m ->
       timestamp m = (start_date + 3600 * Z.of_nat i)%Z
       /\ (timestamp m <= end_date)%Z
       /\ city m = city_name
       /\ location m = city_name +:+ " Central"
       /\ at_least 5 (pm25 m) /\ at_least 10 (pm10 m) /\ at_least 5 (no2 m)
       /\ at_least 2 (so2 m) /\ at_least 10 (o3 m) /\ at_least 0.1 (co m)
       /\ at_least 10 (aqi m).
Proof.
  cbv zeta. split.
  - rewrite generated_length. unfold date_range.
    destruct (end_date <? start_date)%Z; [reflexivity|].
    now rewrite length_fmap, length_seq.
  - intros i m Hm. pose proof (lookup_lt_Some _ _ _ Hm) as Hi.
    rewrite generated_length in Hi. apply generated_lookup in Hm as ->.
    unfold historical_record, at_least.
    cbn [timestamp city location pm25 pm10 no2 so2 o3 co aqi].
    split; [reflexivity|]. split.
    { unfold date_range in Hi. destruct (Z.ltb_spec end_date start_date); [cbn in Hi; lia|].
      rewrite length_fmap, length_seq in Hi.
      assert (Hk : (Z.of_nat i <= (end_date - start_date) / 3600)%Z).
      { assert (0 <= (end_date - start_date) / 3600)%Z by (apply Z.div_pos; lia). lia. }
      pose proof (Z.mul_div_le (end_date - start_date) 3600 ltac:(lia)). lia. }
    repeat split; eauto using py_max_floor.
Qed.

Lemma not_later_transitive : Transitive not_later.
Proof. intros a b c. unfold not_later. lia. Qed.

Lemma not_later_total : Total not_later.
Proof. intros a b. unfold not_later. lia. Qed.

Lemma generated_timestamp city_name i t :
  timestamp (historical_record city_name i t) = t.
Proof. reflexivity. Qed.

Lemma hourly_records_sorted (f : nat -> Z -> Measurement) (start_date : Z) :
  forall n a,
    (forall i t, timestamp (f i t) = t) ->
    Sorted not_later
      (imap f ((fun k => (start_date + 3600 * Z.of_nat k)%Z) <$> seq a n)).
Proof.
  intros n. revert f. induction n as [|n IH]; intros f a Hf; [constructor|].
  cbn [seq fmap list_fmap imap]. constructor.
  - apply IH. intros i t. apply Hf.
  - destruct n as [|n]; constructor.
    unfold not_later. cbn [compose]. rewrite !Hf. lia.
Qed.

(** The generated history is in the order of its timestamps. *)
Lemma generated_sorted city_name start_date end_date :
  sort_values (_generate_historical_data city_name start_date end_date)
  = _generate_historical_data city_name start_date end_date.
Proof.
  unfold sort_values.
  apply (@Sorted_unique_strong _ not_later not_later_transitive).
  - intros x1 x2 Hx1 Hx2 Hle Hge.
    rewrite merge_sort_Permutation in Hx1.
    apply list_elem_of_lookup in Hx1 as [i1 Hx1], Hx2 as [i2 Hx2].
    apply generated_lookup in Hx1, Hx2. subst x1 x2.
    unfold not_later in Hle, Hge. rewrite !generated_timestamp in Hle, Hge.
    assert (i1 = i2) as -> by lia. reflexivity.
  - apply (@Sorted_merge_sort _ not_later _ not_later_total).
  - unfold _generate_historical_data, date_range.
    destruct (end_date <? start_date)%Z; [constructor|].
    apply hourly_records_sorted. intros i t. apply generated_timestamp.
  - apply merge_sort_Permutation.
Qed.

Lemma hour_bin_shift t k : hour_bin (t + 3600 * k) = (hour_bin t + k)%Z.
Proof.
  unfold hour_bin. rewrite (Z.mul_comm 3600 k). now rewrite Z.div_add by lia.
Qed.

Lemma lookup_last {A} (l : list A) : forall x d,
  (x :: l) !! length l = Some (List.last (x :: l) d).
Proof.
  induction l as [|y l IH]; intros x d; [reflexivity|].
  cbn [length]. change ((x :: y :: l) !! S (length l)) with ((y :: l) !! length l).
  now rewrite (IH y d).
Qed.

(** The generated history has one hourly point per record. *)
Lemma generated_ts_data_length city_name start_date end_date values :
  length (ts_data_of (_generate_historical_data city_name start_date end_date) values)
  = length (_generate_historical_data city_name start_date end_date).
Proof.
  destruct (_generate_historical_data city_name start_date end_date)
    as [|first rest] eqn:Hdf; [reflexivity|].
  rewrite ts_data_length.
  assert (Hfirst : first = historical_record city_name 0
                             (start_date + 3600 * Z.of_nat 0)%Z).
  { apply (generated_lookup city_name start_date end_date). now rewrite Hdf. }
  assert (Hlast : List.last (first :: rest) first
                  = historical_record city_name (length rest)
                      (start_date + 3600 * Z.of_nat (length rest))%Z).
  { apply (generated_lookup city_name start_date end_date). rewrite Hdf.
    apply lookup_last. }
  rewrite Hlast, Hfirst at 1. rewrite !generated_timestamp, !hour_bin_shift.
  cbn [length]. lia.
Qed.

(** X22.  On a generated history with [start_date <= end_date],
    feature preparation drops exactly the first 24 records, and [train_arima]
    sees one hourly point per record: with fewer than 48 records it raises
    the insufficient-data error, otherwise it asks for a fit of order
    (2, 1, 2) on a series of that length. *)
Theorem generated_history_feeds_training (self : AirQualityPredictor)
    (city_name : string) (start_date end_date : Z) :
  let df := _generate_historical_data city_name start_date end_date in
  (start_date <= end_date)%Z ->
  prepare_features df = drop_rows 24 (feature_table df)
  /\ nrows (prepare_features df) = (length df - 24)%nat
  /\ if (length df <? 48)%nat
     then train_arima self df "aqi"
          = Raise self (Wrapped "Error training ARIMA model: "
                                (ValueError insufficient_data))
     else exists ts_data k,
            length ts_data = length df
            /\ train_arima self df "aqi" = Fit ts_data (2, 1, 2)%nat k.
Proof.
  cbv zeta. intros Hspan.
  pose proof (generated_complete city_name start_date end_date) as Hcomplete.
  pose proof (generated_sorted city_name start_date end_date) as Hsorted.
  pose proof (date_range_length _ _ Hspan) as Hlen.
  rewrite <- (generated_length city_name) in Hlen.
  destruct (_generate_historical_data city_name start_date end_date)
    as [|m df] eqn:Hdf; [cbn in Hlen; lia|].
  rewrite prepare_features_cons, dropna_feature_table by exact Hcomplete.
  split; [reflexivity|]. split.
  { unfold drop_rows, nrows. cbn [timestamps].
    rewrite feature_table_timestamps, length_drop, length_fmap, sort_values_length.
    reflexivity. }
  unfold train_arima. rewrite Hsorted.
  change (target_values "aqi" (m :: df)) with (@inr exn _ (aqi <$> m :: df)).
  cbv zeta iota.
  rewrite <- Hdf, generated_ts_data_length, Hdf.
  destruct (length (m :: df) <? 48)%nat; [reflexivity|].
  cbn [try_except]. eexists _, _. split; [|reflexivity].
  rewrite <- Hdf. apply generated_ts_data_length.
Qed.

End SyntheticProofs.

Section SyntheticExamples.
Import Features Forecast Synthetic Samples SyntheticSamples.

Lemma generated_history_feeds_training_witness :
  nrows (prepare_features (H := sample_numpy)
           (_generate_historical_data (H := sample_numpy) (H0 := sample_noise)
              "Delhi" 1704067200 1704153600))
  = 1%nat.
Proof.
  destruct (generated_history_feeds_training (H := sample_numpy) (H0 := sample_sklearn)
              (H1 := sample_noise) (trained 10) "Delhi" 1704067200 1704153600)
    as (_ & Hrows & _); [lia|].
  rewrite Hrows. rewrite generated_length. vm_compute. reflexivity.
Defined.

End SyntheticExamples.

(** ** From the generated history to the forest's prediction *)

Section PipelineProofs.
Import Features Forecast Training Predictor Synthetic.
Context `{Numpy} `{Forest} `{Fitted} `{Noise}.

(** A generated history is empty exactly when its dates are in the wrong
    order. *)
Lemma generated_nil city_name start_date end_date :
  (end_date <? start_date)%Z = true ->
  _generate_historical_data city_name start_date end_date = [].
Proof.
  intros Horder. unfold _generate_historical_data, date_range. now rewrite Horder.
Qed.

Lemma generated_cons city_name start_date end_date :
  (end_date <? start_date)%Z = false ->
  exists m df, _generate_historical_data city_name start_date end_date = m :: df.
Proof.
  intros Horder. apply Z.ltb_ge in Horder.
  pose proof (date_range_length _ _ Horder) as Hlen.
  rewrite <- (generated_length city_name) in Hlen.
  destruct (_generate_historical_data city_name start_date end_date) as [|m df];
    [cbn in Hlen; lia|eauto].
Qed.

(** Feature preparation drops exactly 24 records of a generated history. *)
Lemma generated_prepared_rows city_name start_date end_date :
  nrows (prepare_features (_generate_historical_data city_name start_date end_date))
  = (length (_generate_historical_data city_name start_date end_date) - 24)%nat.
Proof.
  pose proof (generated_complete city_name start_date end_date) as Hcomplete.
  destruct (_generate_historical_data city_name start_date end_date) as [|m df];
    [reflexivity|].
  rewrite prepare_features_cons, dropna_feature_table by exact Hcomplete.
  unfold drop_rows, nrows. cbn [timestamps].
  now rewrite feature_table_timestamps, length_drop, length_fmap, sort_values_length.
Qed.

(** What a successful training on a generated history leaves. *)
Lemma generated_training self self' city_name start_date end_date target_column metrics :
  train_random_forest self
    (_generate_historical_data city_name start_date end_date) target_column
  = (self', inr metrics) ->
  is_trained self' = true
  /\ is_Some (rf_model self')
  /\ arima_fitted self' = arima_fitted self
  /\ feature_columns self'
     = Some (filter (fun col => col <> target_column) prepared_columns).
Proof.
  unfold train_random_forest.
  destruct (train_random_forest_body self _ target_column) as [s r] eqn:Hbody.
  destruct r as [cause|m]; intros [= -> ->].
  destruct (_generate_historical_data city_name start_date end_date) as [|m df];
    [discriminate Hbody|].
  assert (Hrows : nrows (prepare_features (m :: df)) <> 0%nat).
  { intros Hzero. rewrite train_body_no_rows in Hbody by assumption.
    discriminate Hbody. }
  destruct (train_body_outcome _ _ _ _ _ _ Hrows Hbody)
    as (_ & Hfit & Hc & Ht & Hr & _).
  rewrite feature_column_filter in Hc. auto.
Qed.

(** X15.  After a successful training on a generated history the feature
    columns are the 58 numeric columns of the prepared table other than the
    target, and a prediction on a generated history (of any city and dates)
    finds them all: it raises "No current data for prediction" when the
    dates are in the wrong order, "No data available after feature
    preparation" when there are at most 24 records, and otherwise reads one
    value per feature column from the latest row and returns or raises what
    the scaler and the forest make of that row. *)
Theorem prediction_after_training_on_generated_history
    (self self' : AirQualityPredictor) (target_column : string)
    (metrics : ForestMetrics)
    (city_name : string) (start_date end_date : Z)
    (current_city : string) (current_start current_end : Z) :
  train_random_forest self
    (_generate_historical_data city_name start_date end_date) target_column
  = (self', inr metrics) ->
  exists model names,
    rf_model self' = Some model
    /\ feature_columns self' = Some names
    /\ names = filter (fun col => col <> target_column) prepared_columns
    /\ let current_data :=
         _generate_historical_data current_city current_start current_end in
       if (current_end <? current_start)%Z
       then predict_next_day_rf self' current_data
            = inl (Wrapped "Error making Random Forest prediction: "
                           (ValueError "No current data for prediction"))
       else if (length current_data <=? 24)%nat
       then predict_next_day_rf self' current_data
            = inl (Wrapped "Error making Random Forest prediction: "
                           (ValueError "No data available after feature preparation"))
       else exists latest_data,
              latest_row (prepare_features current_data) names = inr latest_data
              /\ length latest_data = length names
              /\ predict_next_day_rf self' current_data
                 = forest_answer self' model names latest_data.
Proof.
  intros Htrain.
  destruct (generated_training _ _ _ _ _ _ _ Htrain) as (Ht & [model Hm] & _ & Hc).
  exists model, (filter (fun col => col <> target_column) prepared_columns).
  split; [exact Hm|]. split; [exact Hc|]. split; [reflexivity|]. cbv zeta.
  destruct (current_end <? current_start)%Z eqn:Horder.
  { rewrite generated_nil by assumption.
    unfold predict_next_day_rf. now rewrite Ht, Hm. }
  pose proof (generated_prepared_rows current_city current_start current_end) as Hrows.
  destruct (generated_cons current_city _ _ Horder) as (m & df & Hdata).
  rewrite Hdata in *.
  destruct (length (m :: df) <=? 24)%nat eqn:Hshort.
  { apply Nat.leb_le in Hshort.
    unfold predict_next_day_rf. rewrite Ht, Hm.
    replace (nrows (prepare_features (m :: df))) with 0%nat by lia.
    reflexivity. }
  apply Nat.leb_gt in Hshort.
  destruct (latest_row_total (prepare_features (m :: df))
              (filter (fun col => col <> target_column) prepared_columns))
    as [latest_data Hlatest].
  { rewrite prepared_names. apply feature_columns_known. }
  exists latest_data. split; [exact Hlatest|].
  split; [eapply latest_row_length; eassumption|].
  unfold predict_next_day_rf, forest_answer. rewrite Ht, Hm, Hc.
  replace (nrows (prepare_features (m :: df)) =? 0)%nat with false
    by (symmetry; apply Nat.eqb_neq; lia).
  rewrite Hlatest. reflexivity.
Qed.

(** X20.  After a successful training on a generated history the
    performance report has a random-forest entry with the parameters of the
    estimator and 57 features when the target is one of the 58 numeric
    columns of the prepared table (58 otherwise), and an ARIMA entry exactly
    when a fitted ARIMA model was there before. *)
Theorem performance_after_training_on_generated_history
    (self self' : AirQualityPredictor) (target_column : string)
    (metrics : ForestMetrics) (city_name : string) (start_date end_date : Z) :
  train_random_forest self
    (_generate_historical_data city_name start_date end_date) target_column
  = (self', inr metrics) ->
  exists model,
    rf_model self' = Some model
    /\ get_model_performance self'
       = models
           (Some {| forest_model_type := "Random Forest";
                    forest_n_estimators := n_estimators model;
                    forest_max_depth := max_depth model;
                    n_features := if decide (target_column ∈ prepared_columns)
                                  then 57 else 58 |})
           ((fun fitted =>
               {| arima_model_type := "ARIMA"; arima_order := model_order fitted;
                  arima_aic := aic fitted; arima_bic := bic fitted |})
              <$> arima_fitted self).
Proof.
  intros Htrain.
  destruct (generated_training _ _ _ _ _ _ _ Htrain) as (Ht & [model Hm] & Hfit & Hc).
  exists model. split; [exact Hm|].
  unfold get_model_performance. rewrite Ht, Hm, Hc, Hfit.
  cbn [negb fmap option_fmap option_map]. do 3 f_equal.
  pose proof (length_filter_ne target_column _ prepared_columns_NoDup) as Hlen.
  change (length prepared_columns) with 58%nat in Hlen.
  rewrite Hlen. rewrite bool_decide_false.
  - now destruct (decide (target_column ∈ prepared_columns)).
  - intros Hnil. rewrite Hnil in Hlen.
    destruct (decide (target_column ∈ prepared_columns)); discriminate Hlen.
Qed.

End PipelineProofs.

Section PipelineExamples.
Import Features Forecast Training Predictor Synthetic.
Import Samples TrainingSamples PredictorSamples SyntheticSamples.

(** The training of a fresh predictor on the sample history. *)
Lemma sample_history_training_run :
  train_random_forest (H := sample_numpy) (H0 := sample_forest)
    fresh sample_history "aqi"
  = (sample_history_trained, inr sample_forest_metrics).
Proof. vm_compute. reflexivity. Qed.

(** X15, an instance: trained on the sample history, the predictor answers
    150 on the same history, the prediction of the sample forest. *)
Lemma prediction_after_training_on_generated_history_witness :
  exists r,
    predict_next_day_rf (H := sample_numpy) sample_history_trained sample_history = inr r
    /\ predicted_aqi r = Py.max 0 150
    /\ length (feature_importance r) = 2%nat.
Proof.
  destruct (prediction_after_training_on_generated_history
              (H := sample_numpy) (H0 := sample_forest) (H2 := sample_noise)
              fresh sample_history_trained "aqi" sample_forest_metrics
              "Delhi" 1704067200 1704171600 "Delhi" 1704067200 1704171600
              sample_history_training_run)
    as (model & names & Hmodel & _ & Hnames & Hcurrent).
  assert (Hforest : model = constant_forest 150).
  { vm_compute in Hmodel. now injection Hmodel as <-. }
  subst model names.
  change (_generate_historical_data "Delhi" 1704067200 1704171600)
    with sample_history in Hcurrent.
  cbv zeta in Hcurrent.
  replace (length sample_history <=? 24)%nat with false in Hcurrent
    by (vm_compute; reflexivity).
  cbn [Z.ltb Z.compare Pos.compare Pos.compare_cont] in Hcurrent.
  destruct Hcurrent as (latest_data & _ & _ & Hanswer).
  rewrite Hanswer. unfold forest_answer.
  replace (transform (scaler sample_history_trained) [latest_data])
    with (@inr exn _ [latest_data]) by (vm_compute; reflexivity).
  cbn [predict constant_forest fmap list_fmap].
  eexists. split; [reflexivity|]. split; [reflexivity|].
  cbn [feature_importance feature_importances_ constant_forest].
  vm_compute. reflexivity.
Defined.

(** X20, an instance: the report after the training on the sample
    history, with the target "aqi". *)
Lemma performance_after_training_on_generated_history_witness :
  exists model,
    rf_model sample_history_trained = Some model
    /\ get_model_performance (H := sample_fitted) sample_history_trained
       = models
           (Some {| forest_model_type := "Random Forest";
                    forest_n_estimators := 100; forest_max_depth := Some 10%nat;
                    n_features := 57 |})
           None.
Proof.
  exact (performance_after_training_on_generated_history
           (H := sample_numpy) (H0 := sample_forest) (H1 := sample_fitted)
           (H2 := sample_noise)
           fresh sample_history_trained "aqi" sample_forest_metrics
           "Delhi" 1704067200 1704171600 sample_history_training_run).
Defined.

End PipelineExamples.
